(** * AppController: a model of the Vuforia sample's lifecycle class

    The cross-platform [AppController] (AppController.h / AppController.cpp)
    wraps the handle-based C API of the Vuforia Engine.  The engine is a
    closed binary, so the model treats every [vu*] function as a typed call
    answered by an arbitrary environment; the controller itself is state
    passed through a small monad.  The properties proved below hold for all
    environments unless a hypothesis constrains the answers.

    Conventions of the model
    - pointers are [ptr]: [None] is [nullptr], [Some h] an opaque handle;
    - an out-parameter is answered with the value it holds after the call;
      where the out-parameter is a data member, the call also carries the
      value it held before;
    - [assert] is active (a build without NDEBUG): a failed assertion ends
      the call with [Crashed AssertionFailed];
    - [std::chrono::steady_clock] counts nanoseconds, kept in [Z];
    - [float] arithmetic is an abstract interface ([CFloat]);
    - the arguments of a formatted [LOG] are dropped, its format is kept. *)

From Stdlib Require Import ZArith List String Bool Lia.
Import ListNotations.

Set Implicit Arguments.

Local Open Scope string_scope.
Local Open Scope Z_scope.
Local Open Scope list_scope.

(** ** Core.h: scalar types *)

Inductive VuResult : Set := VU_FAILED | VU_SUCCESS.

Definition is_success (r : VuResult) : bool :=
  match r with VU_SUCCESS => true | VU_FAILED => false end.

(** [VuBool] is a [uint32_t]; the code tests it both for truth and against
    [VU_TRUE]. *)
Definition VuBool := Z.
Definition VU_TRUE : VuBool := 1.
Definition VU_FALSE : VuBool := 0.
Definition truthy (b : VuBool) : bool := negb (b =? 0).

Definition VuErrorCode := Z.

Definition handle := Z.
Definition ptr := option handle.
Definition nullptr : ptr := None.
Definition is_null (p : ptr) : bool :=
  match p with None => true | Some _ => false end.

(** A [const char*]: [None] is the null pointer. *)
Definition cstr := option string.

Definition time_point := Z.

(** ** Enumerations of the engine headers *)

Inductive VuObservationPoseStatus : Set :=
| VU_OBSERVATION_POSE_STATUS_NO_POSE
| VU_OBSERVATION_POSE_STATUS_LIMITED
| VU_OBSERVATION_POSE_STATUS_TRACKED
| VU_OBSERVATION_POSE_STATUS_EXTENDED_TRACKED.

Inductive VuDevicePoseObservationStatusInfo : Set :=
| VU_DEVICE_POSE_OBSERVATION_STATUS_INFO_NORMAL
| VU_DEVICE_POSE_OBSERVATION_STATUS_INFO_NOT_OBSERVED
| VU_DEVICE_POSE_OBSERVATION_STATUS_INFO_UNKNOWN
| VU_DEVICE_POSE_OBSERVATION_STATUS_INFO_INITIALIZING
| VU_DEVICE_POSE_OBSERVATION_STATUS_INFO_RELOCALIZING
| VU_DEVICE_POSE_OBSERVATION_STATUS_INFO_EXCESSIVE_MOTION
| VU_DEVICE_POSE_OBSERVATION_STATUS_INFO_INSUFFICIENT_FEATURES
| VU_DEVICE_POSE_OBSERVATION_STATUS_INFO_INSUFFICIENT_LIGHT.

Inductive VuObservationType : Set :=
| VU_OBSERVATION_DEVICE_POSE_TYPE
| VU_OBSERVATION_IMAGE_TARGET_TYPE
| VU_OBSERVATION_MODEL_TARGET_TYPE.

Inductive VuRenderVBBackendType : Set :=
| VU_RENDER_VB_BACKEND_DEFAULT
| VU_RENDER_VB_BACKEND_HEADLESS
| VU_RENDER_VB_BACKEND_GLES3
| VU_RENDER_VB_BACKEND_DX11
| VU_RENDER_VB_BACKEND_METAL.

Inductive VuCameraVideoModePreset : Set :=
| VU_CAMERA_VIDEO_MODE_PRESET_DEFAULT
| VU_CAMERA_VIDEO_MODE_PRESET_OPTIMIZE_SPEED
| VU_CAMERA_VIDEO_MODE_PRESET_OPTIMIZE_QUALITY.

Inductive VuCameraFocusMode : Set :=
| VU_CAMERA_FOCUS_MODE_UNKNOWN
| VU_CAMERA_FOCUS_MODE_NORMAL
| VU_CAMERA_FOCUS_MODE_TRIGGERAUTO
| VU_CAMERA_FOCUS_MODE_CONTINUOUSAUTO
| VU_CAMERA_FOCUS_MODE_INFINITY
| VU_CAMERA_FOCUS_MODE_MACRO
| VU_CAMERA_FOCUS_MODE_FIXED.

Definition pose_status_eqb (a b : VuObservationPoseStatus) : bool :=
  match a, b with
  | VU_OBSERVATION_POSE_STATUS_NO_POSE, VU_OBSERVATION_POSE_STATUS_NO_POSE
  | VU_OBSERVATION_POSE_STATUS_LIMITED, VU_OBSERVATION_POSE_STATUS_LIMITED
  | VU_OBSERVATION_POSE_STATUS_TRACKED, VU_OBSERVATION_POSE_STATUS_TRACKED
  | VU_OBSERVATION_POSE_STATUS_EXTENDED_TRACKED,
    VU_OBSERVATION_POSE_STATUS_EXTENDED_TRACKED => true
  | _, _ => false
  end.

Definition is_relocalizing_info (i : VuDevicePoseObservationStatusInfo) : bool :=
  match i with
  | VU_DEVICE_POSE_OBSERVATION_STATUS_INFO_RELOCALIZING => true
  | _ => false
  end.

(** Engine creation error codes (Engine.h, LicenseConfig.h, RenderConfig.h,
    DriverConfig.h, PlatformConfig_Android.h); all are reported through the
    one [VuErrorCode] out-parameter of [vuEngineCreate]. *)
Definition VU_ENGINE_CREATION_ERROR_NONE : VuErrorCode := 0x0.
Definition VU_ENGINE_CREATION_ERROR_DEVICE_NOT_SUPPORTED : VuErrorCode := 0x1.
Definition VU_ENGINE_CREATION_ERROR_PERMISSION_ERROR : VuErrorCode := 0x2.
Definition VU_ENGINE_CREATION_ERROR_LICENSE_ERROR : VuErrorCode := 0x3.
Definition VU_ENGINE_CREATION_ERROR_INITIALIZATION : VuErrorCode := 0x4.
Definition VU_ENGINE_CREATION_ERROR_DRIVER_CONFIG_LOAD_ERROR : VuErrorCode := 0x100.
Definition VU_ENGINE_CREATION_ERROR_DRIVER_CONFIG_FEATURE_NOT_SUPPORTED : VuErrorCode := 0x101.
Definition VU_ENGINE_CREATION_ERROR_LICENSE_CONFIG_MISSING_KEY : VuErrorCode := 0x200.
Definition VU_ENGINE_CREATION_ERROR_LICENSE_CONFIG_INVALID_KEY : VuErrorCode := 0x201.
Definition VU_ENGINE_CREATION_ERROR_LICENSE_CONFIG_NO_NETWORK_PERMANENT : VuErrorCode := 0x202.
Definition VU_ENGINE_CREATION_ERROR_LICENSE_CONFIG_NO_NETWORK_TRANSIENT : VuErrorCode := 0x203.
Definition VU_ENGINE_CREATION_ERROR_LICENSE_CONFIG_BAD_REQUEST : VuErrorCode := 0x204.
Definition VU_ENGINE_CREATION_ERROR_LICENSE_CONFIG_KEY_CANCELED : VuErrorCode := 0x205.
Definition VU_ENGINE_CREATION_ERROR_LICENSE_CONFIG_PRODUCT_TYPE_MISMATCH : VuErrorCode := 0x206.
Definition VU_ENGINE_CREATION_ERROR_LICENSE_CONFIG_UNKNOWN : VuErrorCode := 0x207.
Definition VU_ENGINE_CREATION_ERROR_RENDER_CONFIG_UNSUPPORTED_BACKEND : VuErrorCode := 0x300.
Definition VU_ENGINE_CREATION_ERROR_RENDER_CONFIG_FAILED_TO_SET_VIDEO_BG_VIEWPORT : VuErrorCode := 0x301.
Definition VU_ENGINE_CREATION_ERROR_PLATFORM_ANDROID_CONFIG_INITIALIZATION_ERROR : VuErrorCode := 0x510.
Definition VU_ENGINE_CREATION_ERROR_PLATFORM_ANDROID_CONFIG_INVALID_ACTIVITY : VuErrorCode := 0x511.
Definition VU_ENGINE_CREATION_ERROR_PLATFORM_ANDROID_CONFIG_INVALID_JAVA_VM : VuErrorCode := 0x512.

(** ** C [float] arithmetic, kept abstract *)

Class CFloat : Type := {
  float : Type;
  (** [(float) n] *)
  float_of_int : Z -> float;
  (** the literal nearest to [num / den], e.g. [0.01f] is [float_lit 1 100] *)
  float_lit : Z -> positive -> float;
  fmul : float -> float -> float;
  fdiv : float -> float -> float;
  tanf : float -> float;
  fmax : float -> float -> float;
  (** [a >= b] and [a < b] *)
  fge : float -> float -> bool;
  flt : float -> float -> bool
}.

Section Model.

Context {CF : CFloat}.

(** ** Core.h and Engine.h: structures *)

Record VuVector2F : Type := { v2_0 : float; v2_1 : float }.
Record VuVector3F : Type := { v3_0 : float; v3_1 : float; v3_2 : float }.
Record VuVector4I : Type := { v4_0 : Z; v4_1 : Z; v4_2 : Z; v4_3 : Z }.

(** [struct VuMatrix44F { float data[16]; }] *)
Record VuMatrix44F : Type := { m44_data : list float }.

Record VuAABB : Type := { center : VuVector3F; extent : VuVector3F }.

Record VuPoseInfo : Type := {
  pi_poseStatus : VuObservationPoseStatus;
  pi_pose : VuMatrix44F
}.

Record VuRenderState : Type := {
  viewport : VuVector4I;
  vbProjectionMatrix : VuMatrix44F;
  vbMesh : ptr;
  viewMatrix : VuMatrix44F;
  projectionMatrix : VuMatrix44F
}.

Record VuRenderVideoBackgroundData : Type := {
  renderData : ptr;
  textureData : ptr;
  textureUnitData : ptr
}.

Record VuImageInfo : Type := {
  width : Z;
  height : Z;
  stride : Z;
  bufferWidth : Z;
  bufferHeight : Z;
  bufferSize : Z;
  format : Z;
  buffer : ptr
}.

Record VuImageTargetObservationTargetInfo : Type := {
  it_uniqueId : cstr;
  it_name : cstr;
  it_size : VuVector2F;
  it_bbox : VuAABB;
  it_poseOffset : VuMatrix44F
}.

Record VuModelTargetObservationTargetInfo : Type := {
  mt_uniqueId : cstr;
  mt_name : cstr;
  mt_size : VuVector3F;
  mt_bbox : VuAABB;
  activeGuideViewName : cstr;
  mt_trackingOptimization : Z;
  mt_poseOffset : VuMatrix44F;
  mt_activeStateName : cstr
}.

(** The camera intrinsics are only handed back to the engine. *)
Definition VuCameraIntrinsics := handle.

Record VuLicenseConfig : Type := { key : cstr }.

Record VuRenderConfig : Type := {
  vbRenderBackend : VuRenderVBBackendType;
  vbViewportMode : Z
}.

Record VuPlatformAndroidConfig : Type := { pac_activity : ptr; pac_javaVM : ptr }.

Record VuDevicePoseConfig : Type := { dp_activate : VuBool; dp_staticMode : VuBool }.

Record VuImageTargetConfig : Type := {
  itc_databasePath : cstr;
  itc_targetName : cstr;
  itc_activate : VuBool;
  itc_scale : float;
  itc_poseOffset : VuMatrix44F
}.

Record VuModelTargetConfig : Type := {
  mtc_databasePath : cstr;
  mtc_targetName : cstr;
  mtc_activeGuideViewName : cstr;
  mtc_activate : VuBool;
  mtc_scale : float;
  mtc_poseOffset : VuMatrix44F
}.

(** ** The engine API as typed calls

    One constructor per [vu*] function the controller uses; the index is the
    type of the answer: the returned value, paired with the contents of the
    out-parameters after the call. *)

Inductive VuCall : Type -> Type :=
(* engine configuration and lifecycle *)
| vuEngineConfigSetCreate : VuCall (VuResult * ptr)
| vuEngineConfigSetDestroy (configSet : ptr) : VuCall VuResult
| vuLicenseConfigDefault : VuCall VuLicenseConfig
| vuEngineConfigSetAddLicenseConfig (configSet : ptr) (config : VuLicenseConfig) : VuCall VuResult
| vuRenderConfigDefault : VuCall VuRenderConfig
| vuEngineConfigSetAddRenderConfig (configSet : ptr) (config : VuRenderConfig) : VuCall VuResult
| vuPlatformAndroidConfigDefault : VuCall VuPlatformAndroidConfig
| vuEngineConfigSetAddPlatformAndroidConfig (configSet : ptr) (config : VuPlatformAndroidConfig)
  : VuCall VuResult
| vuEngineCreate (engine : ptr) (configSet : ptr) : VuCall (VuResult * ptr * VuErrorCode)
| vuEngineDestroy (engine : ptr) : VuCall VuResult
| vuEngineStart (engine : ptr) : VuCall VuResult
| vuEngineStop (engine : ptr) : VuCall VuResult
| vuEngineIsRunning (engine : ptr) : VuCall VuBool
| vuEngineResetWorldTracking (engine : ptr) : VuCall VuResult
(* controllers *)
| vuEngineGetCameraController (engine : ptr) : VuCall (VuResult * ptr)
| vuEngineGetRenderController (engine : ptr) (controller : ptr) : VuCall (VuResult * ptr)
| vuEngineGetPlatformController (engine : ptr) (controller : ptr) : VuCall (VuResult * ptr)
| vuCameraControllerSetActiveVideoMode (controller : ptr) (preset : VuCameraVideoModePreset)
  : VuCall VuResult
| vuCameraControllerSetFocusMode (controller : ptr) (focusMode : VuCameraFocusMode) : VuCall VuResult
| vuPlatformControllerConvertPlatformViewOrientation (controller : ptr) (orientation : ptr)
  : VuCall (VuResult * Z)
| vuPlatformControllerSetViewOrientation (controller : ptr) (orientation : Z) : VuCall VuResult
| vuRenderControllerSetRenderViewConfig (controller : ptr) (resolution : Z * Z) : VuCall VuResult
| vuRenderControllerGetVideoBackgroundViewInfo (controller : ptr) : VuCall (VuResult * (Z * Z))
| vuRenderControllerSetProjectionMatrixNearFar (controller : ptr) (nearPlane farPlane : float)
  : VuCall VuResult
| vuRenderControllerUpdateVideoBackgroundTexture (controller : ptr) (state : ptr)
    (renderVBData : VuRenderVideoBackgroundData) : VuCall VuResult
(* observers *)
| vuDevicePoseConfigDefault : VuCall VuDevicePoseConfig
| vuEngineCreateDevicePoseObserver (engine : ptr) (observer : ptr) (config : VuDevicePoseConfig)
  : VuCall (VuResult * ptr * Z)
| vuImageTargetConfigDefault : VuCall VuImageTargetConfig
| vuEngineCreateImageTargetObserver (engine : ptr) (observer : ptr) (config : VuImageTargetConfig)
  : VuCall (VuResult * ptr * Z)
| vuModelTargetConfigDefault : VuCall VuModelTargetConfig
| vuEngineCreateModelTargetObserver (engine : ptr) (observer : ptr) (config : VuModelTargetConfig)
  : VuCall (VuResult * ptr * Z)
| vuObserverDestroy (observer : ptr) : VuCall VuResult
| vuModelTargetObserverGetGuideViews (observer : ptr) (list : ptr) : VuCall VuResult
(* state and observations *)
| vuEngineAcquireLatestState (engine : ptr) (state : ptr) : VuCall (VuResult * ptr)
| vuStateRelease (state : ptr) : VuCall VuResult
| vuStateHasCameraFrame (state : ptr) : VuCall VuBool
| vuStateGetRenderState (state : ptr) (renderState : VuRenderState) : VuCall (VuResult * VuRenderState)
| vuStateGetCameraIntrinsics (state : ptr) : VuCall (VuResult * VuCameraIntrinsics)
| vuStateGetDevicePoseObservations (state : ptr) (list : ptr) : VuCall VuResult
| vuStateGetImageTargetObservations (state : ptr) (list : ptr) : VuCall VuResult
| vuStateGetModelTargetObservations (state : ptr) (list : ptr) : VuCall VuResult
| vuObservationListCreate : VuCall (VuResult * ptr)
| vuObservationListDestroy (list : ptr) : VuCall VuResult
| vuObservationListGetSize (list : ptr) : VuCall (VuResult * Z)
| vuObservationListGetElement (list : ptr) (element : Z) : VuCall (VuResult * ptr)
| vuObservationIsType (observation : ptr) (type : VuObservationType) : VuCall VuBool
| vuObservationHasPoseInfo (observation : ptr) : VuCall VuBool
| vuObservationGetPoseInfo (observation : ptr) : VuCall (VuResult * VuPoseInfo)
| vuDevicePoseObservationGetStatusInfo (observation : ptr)
    (statusInfo : VuDevicePoseObservationStatusInfo)
  : VuCall (VuResult * VuDevicePoseObservationStatusInfo)
| vuImageTargetObservationGetTargetInfo (observation : ptr)
  : VuCall (VuResult * VuImageTargetObservationTargetInfo)
| vuModelTargetObservationGetTargetInfo (observation : ptr)
  : VuCall (VuResult * VuModelTargetObservationTargetInfo)
(* guide views and images *)
| vuGuideViewListCreate : VuCall (VuResult * ptr)
| vuGuideViewListDestroy (list : ptr) : VuCall VuResult
| vuGuideViewListGetSize (list : ptr) : VuCall (VuResult * Z)
| vuGuideViewListGetElement (list : ptr) (element : Z) : VuCall (VuResult * ptr)
| vuGuideViewGetName (guideView : ptr) : VuCall (VuResult * cstr)
| vuGuideViewIsImageOutdated (guideView : ptr) (outdated : VuBool) : VuCall (VuResult * VuBool)
| vuGuideViewGetImage (guideView : ptr) : VuCall (VuResult * ptr)
| vuImageGetImageInfo (image : ptr) (imageInfo : VuImageInfo) : VuCall (VuResult * VuImageInfo)
(* MathUtils.h *)
| vuCameraIntrinsicsGetFov (intrinsics : VuCameraIntrinsics) : VuCall VuVector2F
| vuIdentityMatrix44F : VuCall VuMatrix44F
| vuMatrix44FMultiplyMatrix (mA mB : VuMatrix44F) : VuCall VuMatrix44F
| vuMatrix44FScale (scale : VuVector3F) (m : VuMatrix44F) : VuCall VuMatrix44F
| vuMatrix44FScalingMatrix (scale : VuVector3F) : VuCall VuMatrix44F
| vuMatrix44FTranslationMatrix (trans : VuVector3F) : VuCall VuMatrix44F.

(** ** Programs over the API *)

(** What the controller emits besides engine calls: log lines and the two
    callbacks registered by [initAR], each identified by a handle. *)
Inductive output : Type :=
| OLog (message : string)
| OShowError (callback : handle) (errorString : string)
| OInitDone (callback : handle).

Inductive crash : Set :=
| AssertionFailed
| BadFunctionCall     (* an empty std::function was called *)
| NullDereference.    (* strcmp on a null string *)

Inductive prog (A : Type) : Type :=
| Ret (a : A)
| Call (T : Type) (c : VuCall T) (k : T -> prog A)
| Now (k : time_point -> prog A)
| Out (o : output) (k : prog A)
| Crash (why : crash).

Arguments Ret {A} a.
Arguments Call {A T} c k.
Arguments Now {A} k.
Arguments Out {A} o k.
Arguments Crash {A} why.

Fixpoint pbind {A B : Type} (p : prog A) (f : A -> prog B) : prog B :=
  match p with
  | Ret a => f a
  | Call c k => Call c (fun r => pbind (k r) f)
  | Now k => Now (fun t => pbind (k t) f)
  | Out o k => Out o (pbind k f)
  | Crash why => Crash why
  end.

(** One entry of the observable trace of a run. *)
Inductive entry : Type :=
| ECall (T : Type) (c : VuCall T) (r : T)
| ENow (t : time_point)
| EOut (o : output).

Arguments ECall {T} c r.

Inductive outcome (A : Type) : Type :=
| Done (a : A)
| Crashed (why : crash).

Arguments Done {A} a.
Arguments Crashed {A} why.

(** The environment: an engine and a clock over some world state [W]. *)
Record Env (W : Type) : Type := {
  vu : forall T : Type, VuCall T -> W -> T * W;
  steady_clock_now : W -> time_point * W
}.

Record result (W A : Type) : Type := {
  res : outcome A;
  world : W;
  trace : list entry
}.

Fixpoint run {W A : Type} (env : Env W) (p : prog A) (w : W) : result W A :=
  match p with
  | Ret a => {| res := Done a; world := w; trace := [] |}
  | Call c k =>
      let rw := vu env c w in
      let r := run env (k (fst rw)) (snd rw) in
      {| res := res r; world := world r; trace := ECall c (fst rw) :: trace r |}
  | Now k =>
      let tw := steady_clock_now env w in
      let r := run env (k (fst tw)) (snd tw) in
      {| res := res r; world := world r; trace := ENow (fst tw) :: trace r |}
  | Out o k =>
      let r := run env k w in
      {| res := res r; world := world r; trace := EOut o :: trace r |}
  | Crash why => {| res := Crashed why; world := w; trace := [] |}
  end.

(** ** AppController.h: the class *)

Definition IMAGE_TARGET_ID : Z := 0.
Definition MODEL_TARGET_ID : Z := 1.
Definition MAX_RELOCALIZING_SECONDS : Z := 15.

(** [AppController::InitConfig]; an empty [std::function] is [None]. *)
Record InitConfig : Type := {
  ic_vbRenderBackend : VuRenderVBBackendType;
  ic_appData : ptr;
  ic_showErrorCallback : option handle;
  ic_initDoneCallback : option handle
}.

Record DevicePoseData : Type := {
  pose : VuMatrix44F;
  poseStatus : VuObservationPoseStatus;
  poseStatusInfo : VuDevicePoseObservationStatusInfo
}.

Record AppController : Type := {
  mShowErrorCallback : option handle;
  mInitDoneCallback : option handle;
  mEngine : ptr;
  mRenderController : ptr;
  mPlatformController : ptr;
  mVbRenderBackend : VuRenderVBBackendType;
  mTarget : Z;
  mCameraVideoMode : VuCameraVideoModePreset;
  mARStarted : bool;
  mCurrentRenderState : VuRenderState;
  mDisplayAspectRatio : float;
  mDevicePoseObserver : ptr;
  mLatestDevicePoseData : DevicePoseData;
  mTimingRelocalizingState : bool;
  mEnteredRelocalizingState : time_point;
  mObjectObserver : ptr;
  mVuforiaState : ptr;
  mGuideViewModelTarget : ptr
}.

(** Assignment to one data member. *)
Definition set_mShowErrorCallback (v : option handle) (c : AppController) : AppController :=
  {| mShowErrorCallback := v;
     mInitDoneCallback := mInitDoneCallback c;
     mEngine := mEngine c;
     mRenderController := mRenderController c;
     mPlatformController := mPlatformController c;
     mVbRenderBackend := mVbRenderBackend c;
     mTarget := mTarget c;
     mCameraVideoMode := mCameraVideoMode c;
     mARStarted := mARStarted c;
     mCurrentRenderState := mCurrentRenderState c;
     mDisplayAspectRatio := mDisplayAspectRatio c;
     mDevicePoseObserver := mDevicePoseObserver c;
     mLatestDevicePoseData := mLatestDevicePoseData c;
     mTimingRelocalizingState := mTimingRelocalizingState c;
     mEnteredRelocalizingState := mEnteredRelocalizingState c;
     mObjectObserver := mObjectObserver c;
     mVuforiaState := mVuforiaState c;
     mGuideViewModelTarget := mGuideViewModelTarget c |}.

Definition set_mInitDoneCallback (v : option handle) (c : AppController) : AppController :=
  {| mShowErrorCallback := mShowErrorCallback c;
     mInitDoneCallback := v;
     mEngine := mEngine c;
     mRenderController := mRenderController c;
     mPlatformController := mPlatformController c;
     mVbRenderBackend := mVbRenderBackend c;
     mTarget := mTarget c;
     mCameraVideoMode := mCameraVideoMode c;
     mARStarted := mARStarted c;
     mCurrentRenderState := mCurrentRenderState c;
     mDisplayAspectRatio := mDisplayAspectRatio c;
     mDevicePoseObserver := mDevicePoseObserver c;
     mLatestDevicePoseData := mLatestDevicePoseData c;
     mTimingRelocalizingState := mTimingRelocalizingState c;
     mEnteredRelocalizingState := mEnteredRelocalizingState c;
     mObjectObserver := mObjectObserver c;
     mVuforiaState := mVuforiaState c;
     mGuideViewModelTarget := mGuideViewModelTarget c |}.

Definition set_mEngine (v : ptr) (c : AppController) : AppController :=
  {| mShowErrorCallback := mShowErrorCallback c;
     mInitDoneCallback := mInitDoneCallback c;
     mEngine := v;
     mRenderController := mRenderController c;
     mPlatformController := mPlatformController c;
     mVbRenderBackend := mVbRenderBackend c;
     mTarget := mTarget c;
     mCameraVideoMode := mCameraVideoMode c;
     mARStarted := mARStarted c;
     mCurrentRenderState := mCurrentRenderState c;
     mDisplayAspectRatio := mDisplayAspectRatio c;
     mDevicePoseObserver := mDevicePoseObserver c;
     mLatestDevicePoseData := mLatestDevicePoseData c;
     mTimingRelocalizingState := mTimingRelocalizingState c;
     mEnteredRelocalizingState := mEnteredRelocalizingState c;
     mObjectObserver := mObjectObserver c;
     mVuforiaState := mVuforiaState c;
     mGuideViewModelTarget := mGuideViewModelTarget c |}.

Definition set_mRenderController (v : ptr) (c : AppController) : AppController :=
  {| mShowErrorCallback := mShowErrorCallback c;
     mInitDoneCallback := mInitDoneCallback c;
     mEngine := mEngine c;
     mRenderController := v;
     mPlatformController := mPlatformController c;
     mVbRenderBackend := mVbRenderBackend c;
     mTarget := mTarget c;
     mCameraVideoMode := mCameraVideoMode c;
     mARStarted := mARStarted c;
     mCurrentRenderState := mCurrentRenderState c;
     mDisplayAspectRatio := mDisplayAspectRatio c;
     mDevicePoseObserver := mDevicePoseObserver c;
     mLatestDevicePoseData := mLatestDevicePoseData c;
     mTimingRelocalizingState := mTimingRelocalizingState c;
     mEnteredRelocalizingState := mEnteredRelocalizingState c;
     mObjectObserver := mObjectObserver c;
     mVuforiaState := mVuforiaState c;
     mGuideViewModelTarget := mGuideViewModelTarget c |}.

Definition set_mPlatformController (v : ptr) (c : AppController) : AppController :=
  {| mShowErrorCallback := mShowErrorCallback c;
     mInitDoneCallback := mInitDoneCallback c;
     mEngine := mEngine c;
     mRenderController := mRenderController c;
     mPlatformController := v;
     mVbRenderBackend := mVbRenderBackend c;
     mTarget := mTarget c;
     mCameraVideoMode := mCameraVideoMode c;
     mARStarted := mARStarted c;
     mCurrentRenderState := mCurrentRenderState c;
     mDisplayAspectRatio := mDisplayAspectRatio c;
     mDevicePoseObserver := mDevicePoseObserver c;
     mLatestDevicePoseData := mLatestDevicePoseData c;
     mTimingRelocalizingState := mTimingRelocalizingState c;
     mEnteredRelocalizingState := mEnteredRelocalizingState c;
     mObjectObserver := mObjectObserver c;
     mVuforiaState := mVuforiaState c;
     mGuideViewModelTarget := mGuideViewModelTarget c |}.

Definition set_mVbRenderBackend (v : VuRenderVBBackendType) (c : AppController) : AppController :=
  {| mShowErrorCallback := mShowErrorCallback c;
     mInitDoneCallback := mInitDoneCallback c;
     mEngine := mEngine c;
     mRenderController := mRenderController c;
     mPlatformController := mPlatformController c;
     mVbRenderBackend := v;
     mTarget := mTarget c;
     mCameraVideoMode := mCameraVideoMode c;
     mARStarted := mARStarted c;
     mCurrentRenderState := mCurrentRenderState c;
     mDisplayAspectRatio := mDisplayAspectRatio c;
     mDevicePoseObserver := mDevicePoseObserver c;
     mLatestDevicePoseData := mLatestDevicePoseData c;
     mTimingRelocalizingState := mTimingRelocalizingState c;
     mEnteredRelocalizingState := mEnteredRelocalizingState c;
     mObjectObserver := mObjectObserver c;
     mVuforiaState := mVuforiaState c;
     mGuideViewModelTarget := mGuideViewModelTarget c |}.

Definition set_mTarget (v : Z) (c : AppController) : AppController :=
  {| mShowErrorCallback := mShowErrorCallback c;
     mInitDoneCallback := mInitDoneCallback c;
     mEngine := mEngine c;
     mRenderController := mRenderController c;
     mPlatformController := mPlatformController c;
     mVbRenderBackend := mVbRenderBackend c;
     mTarget := v;
     mCameraVideoMode := mCameraVideoMode c;
     mARStarted := mARStarted c;
     mCurrentRenderState := mCurrentRenderState c;
     mDisplayAspectRatio := mDisplayAspectRatio c;
     mDevicePoseObserver := mDevicePoseObserver c;
     mLatestDevicePoseData := mLatestDevicePoseData c;
     mTimingRelocalizingState := mTimingRelocalizingState c;
     mEnteredRelocalizingState := mEnteredRelocalizingState c;
     mObjectObserver := mObjectObserver c;
     mVuforiaState := mVuforiaState c;
     mGuideViewModelTarget := mGuideViewModelTarget c |}.

Definition set_mCameraVideoMode (v : VuCameraVideoModePreset) (c : AppController) : AppController :=
  {| mShowErrorCallback := mShowErrorCallback c;
     mInitDoneCallback := mInitDoneCallback c;
     mEngine := mEngine c;
     mRenderController := mRenderController c;
     mPlatformController := mPlatformController c;
     mVbRenderBackend := mVbRenderBackend c;
     mTarget := mTarget c;
     mCameraVideoMode := v;
     mARStarted := mARStarted c;
     mCurrentRenderState := mCurrentRenderState c;
     mDisplayAspectRatio := mDisplayAspectRatio c;
     mDevicePoseObserver := mDevicePoseObserver c;
     mLatestDevicePoseData := mLatestDevicePoseData c;
     mTimingRelocalizingState := mTimingRelocalizingState c;
     mEnteredRelocalizingState := mEnteredRelocalizingState c;
     mObjectObserver := mObjectObserver c;
     mVuforiaState := mVuforiaState c;
     mGuideViewModelTarget := mGuideViewModelTarget c |}.

Definition set_mARStarted (v : bool) (c : AppController) : AppController :=
  {| mShowErrorCallback := mShowErrorCallback c;
     mInitDoneCallback := mInitDoneCallback c;
     mEngine := mEngine c;
     mRenderController := mRenderController c;
     mPlatformController := mPlatformController c;
     mVbRenderBackend := mVbRenderBackend c;
     mTarget := mTarget c;
     mCameraVideoMode := mCameraVideoMode c;
     mARStarted := v;
     mCurrentRenderState := mCurrentRenderState c;
     mDisplayAspectRatio := mDisplayAspectRatio c;
     mDevicePoseObserver := mDevicePoseObserver c;
     mLatestDevicePoseData := mLatestDevicePoseData c;
     mTimingRelocalizingState := mTimingRelocalizingState c;
     mEnteredRelocalizingState := mEnteredRelocalizingState c;
     mObjectObserver := mObjectObserver c;
     mVuforiaState := mVuforiaState c;
     mGuideViewModelTarget := mGuideViewModelTarget c |}.

Definition set_mCurrentRenderState (v : VuRenderState) (c : AppController) : AppController :=
  {| mShowErrorCallback := mShowErrorCallback c;
     mInitDoneCallback := mInitDoneCallback c;
     mEngine := mEngine c;
     mRenderController := mRenderController c;
     mPlatformController := mPlatformController c;
     mVbRenderBackend := mVbRenderBackend c;
     mTarget := mTarget c;
     mCameraVideoMode := mCameraVideoMode c;
     mARStarted := mARStarted c;
     mCurrentRenderState := v;
     mDisplayAspectRatio := mDisplayAspectRatio c;
     mDevicePoseObserver := mDevicePoseObserver c;
     mLatestDevicePoseData := mLatestDevicePoseData c;
     mTimingRelocalizingState := mTimingRelocalizingState c;
     mEnteredRelocalizingState := mEnteredRelocalizingState c;
     mObjectObserver := mObjectObserver c;
     mVuforiaState := mVuforiaState c;
     mGuideViewModelTarget := mGuideViewModelTarget c |}.

Definition set_mDisplayAspectRatio (v : float) (c : AppController) : AppController :=
  {| mShowErrorCallback := mShowErrorCallback c;
     mInitDoneCallback := mInitDoneCallback c;
     mEngine := mEngine c;
     mRenderController := mRenderController c;
     mPlatformController := mPlatformController c;
     mVbRenderBackend := mVbRenderBackend c;
     mTarget := mTarget c;
     mCameraVideoMode := mCameraVideoMode c;
     mARStarted := mARStarted c;
     mCurrentRenderState := mCurrentRenderState c;
     mDisplayAspectRatio := v;
     mDevicePoseObserver := mDevicePoseObserver c;
     mLatestDevicePoseData := mLatestDevicePoseData c;
     mTimingRelocalizingState := mTimingRelocalizingState c;
     mEnteredRelocalizingState := mEnteredRelocalizingState c;
     mObjectObserver := mObjectObserver c;
     mVuforiaState := mVuforiaState c;
     mGuideViewModelTarget := mGuideViewModelTarget c |}.

Definition set_mDevicePoseObserver (v : ptr) (c : AppController) : AppController :=
  {| mShowErrorCallback := mShowErrorCallback c;
     mInitDoneCallback := mInitDoneCallback c;
     mEngine := mEngine c;
     mRenderController := mRenderController c;
     mPlatformController := mPlatformController c;
     mVbRenderBackend := mVbRenderBackend c;
     mTarget := mTarget c;
     mCameraVideoMode := mCameraVideoMode c;
     mARStarted := mARStarted c;
     mCurrentRenderState := mCurrentRenderState c;
     mDisplayAspectRatio := mDisplayAspectRatio c;
     mDevicePoseObserver := v;
     mLatestDevicePoseData := mLatestDevicePoseData c;
     mTimingRelocalizingState := mTimingRelocalizingState c;
     mEnteredRelocalizingState := mEnteredRelocalizingState c;
     mObjectObserver := mObjectObserver c;
     mVuforiaState := mVuforiaState c;
     mGuideViewModelTarget := mGuideViewModelTarget c |}.

Definition set_mLatestDevicePoseData (v : DevicePoseData) (c : AppController) : AppController :=
  {| mShowErrorCallback := mShowErrorCallback c;
     mInitDoneCallback := mInitDoneCallback c;
     mEngine := mEngine c;
     mRenderController := mRenderController c;
     mPlatformController := mPlatformController c;
     mVbRenderBackend := mVbRenderBackend c;
     mTarget := mTarget c;
     mCameraVideoMode := mCameraVideoMode c;
     mARStarted := mARStarted c;
     mCurrentRenderState := mCurrentRenderState c;
     mDisplayAspectRatio := mDisplayAspectRatio c;
     mDevicePoseObserver := mDevicePoseObserver c;
     mLatestDevicePoseData := v;
     mTimingRelocalizingState := mTimingRelocalizingState c;
     mEnteredRelocalizingState := mEnteredRelocalizingState c;
     mObjectObserver := mObjectObserver c;
     mVuforiaState := mVuforiaState c;
     mGuideViewModelTarget := mGuideViewModelTarget c |}.

Definition set_mTimingRelocalizingState (v : bool) (c : AppController) : AppController :=
  {| mShowErrorCallback := mShowErrorCallback c;
     mInitDoneCallback := mInitDoneCallback c;
     mEngine := mEngine c;
     mRenderController := mRenderController c;
     mPlatformController := mPlatformController c;
     mVbRenderBackend := mVbRenderBackend c;
     mTarget := mTarget c;
     mCameraVideoMode := mCameraVideoMode c;
     mARStarted := mARStarted c;
     mCurrentRenderState := mCurrentRenderState c;
     mDisplayAspectRatio := mDisplayAspectRatio c;
     mDevicePoseObserver := mDevicePoseObserver c;
     mLatestDevicePoseData := mLatestDevicePoseData c;
     mTimingRelocalizingState := v;
     mEnteredRelocalizingState := mEnteredRelocalizingState c;
     mObjectObserver := mObjectObserver c;
     mVuforiaState := mVuforiaState c;
     mGuideViewModelTarget := mGuideViewModelTarget c |}.

Definition set_mEnteredRelocalizingState (v : time_point) (c : AppController) : AppController :=
  {| mShowErrorCallback := mShowErrorCallback c;
     mInitDoneCallback := mInitDoneCallback c;
     mEngine := mEngine c;
     mRenderController := mRenderController c;
     mPlatformController := mPlatformController c;
     mVbRenderBackend := mVbRenderBackend c;
     mTarget := mTarget c;
     mCameraVideoMode := mCameraVideoMode c;
     mARStarted := mARStarted c;
     mCurrentRenderState := mCurrentRenderState c;
     mDisplayAspectRatio := mDisplayAspectRatio c;
     mDevicePoseObserver := mDevicePoseObserver c;
     mLatestDevicePoseData := mLatestDevicePoseData c;
     mTimingRelocalizingState := mTimingRelocalizingState c;
     mEnteredRelocalizingState := v;
     mObjectObserver := mObjectObserver c;
     mVuforiaState := mVuforiaState c;
     mGuideViewModelTarget := mGuideViewModelTarget c |}.

Definition set_mObjectObserver (v : ptr) (c : AppController) : AppController :=
  {| mShowErrorCallback := mShowErrorCallback c;
     mInitDoneCallback := mInitDoneCallback c;
     mEngine := mEngine c;
     mRenderController := mRenderController c;
     mPlatformController := mPlatformController c;
     mVbRenderBackend := mVbRenderBackend c;
     mTarget := mTarget c;
     mCameraVideoMode := mCameraVideoMode c;
     mARStarted := mARStarted c;
     mCurrentRenderState := mCurrentRenderState c;
     mDisplayAspectRatio := mDisplayAspectRatio c;
     mDevicePoseObserver := mDevicePoseObserver c;
     mLatestDevicePoseData := mLatestDevicePoseData c;
     mTimingRelocalizingState := mTimingRelocalizingState c;
     mEnteredRelocalizingState := mEnteredRelocalizingState c;
     mObjectObserver := v;
     mVuforiaState := mVuforiaState c;
     mGuideViewModelTarget := mGuideViewModelTarget c |}.

Definition set_mVuforiaState (v : ptr) (c : AppController) : AppController :=
  {| mShowErrorCallback := mShowErrorCallback c;
     mInitDoneCallback := mInitDoneCallback c;
     mEngine := mEngine c;
     mRenderController := mRenderController c;
     mPlatformController := mPlatformController c;
     mVbRenderBackend := mVbRenderBackend c;
     mTarget := mTarget c;
     mCameraVideoMode := mCameraVideoMode c;
     mARStarted := mARStarted c;
     mCurrentRenderState := mCurrentRenderState c;
     mDisplayAspectRatio := mDisplayAspectRatio c;
     mDevicePoseObserver := mDevicePoseObserver c;
     mLatestDevicePoseData := mLatestDevicePoseData c;
     mTimingRelocalizingState := mTimingRelocalizingState c;
     mEnteredRelocalizingState := mEnteredRelocalizingState c;
     mObjectObserver := mObjectObserver c;
     mVuforiaState := v;
     mGuideViewModelTarget := mGuideViewModelTarget c |}.

Definition set_mGuideViewModelTarget (v : ptr) (c : AppController) : AppController :=
  {| mShowErrorCallback := mShowErrorCallback c;
     mInitDoneCallback := mInitDoneCallback c;
     mEngine := mEngine c;
     mRenderController := mRenderController c;
     mPlatformController := mPlatformController c;
     mVbRenderBackend := mVbRenderBackend c;
     mTarget := mTarget c;
     mCameraVideoMode := mCameraVideoMode c;
     mARStarted := mARStarted c;
     mCurrentRenderState := mCurrentRenderState c;
     mDisplayAspectRatio := mDisplayAspectRatio c;
     mDevicePoseObserver := mDevicePoseObserver c;
     mLatestDevicePoseData := mLatestDevicePoseData c;
     mTimingRelocalizingState := mTimingRelocalizingState c;
     mEnteredRelocalizingState := mEnteredRelocalizingState c;
     mObjectObserver := mObjectObserver c;
     mVuforiaState := mVuforiaState c;
     mGuideViewModelTarget := v |}.


(** The controller as default-constructed in static storage (the sample's
    global [controller]): members without an initialiser are zero. *)
Definition zero_matrix : VuMatrix44F :=
  {| m44_data := repeat (float_of_int 0) 16 |}.

Definition initial_controller : AppController :=
  {| mShowErrorCallback := None;
     mInitDoneCallback := None;
     mEngine := nullptr;
     mRenderController := nullptr;
     mPlatformController := nullptr;
     mVbRenderBackend := VU_RENDER_VB_BACKEND_DEFAULT;
     mTarget := IMAGE_TARGET_ID;
     mCameraVideoMode := VU_CAMERA_VIDEO_MODE_PRESET_DEFAULT;
     mARStarted := false;
     mCurrentRenderState :=
       {| viewport := {| v4_0 := 0; v4_1 := 0; v4_2 := 0; v4_3 := 0 |};
          vbProjectionMatrix := zero_matrix;
          vbMesh := nullptr;
          viewMatrix := zero_matrix;
          projectionMatrix := zero_matrix |};
     mDisplayAspectRatio := float_of_int 0;
     mDevicePoseObserver := nullptr;
     mLatestDevicePoseData :=
       {| pose := zero_matrix;
          poseStatus := VU_OBSERVATION_POSE_STATUS_NO_POSE;
          poseStatusInfo := VU_DEVICE_POSE_OBSERVATION_STATUS_INFO_UNKNOWN |};
     mTimingRelocalizingState := false;
     mEnteredRelocalizingState := 0;
     mObjectObserver := nullptr;
     mVuforiaState := nullptr;
     mGuideViewModelTarget := nullptr |}.

(** ** The method monad: controller state over programs *)

Definition M (A : Type) : Type := AppController -> prog (A * AppController).

Definition ret {A : Type} (a : A) : M A := fun c => Ret (a, c).

Definition bind {A B : Type} (m : M A) (f : A -> M B) : M B :=
  fun c => pbind (m c) (fun ac => let (a, c') := ac in f a c').

Definition get {X : Type} (f : AppController -> X) : M X := fun c => Ret (f c, c).

Definition assign (f : AppController -> AppController) : M unit :=
  fun c => Ret (tt, f c).

Definition call {T : Type} (e : VuCall T) : M T :=
  fun c => Call e (fun r => Ret (r, c)).

Definition now : M time_point := fun c => Now (fun t => Ret (t, c)).

Definition emit (o : output) : M unit := fun c => Out o (Ret (tt, c)).

Definition abort {A : Type} (why : crash) : M A := fun _ => Crash why.

Declare Scope method_scope.
Delimit Scope method_scope with method.
Bind Scope method_scope with M.

Notation "x <- m ;; k" := (bind m (fun x => k))
  (at level 61, m at next level, right associativity) : method_scope.
Notation "' pat <- m ;; k" := (bind m (fun x => match x with pat => k end))
  (at level 61, pat pattern, m at next level, right associativity) : method_scope.
Notation "m ;; k" := (bind m (fun _ => k))
  (at level 61, right associativity) : method_scope.

Local Open Scope method_scope.

Definition LOG (message : string) : M unit := emit (OLog message).

Definition assert (b : bool) : M unit :=
  if b then ret tt else abort AssertionFailed.

(** [REQUIRE_SUCCESS(command)], applied to the value the command returned. *)
Definition REQUIRE_SUCCESS (vu_result_appsupport_ : VuResult) : M unit :=
  assert (is_success vu_result_appsupport_).

(** Calling a [std::function] member: an empty one throws. *)
Definition mShowErrorCallback_ (errorString : string) : M unit :=
  cb <- get mShowErrorCallback ;;
  match cb with
  | None => abort BadFunctionCall
  | Some f => emit (OShowError f errorString)
  end.

Definition mInitDoneCallback_ : M unit :=
  cb <- get mInitDoneCallback ;;
  match cb with
  | None => abort BadFunctionCall
  | Some f => emit (OInitDone f)
  end.

(** [strcmp(a, b) == 0]; a null argument is a null dereference. *)
Definition strcmp_is_0 (a b : cstr) : M bool :=
  match a, b with
  | Some s, Some t => ret (String.eqb s t)
  | _, _ => abort NullDereference
  end.

(** [duration_cast<seconds>] of a nanosecond count truncates towards zero. *)
Definition duration_cast_seconds (d : Z) : Z := Z.quot d 1000000000.

(** ** AppController.cpp *)

Definition licenseKey : string :=
  "AfmryVT/////AAABmRr0wSMPmEprlUsTGMjJpSJjGOy3wtxoSTDoitrBiuT0Sm2UjmseL6XjTDBY3M+zXsY9W6AaJWlJNugw4taPV00YVC/GSEWm/RI5SB0s16/TcXnOTsAfJjqj831EEDrhNSyirRoXLK6JZ6Kf5TJqJHAD1F9Y3a4TGjZymCTKErglVERyG6ng3wHtgJjAPTkF6A2vEhgOL8IQAieEWnv9ijqvDPC/K76jj1aWVpPZx85bqt8phqfvYE1ZwZsxoWFkRRyef5uMmvCvMQRwOnhnTirVGbfb+qzdEDIcfLZV6l5kFnig6JDXaRHgwoqKdRT/kdPfUoZhybQSNBN7n4zg2rTPvYG2GlgvKt8a5NtBYwF8".

Definition NEAR_PLANE : float := float_lit 1 100.
Definition FAR_PLANE : float := float_lit 5 1.

(** [AppController::initErrorToString]: the [switch] over the error code. *)
Definition initErrorToString (error : VuErrorCode) : string :=
  if error =? VU_ENGINE_CREATION_ERROR_DEVICE_NOT_SUPPORTED then
    "Vuforia failed to initialize because the device is not supported."
  else if error =? VU_ENGINE_CREATION_ERROR_PERMISSION_ERROR then
    "Vuforia cannot initialize because access to the camera was denied."
  else if error =? VU_ENGINE_CREATION_ERROR_LICENSE_ERROR then
    "Vuforia cannot initialize because a valid license configuration is required."
  else if error =? VU_ENGINE_CREATION_ERROR_LICENSE_CONFIG_MISSING_KEY then
    "Vuforia failed to initialize because the license key is missing."
  else if error =? VU_ENGINE_CREATION_ERROR_LICENSE_CONFIG_INVALID_KEY then
    "Vuforia failed to initialize because the license key is invalid."
  else if error =? VU_ENGINE_CREATION_ERROR_LICENSE_CONFIG_NO_NETWORK_PERMANENT then
    "Vuforia failed to initialize because the license check encountered a permanent network error."
  else if error =? VU_ENGINE_CREATION_ERROR_LICENSE_CONFIG_NO_NETWORK_TRANSIENT then
    "Vuforia failed to initialize because the license check encountered a temporary network error."
  else if error =? VU_ENGINE_CREATION_ERROR_LICENSE_CONFIG_BAD_REQUEST then
    "Vuforia failed to initialize because the request to the license server is malformed, ensure the app has valid name and version fields."
  else if error =? VU_ENGINE_CREATION_ERROR_LICENSE_CONFIG_KEY_CANCELED then
    "Vuforia failed to initialize because the license key was canceled."
  else if error =? VU_ENGINE_CREATION_ERROR_LICENSE_CONFIG_PRODUCT_TYPE_MISMATCH then
    "Vuforia failed to initialize because the license key is for the wrong product type."
  else if error =? VU_ENGINE_CREATION_ERROR_LICENSE_CONFIG_UNKNOWN then
    "Vuforia failed to initialize because the license check encountered an unknown error."
  else if error =? VU_ENGINE_CREATION_ERROR_RENDER_CONFIG_UNSUPPORTED_BACKEND then
    "Vuforia failed to initialize because the requested rendering backend is not supported on this platform or device."
  else if error =? VU_ENGINE_CREATION_ERROR_RENDER_CONFIG_FAILED_TO_SET_VIDEO_BG_VIEWPORT then
    "Vuforia failed to initialize because the requested videobackground viewport could not be set."
  else (* VU_ENGINE_CREATION_ERROR_INITIALIZATION and default *)
    "Vuforia initialization failed".

(** [AppController::initVuforiaInternal], as compiled with
    VU_PLATFORM_ANDROID; [javaVM] is the global captured by [JNI_OnLoad]. *)
Definition initVuforiaInternal (javaVM : ptr) (appData : ptr) : M bool :=
  LOG "AppController::initEngine" ;;
  engine <- get mEngine ;;
  if negb (is_null engine) then
    LOG "Failed to initialize Vuforia as a valid engine instance already exists" ;;
    ret false
  else
  '(r, configSet) <- call vuEngineConfigSetCreate ;;
  REQUIRE_SUCCESS r ;;
  licenseConfig <- call vuLicenseConfigDefault ;;
  let licenseConfig := {| key := Some licenseKey |} in
  r <- call (vuEngineConfigSetAddLicenseConfig configSet licenseConfig) ;;
  if negb (is_success r) then
    r <- call (vuEngineConfigSetDestroy configSet) ;;
    REQUIRE_SUCCESS r ;;
    LOG "Failed to init Vuforia, license key could not be added to configuration" ;;
    mShowErrorCallback_
      "Vuforia failed to initialize because the license key could not be added to the configuration" ;;
    ret false
  else
  renderConfig <- call vuRenderConfigDefault ;;
  backend <- get mVbRenderBackend ;;
  let renderConfig :=
    {| vbRenderBackend := backend; vbViewportMode := vbViewportMode renderConfig |} in
  vuPlatformConfig_Android <- call vuPlatformAndroidConfigDefault ;;
  let vuPlatformConfig_Android := {| pac_activity := appData; pac_javaVM := javaVM |} in
  platformConfigResult <-
    call (vuEngineConfigSetAddPlatformAndroidConfig configSet vuPlatformConfig_Android) ;;
  if negb (is_success platformConfigResult) then
    r <- call (vuEngineConfigSetDestroy configSet) ;;
    REQUIRE_SUCCESS r ;;
    LOG "Failed to init Vuforia, could not apply platform-specific configuration" ;;
    mShowErrorCallback_
      "Vuforia failed to initialize, could not apply platform-specific configuration" ;;
    ret false
  else
  r <- call (vuEngineConfigSetAddRenderConfig configSet renderConfig) ;;
  if negb (is_success r) then
    r <- call (vuEngineConfigSetDestroy configSet) ;;
    REQUIRE_SUCCESS r ;;
    LOG "Failed to init Vuforia, could not configure rendering" ;;
    mShowErrorCallback_ "Vuforia failed to initialize, could not configure rendering" ;;
    ret false
  else
  '(engineCreateResult, engine', errorCode) <- call (vuEngineCreate engine configSet) ;;
  assign (set_mEngine engine') ;;
  r <- call (vuEngineConfigSetDestroy configSet) ;;
  REQUIRE_SUCCESS r ;;
  if negb (is_success engineCreateResult) then
    mShowErrorCallback_ (initErrorToString errorCode) ;;
    ret false
  else
  if is_null engine' then
    LOG "Failed to init Vuforia, could not create engine instance" ;;
    mShowErrorCallback_ "Vuforia initialization failed." ;;
    ret false
  else
  renderController <- get mRenderController ;;
  '(r, renderController) <- call (vuEngineGetRenderController engine' renderController) ;;
  assign (set_mRenderController renderController) ;;
  REQUIRE_SUCCESS r ;;
  assert (negb (is_null renderController)) ;;
  platformController <- get mPlatformController ;;
  '(r, platformController) <- call (vuEngineGetPlatformController engine' platformController) ;;
  assign (set_mPlatformController platformController) ;;
  REQUIRE_SUCCESS r ;;
  assert (negb (is_null platformController)) ;;
  r <- call (vuRenderControllerSetProjectionMatrixNearFar renderController NEAR_PLANE FAR_PLANE) ;;
  if negb (is_success r) then
    LOG "Error setting clipping planes for projection" ;;
    ret false
  else
  LOG "Successfully initialized Vuforia" ;;
  ret true.

(** [AppController::createObservers] *)
Definition createObservers : M bool :=
  devicePoseConfig <- call vuDevicePoseConfigDefault ;;
  engine <- get mEngine ;;
  observer <- get mDevicePoseObserver ;;
  '(r, observer, devicePoseCreationError) <-
    call (vuEngineCreateDevicePoseObserver engine observer devicePoseConfig) ;;
  assign (set_mDevicePoseObserver observer) ;;
  if negb (is_success r) then
    LOG "Error creating device pose observer: 0x%02x" ;;
    ret false
  else
  target <- get mTarget ;;
  observer <- get mObjectObserver ;;
  if target =? IMAGE_TARGET_ID then
    imageTargetConfig <- call vuImageTargetConfigDefault ;;
    let imageTargetConfig :=
      {| itc_databasePath := Some "TestDB1.xml";
         itc_targetName := Some "VeneraMarker";
         itc_activate := VU_TRUE;
         itc_scale := itc_scale imageTargetConfig;
         itc_poseOffset := itc_poseOffset imageTargetConfig |} in
    '(r, observer, imageTargetCreationError) <-
      call (vuEngineCreateImageTargetObserver engine observer imageTargetConfig) ;;
    assign (set_mObjectObserver observer) ;;
    if negb (is_success r) then
      LOG "Error creating image target observer: 0x%02x" ;;
      mShowErrorCallback_ "Error creating image target observer" ;;
      ret false
    else ret true
  else
    modelTargetConfig <- call vuModelTargetConfigDefault ;;
    let modelTargetConfig :=
      {| mtc_databasePath := Some "VuforiaMars_ModelTarget.xml";
         mtc_targetName := Some "VuforiaMars_ModelTarget";
         mtc_activeGuideViewName := mtc_activeGuideViewName modelTargetConfig;
         mtc_activate := VU_TRUE;
         mtc_scale := mtc_scale modelTargetConfig;
         mtc_poseOffset := mtc_poseOffset modelTargetConfig |} in
    '(r, observer, modelTargetCreationError) <-
      call (vuEngineCreateModelTargetObserver engine observer modelTargetConfig) ;;
    assign (set_mObjectObserver observer) ;;
    if negb (is_success r) then
      LOG "Error creating image target observer: 0x%02x" ;;
      mShowErrorCallback_ "Error creating model target observer" ;;
      ret false
    else ret true.

(** [AppController::initAR] *)
Definition initAR (javaVM : ptr) (initConfig : InitConfig) (target : Z) : M unit :=
  assign (set_mVbRenderBackend (ic_vbRenderBackend initConfig)) ;;
  assign (set_mShowErrorCallback (ic_showErrorCallback initConfig)) ;;
  assign (set_mInitDoneCallback (ic_initDoneCallback initConfig)) ;;
  assign (set_mTarget target) ;;
  assign (set_mGuideViewModelTarget nullptr) ;;
  ok <- initVuforiaInternal javaVM (ic_appData initConfig) ;;
  if negb ok then ret tt else
  ok <- createObservers ;;
  if negb ok then ret tt else
  mInitDoneCallback_.

(** [AppController::startAR] *)
Definition startAR : M bool :=
  LOG "AppController::startAR" ;;
  engine <- get mEngine ;;
  if is_null engine then
    LOG "Failed to start Vuforia as no valid engine instance is available" ;;
    ret false
  else
  running <- call (vuEngineIsRunning engine) ;;
  if truthy running then
    LOG "Failed to start Vuforia as it is already running" ;;
    ret false
  else
  '(r, cameraController) <- call (vuEngineGetCameraController engine) ;;
  REQUIRE_SUCCESS r ;;
  cameraVideoMode <- get mCameraVideoMode ;;
  r <- call (vuCameraControllerSetActiveVideoMode cameraController cameraVideoMode) ;;
  (if negb (is_success r) then
     LOG "Failed to set active video mode %d for camera device"
   else ret tt) ;;
  r <- call (vuEngineStart engine) ;;
  if negb (is_success r) then
    LOG "Failed to start Vuforia" ;;
    ret false
  else
  assign (set_mARStarted true) ;;
  r <- call (vuCameraControllerSetFocusMode cameraController VU_CAMERA_FOCUS_MODE_CONTINUOUSAUTO) ;;
  (if negb (is_success r) then
     LOG "Failed to select focus mode %d for camera device"
   else ret tt) ;;
  LOG "Successfully started Vuforia" ;;
  ret true.

(** [AppController::stopAR] *)
Definition stopAR : M bool :=
  LOG "AppController::stopAR" ;;
  engine <- get mEngine ;;
  if is_null engine then
    LOG "Failed to stop Vuforia as no valid engine instance is available" ;;
    ret false
  else
  running <- call (vuEngineIsRunning engine) ;;
  if negb (truthy running) then
    LOG "Failed to stop Vuforia as it is currently not running" ;;
    ret false
  else
  assign (set_mARStarted false) ;;
  r <- call (vuEngineStop engine) ;;
  if negb (is_success r) then
    LOG "Failed to stop Vuforia" ;;
    ret false
  else
  LOG "Successfully stopped Vuforia" ;;
  ret true.

(** [AppController::destroyObservers] *)
Definition destroyObservers : M unit :=
  observer <- get mObjectObserver ;;
  (if negb (is_null observer) then
     r <- call (vuObserverDestroy observer) ;;
     if negb (is_success r) then LOG "Error destroying object observer" else ret tt
   else ret tt) ;;
  assign (set_mObjectObserver nullptr) ;;
  observer <- get mDevicePoseObserver ;;
  (if negb (is_null observer) then
     r <- call (vuObserverDestroy observer) ;;
     if negb (is_success r) then LOG "Error destroying object observer" else ret tt
   else ret tt) ;;
  assign (set_mDevicePoseObserver nullptr).

(** [AppController::deinitAR] *)
Definition deinitAR : M unit :=
  engine <- get mEngine ;;
  if is_null engine then
    LOG "Failed to deinitialize Vuforia as no engine instance is available"
  else
  stopAR ;;
  destroyObservers ;;
  engine <- get mEngine ;;
  r <- call (vuEngineDestroy engine) ;;
  if negb (is_success r) then
    LOG "Failed to destroy engine instance"
  else
  assign (set_mEngine nullptr) ;;
  assign (set_mRenderController nullptr) ;;
  assign (set_mPlatformController nullptr).

(** [AppController::cameraPerformAutoFocus] and
    [AppController::cameraRestoreAutoFocus] differ in the focus mode only. *)
Definition cameraSetFocus (focusMode : VuCameraFocusMode) : M unit :=
  started <- get mARStarted ;;
  if negb started then ret tt else
  engine <- get mEngine ;;
  '(r, cameraController) <- call (vuEngineGetCameraController engine) ;;
  if negb (is_success r) then
    LOG "Error attempting to perform autofocus, failed to get camera controller"
  else
  r <- call (vuCameraControllerSetFocusMode cameraController focusMode) ;;
  if negb (is_success r) then
    LOG "Error attempting to perform autofocus, failed to set focus mode"
  else ret tt.

Definition cameraPerformAutoFocus : M unit :=
  cameraSetFocus VU_CAMERA_FOCUS_MODE_TRIGGERAUTO.

Definition cameraRestoreAutoFocus : M unit :=
  cameraSetFocus VU_CAMERA_FOCUS_MODE_CONTINUOUSAUTO.

(** [AppController::configureRendering] *)
Definition configureRendering (width height : Z) (orientation : ptr) : M bool :=
  started <- get mARStarted ;;
  if negb started then ret false else
  platformController <- get mPlatformController ;;
  '(r, vuOrientation) <-
    call (vuPlatformControllerConvertPlatformViewOrientation platformController orientation) ;;
  if negb (is_success r) then
    LOG "Failed to convert the platform-specific orientation descriptor to Vuforia view orientation" ;;
    ret false
  else
  r <- call (vuPlatformControllerSetViewOrientation platformController vuOrientation) ;;
  if negb (is_success r) then
    LOG "Failed to set orientation" ;;
    ret false
  else
  assign (set_mDisplayAspectRatio (fdiv (float_of_int width) (float_of_int height))) ;;
  renderController <- get mRenderController ;;
  r <- call (vuRenderControllerSetRenderViewConfig renderController (width, height)) ;;
  (if negb (is_success r) then LOG "Failed to set render view configuration" else ret tt) ;;
  ret true.

(** [AppController::getVideoBackgroundTextureSize] *)
Definition getVideoBackgroundTextureSize (textureSize : Z * Z) : M (bool * (Z * Z)) :=
  renderController <- get mRenderController ;;
  '(r, vBTextureSize) <- call (vuRenderControllerGetVideoBackgroundViewInfo renderController) ;;
  if negb (is_success r) then
    LOG "Error getting video background view info" ;;
    ret (false, textureSize)
  else ret (true, vBTextureSize).

(** [AppController::isARStarted] *)
Definition isARStarted : M bool := get mARStarted.

Definition getRenderState : M VuRenderState := get mCurrentRenderState.

Definition getPlatformController : M ptr := get mPlatformController.

(** Assignment to one member of [mLatestDevicePoseData]. *)
Definition set_pose (v : VuMatrix44F) (c : AppController) : AppController :=
  let d := mLatestDevicePoseData c in
  set_mLatestDevicePoseData
    {| pose := v; poseStatus := poseStatus d; poseStatusInfo := poseStatusInfo d |} c.

Definition set_poseStatus (v : VuObservationPoseStatus) (c : AppController) : AppController :=
  let d := mLatestDevicePoseData c in
  set_mLatestDevicePoseData
    {| pose := pose d; poseStatus := v; poseStatusInfo := poseStatusInfo d |} c.

Definition set_poseStatusInfo (v : VuDevicePoseObservationStatusInfo) (c : AppController)
  : AppController :=
  let d := mLatestDevicePoseData c in
  set_mLatestDevicePoseData
    {| pose := pose d; poseStatus := poseStatus d; poseStatusInfo := v |} c.

(** [AppController::updateDevicePose] *)
Definition updateDevicePose : M unit :=
  identity <- call vuIdentityMatrix44F ;;
  assign (set_pose identity) ;;
  assign (set_poseStatus VU_OBSERVATION_POSE_STATUS_NO_POSE) ;;
  assign (set_poseStatusInfo VU_DEVICE_POSE_OBSERVATION_STATUS_INFO_NORMAL) ;;
  '(r, observationList) <- call vuObservationListCreate ;;
  REQUIRE_SUCCESS r ;;
  state <- get mVuforiaState ;;
  r <- call (vuStateGetDevicePoseObservations state observationList) ;;
  (if is_success r then
     '(r, numObservations) <- call (vuObservationListGetSize observationList) ;;
     REQUIRE_SUCCESS r ;;
     if numObservations >? 0 then
       '(r, observation) <- call (vuObservationListGetElement observationList 0) ;;
       if is_success r then
         assert (negb (is_null observation)) ;;
         isType <- call (vuObservationIsType observation VU_OBSERVATION_DEVICE_POSE_TYPE) ;;
         assert (isType =? VU_TRUE) ;;
         hasPose <- call (vuObservationHasPoseInfo observation) ;;
         assert (hasPose =? VU_TRUE) ;;
         '(r, poseInfo) <- call (vuObservationGetPoseInfo observation) ;;
         REQUIRE_SUCCESS r ;;
         if negb (pose_status_eqb (pi_poseStatus poseInfo) VU_OBSERVATION_POSE_STATUS_NO_POSE)
         then
           assign (set_pose (pi_pose poseInfo)) ;;
           assign (set_poseStatus (pi_poseStatus poseInfo)) ;;
           data <- get mLatestDevicePoseData ;;
           '(r, statusInfo) <-
             call (vuDevicePoseObservationGetStatusInfo observation (poseStatusInfo data)) ;;
           assign (set_poseStatusInfo statusInfo) ;;
           REQUIRE_SUCCESS r
         else ret tt
       else ret tt
     else ret tt
   else LOG "Error getting device pose observations") ;;
  r <- call (vuObservationListDestroy observationList) ;;
  REQUIRE_SUCCESS r.

(** The caller's [double viewport[6]], written at indices 0 to 5; every
    value stored is integral, so the array is kept as integers. *)
Definition write_viewport (vp : list Z) (a b c d e f : Z) : list Z :=
  [a; b; c; d; e; f] ++ skipn 6 vp.

(** [AppController::prepareToRender]; returns the result and the caller's
    viewport array after the call. *)
Definition prepareToRender (vp : list Z) (renderData : VuRenderVideoBackgroundData)
  : M (bool * list Z) :=
  engine <- get mEngine ;;
  state <- get mVuforiaState ;;
  '(r, state) <- call (vuEngineAcquireLatestState engine state) ;;
  assign (set_mVuforiaState state) ;;
  if negb (is_success r) then
    LOG "Error getting state" ;;
    ret (false, vp)
  else
  hasFrame <- call (vuStateHasCameraFrame state) ;;
  if negb (hasFrame =? VU_TRUE) then ret (false, vp) else
  renderState <- get mCurrentRenderState ;;
  '(r, renderState) <- call (vuStateGetRenderState state renderState) ;;
  assign (set_mCurrentRenderState renderState) ;;
  if negb (is_success r) then
    LOG "Error getting render state" ;;
    ret (false, vp)
  else
  if is_null (vbMesh renderState) then ret (false, vp) else
  let vp :=
    write_viewport vp (v4_0 (viewport renderState)) (v4_1 (viewport renderState))
      (v4_2 (viewport renderState)) (v4_3 (viewport renderState)) 0 1 in
  renderController <- get mRenderController ;;
  r <- call (vuRenderControllerUpdateVideoBackgroundTexture renderController state renderData) ;;
  if negb (is_success r) then
    LOG "Error updating video background texture" ;;
    ret (false, vp)
  else
  updateDevicePose ;;
  ret (true, vp).

(** [AppController::finishRender] *)
Definition finishRender : M unit :=
  data <- get mLatestDevicePoseData ;;
  (if pose_status_eqb (poseStatus data) VU_OBSERVATION_POSE_STATUS_LIMITED
      && is_relocalizing_info (poseStatusInfo data)
   then
     timing <- get mTimingRelocalizingState ;;
     (if negb timing then
        t <- now ;;
        assign (set_mEnteredRelocalizingState t)
      else ret tt) ;;
     assign (set_mTimingRelocalizingState true) ;;
     t <- now ;;
     entered <- get mEnteredRelocalizingState ;;
     let relocalizingFor := duration_cast_seconds (t - entered) in
     if relocalizingFor >? MAX_RELOCALIZING_SECONDS then
       assign (set_mTimingRelocalizingState false) ;;
       engine <- get mEngine ;;
       resetResult <- call (vuEngineResetWorldTracking engine) ;;
       LOG (if is_success resetResult
            then "Successfully reset world tracking"
            else "Failed to reset world tracking")
     else ret tt
   else assign (set_mTimingRelocalizingState false)) ;;
  state <- get mVuforiaState ;;
  (if negb (is_null state) then
     r <- call (vuStateRelease state) ;;
     if negb (is_success r) then LOG "Error releasing the Vuforia state" else ret tt
   else ret tt) ;;
  assign (set_mVuforiaState nullptr).

(** The three matrices the result getters write through references. *)
Definition matrices : Type := (VuMatrix44F * VuMatrix44F * VuMatrix44F)%type.

(** [AppController::getOrigin] *)
Definition getOrigin (out : VuMatrix44F * VuMatrix44F) : M (bool * (VuMatrix44F * VuMatrix44F)) :=
  data <- get mLatestDevicePoseData ;;
  if negb (pose_status_eqb (poseStatus data) VU_OBSERVATION_POSE_STATUS_NO_POSE) then
    renderState <- get mCurrentRenderState ;;
    ret (true, (projectionMatrix renderState, viewMatrix renderState))
  else ret (false, out).

(** [AppController::getImageTargetResult] *)
Definition getImageTargetResult (out : matrices) : M (bool * matrices) :=
  target <- get mTarget ;;
  if negb (target =? IMAGE_TARGET_ID) then ret (false, out) else
  '(r, observationList) <- call vuObservationListCreate ;;
  REQUIRE_SUCCESS r ;;
  state <- get mVuforiaState ;;
  r <- call (vuStateGetImageTargetObservations state observationList) ;;
  if negb (is_success r) then
    LOG "Error getting image target observations" ;;
    r <- call (vuObservationListDestroy observationList) ;;
    REQUIRE_SUCCESS r ;;
    ret (false, out)
  else
  '(r, numObservations) <- call (vuObservationListGetSize observationList) ;;
  REQUIRE_SUCCESS r ;;
  result <-
    (if numObservations >? 0 then
       '(r, observation) <- call (vuObservationListGetElement observationList 0) ;;
       if is_success r then
         assert (negb (is_null observation)) ;;
         isType <- call (vuObservationIsType observation VU_OBSERVATION_IMAGE_TARGET_TYPE) ;;
         assert (isType =? VU_TRUE) ;;
         hasPose <- call (vuObservationHasPoseInfo observation) ;;
         assert (hasPose =? VU_TRUE) ;;
         '(r, poseInfo) <- call (vuObservationGetPoseInfo observation) ;;
         REQUIRE_SUCCESS r ;;
         '(r, imageTargetInfo) <- call (vuImageTargetObservationGetTargetInfo observation) ;;
         REQUIRE_SUCCESS r ;;
         if negb (pose_status_eqb (pi_poseStatus poseInfo) VU_OBSERVATION_POSE_STATUS_NO_POSE)
         then
           renderState <- get mCurrentRenderState ;;
           let modelMatrix := pi_pose poseInfo in
           modelViewMatrix <-
             call (vuMatrix44FMultiplyMatrix (viewMatrix renderState) modelMatrix) ;;
           let scale0 := v2_0 (it_size imageTargetInfo) in
           let scale1 := v2_1 (it_size imageTargetInfo) in
           let scale := {| v3_0 := scale0; v3_1 := scale1; v3_2 := fmax scale0 scale1 |} in
           scaledModelViewMatrix <- call (vuMatrix44FScale scale modelViewMatrix) ;;
           ret (true, (projectionMatrix renderState, modelViewMatrix, scaledModelViewMatrix))
         else ret (false, out)
       else ret (false, out)
     else ret (false, out)) ;;
  r <- call (vuObservationListDestroy observationList) ;;
  REQUIRE_SUCCESS r ;;
  ret result.

(** The lambda of [getModelTargetResult]: the first guide view of the list,
    from index [i] on and over [n] elements, whose name is the active one. *)
Fixpoint findGuideView (guideViewList : ptr) (activeName : cstr) (n : nat) (i : Z) : M ptr :=
  match n with
  | O => ret nullptr
  | S n' =>
      '(r, guideView) <- call (vuGuideViewListGetElement guideViewList i) ;;
      REQUIRE_SUCCESS r ;;
      '(r, guideViewName) <- call (vuGuideViewGetName guideView) ;;
      REQUIRE_SUCCESS r ;;
      same <- strcmp_is_0 guideViewName activeName ;;
      if same then ret guideView else findGuideView guideViewList activeName n' (i + 1)
  end.

(** [AppController::getModelTargetResult] *)
Definition getModelTargetResult (out : matrices) : M (bool * matrices) :=
  target <- get mTarget ;;
  if negb (target =? MODEL_TARGET_ID) then ret (false, out) else
  '(r, observationList) <- call vuObservationListCreate ;;
  REQUIRE_SUCCESS r ;;
  state <- get mVuforiaState ;;
  r <- call (vuStateGetModelTargetObservations state observationList) ;;
  if negb (is_success r) then
    LOG "Error getting model target observations" ;;
    r <- call (vuObservationListDestroy observationList) ;;
    REQUIRE_SUCCESS r ;;
    ret (false, out)
  else
  '(r, numObservations) <- call (vuObservationListGetSize observationList) ;;
  REQUIRE_SUCCESS r ;;
  result <-
    (if numObservations >? 0 then
       '(r, observation) <- call (vuObservationListGetElement observationList 0) ;;
       if is_success r then
         assert (negb (is_null observation)) ;;
         isType <- call (vuObservationIsType observation VU_OBSERVATION_MODEL_TARGET_TYPE) ;;
         assert (isType =? VU_TRUE) ;;
         hasPose <- call (vuObservationHasPoseInfo observation) ;;
         assert (hasPose =? VU_TRUE) ;;
         '(r, poseInfo) <- call (vuObservationGetPoseInfo observation) ;;
         REQUIRE_SUCCESS r ;;
         '(r, modelTargetInfo) <- call (vuModelTargetObservationGetTargetInfo observation) ;;
         REQUIRE_SUCCESS r ;;
         if pose_status_eqb (pi_poseStatus poseInfo) VU_OBSERVATION_POSE_STATUS_NO_POSE then
           '(r, guideViewList) <- call vuGuideViewListCreate ;;
           REQUIRE_SUCCESS r ;;
           observer <- get mObjectObserver ;;
           r <- call (vuModelTargetObserverGetGuideViews observer guideViewList) ;;
           (if negb (is_success r) then LOG "Error getting list of guide views"
            else
              '(r, size) <- call (vuGuideViewListGetSize guideViewList) ;;
              REQUIRE_SUCCESS r ;;
              guideView <-
                findGuideView guideViewList (activeGuideViewName modelTargetInfo)
                  (Z.to_nat size) 0 ;;
              assign (set_mGuideViewModelTarget guideView) ;;
              if is_null guideView then LOG "Error getting guide view details" else ret tt) ;;
           r <- call (vuGuideViewListDestroy guideViewList) ;;
           REQUIRE_SUCCESS r ;;
           ret (false, out)
         else
           assign (set_mGuideViewModelTarget nullptr) ;;
           renderState <- get mCurrentRenderState ;;
           let modelMatrix := pi_pose poseInfo in
           modelViewMatrix <-
             call (vuMatrix44FMultiplyMatrix (viewMatrix renderState) modelMatrix) ;;
           scaleMatrix <- call (vuMatrix44FScalingMatrix (mt_size modelTargetInfo)) ;;
           translateMatrix <-
             call (vuMatrix44FTranslationMatrix (center (mt_bbox modelTargetInfo))) ;;
           scaledModelViewMatrix <- call (vuMatrix44FMultiplyMatrix translateMatrix scaleMatrix) ;;
           scaledModelViewMatrix <-
             call (vuMatrix44FMultiplyMatrix modelViewMatrix scaledModelViewMatrix) ;;
           ret (true, (projectionMatrix renderState, modelViewMatrix, scaledModelViewMatrix))
       else ret (false, out)
     else ret (false, out)) ;;
  r <- call (vuObservationListDestroy observationList) ;;
  REQUIRE_SUCCESS r ;;
  ret result.

(** What [getModelTargetGuideView] writes through its reference parameters. *)
Record GuideViewOut : Type := {
  gv_projectionMatrix : VuMatrix44F;
  gv_modelViewMatrix : VuMatrix44F;
  guideViewImageInfo : VuImageInfo;
  guideViewImageHasChanged : VuBool
}.

(** [AppController::getModelTargetGuideView] *)
Definition getModelTargetGuideView (out : GuideViewOut) : M (bool * GuideViewOut) :=
  guideView <- get mGuideViewModelTarget ;;
  if is_null guideView then ret (false, out) else
  state <- get mVuforiaState ;;
  '(r, cameraIntrinsics) <- call (vuStateGetCameraIntrinsics state) ;;
  if negb (is_success r) then ret (false, out) else
  fov <- call (vuCameraIntrinsicsGetFov cameraIntrinsics) ;;
  '(r, changed) <- call (vuGuideViewIsImageOutdated guideView (guideViewImageHasChanged out)) ;;
  let out :=
    {| gv_projectionMatrix := gv_projectionMatrix out;
       gv_modelViewMatrix := gv_modelViewMatrix out;
       guideViewImageInfo := guideViewImageInfo out;
       guideViewImageHasChanged := changed |} in
  if negb (is_success r) then ret (false, out) else
  '(r, guideViewImage) <- call (vuGuideViewGetImage guideView) ;;
  if negb (is_success r) then ret (false, out) else
  '(r, imageInfo) <- call (vuImageGetImageInfo guideViewImage (guideViewImageInfo out)) ;;
  let out :=
    {| gv_projectionMatrix := gv_projectionMatrix out;
       gv_modelViewMatrix := gv_modelViewMatrix out;
       guideViewImageInfo := imageInfo;
       guideViewImageHasChanged := guideViewImageHasChanged out |} in
  if negb (is_success r) then
    LOG "Error getting image info for guide view" ;;
    ret (false, out)
  else
  displayAspectRatio <- get mDisplayAspectRatio ;;
  let one := float_lit 1 1 in
  let guideViewAspectRatio :=
    fdiv (float_of_int (width imageInfo)) (float_of_int (height imageInfo)) in
  let planeDistance := float_lit 1 100 in
  let fieldOfView := v2_1 fov in
  let nearPlaneHeight :=
    fmul (fmul one planeDistance) (tanf (fmul fieldOfView (float_lit 1 2))) in
  let nearPlaneWidth := fmul nearPlaneHeight displayAspectRatio in
  let plane :=
    if fge guideViewAspectRatio one && fge displayAspectRatio one then
      (nearPlaneWidth, fdiv nearPlaneWidth guideViewAspectRatio)
    else if flt guideViewAspectRatio one && flt displayAspectRatio one then
      (fmul nearPlaneHeight guideViewAspectRatio, nearPlaneHeight)
    else if flt displayAspectRatio one then
      (nearPlaneHeight, fdiv nearPlaneHeight guideViewAspectRatio)
    else
      (fmul nearPlaneWidth guideViewAspectRatio, nearPlaneWidth) in
  let planeWidth := fst plane in
  let planeHeight := snd plane in
  let scale0 := fdiv (fmul (float_of_int 2) planeWidth) nearPlaneWidth in
  let scale1 := fdiv (fmul (float_of_int 2) planeHeight) nearPlaneHeight in
  projection <- call vuIdentityMatrix44F ;;
  modelView <- call vuIdentityMatrix44F ;;
  modelView <-
    call (vuMatrix44FScale {| v3_0 := scale0; v3_1 := scale1; v3_2 := one |} modelView) ;;
  ret (true,
       {| gv_projectionMatrix := projection;
          gv_modelViewMatrix := modelView;
          guideViewImageInfo := imageInfo;
          guideViewImageHasChanged := guideViewImageHasChanged out |}).

End Model.

Arguments Crash {CF A} why.
Arguments Crashed {A} why.

(** ** Reading a trace *)

Section Traces.

Context {CF : CFloat}.

Definition is_reset (e : entry) : bool :=
  match e with
  | ECall c _ => match c with vuEngineResetWorldTracking _ => true | _ => false end
  | _ => false
  end.

(** How often [vuEngineResetWorldTracking] was called. *)
Definition resets (tr : list entry) : nat := List.length (filter is_reset tr).

Definition reset_invoked (tr : list entry) : bool := existsb is_reset tr.

(** The clock readings stay fixed while a method runs: the world carries the
    time of the current frame next to the engine's state. *)
Definition at_time {W : Type} (env : Env W) : Env (W * time_point) :=
  {| vu := fun T c wt =>
             let rw := vu env c (fst wt) in (fst rw, (snd rw, snd wt));
     steady_clock_now := fun wt => (snd wt, wt) |}.

(** One render frame as the relocalization timer sees it: the device pose
    status a successful [prepareToRender] cached, and the time at which
    [finishRender] runs. *)
Record Frame : Type := {
  f_status : VuObservationPoseStatus;
  f_info : VuDevicePoseObservationStatusInfo;
  f_time : time_point
}.

Definition relocalizing (f : Frame) : bool :=
  pose_status_eqb (f_status f) VU_OBSERVATION_POSE_STATUS_LIMITED
  && is_relocalizing_info (f_info f).

Definition observe (f : Frame) (c : AppController) : AppController :=
  set_poseStatusInfo (f_info f) (set_poseStatus (f_status f) c).

(** [finishRender] over successive frames: the trace of each call, the
    controller and the engine's state at the end. *)
Fixpoint finishRender_frames {W : Type} (env : Env W) (fs : list Frame)
    (c : AppController) (w : W) : list (list entry) * AppController * W :=
  match fs with
  | [] => ([], c, w)
  | f :: fs' =>
      let r := run (at_time env) (finishRender (observe f c)) (w, f_time f) in
      match res r with
      | Done (_, c') =>
          let '(trs, c'', w'') := finishRender_frames env fs' c' (fst (world r)) in
          (trace r :: trs, c'', w'')
      | Crashed _ => ([trace r], c, fst (world r))
      end
  end.

(** Following the specification's words: the status has been
    limited+relocalizing without interruption, up to and including frame
    [f], for longer than the threshold.  [run_start] walks back over the
    frames before [f], latest first. *)
Fixpoint run_start (earlier : list Frame) (t : time_point) : time_point :=
  match earlier with
  | f :: rest => if relocalizing f then run_start rest (f_time f) else t
  | [] => t
  end.

Definition spec_relocalizing_beyond_threshold (fs : list Frame) (f : Frame) : bool :=
  relocalizing f
  && (f_time f - run_start (rev fs) (f_time f) >? MAX_RELOCALIZING_SECONDS * 1000000000).

(** What the code times: as [run_start], but a frame whose [finishRender]
    invoked the reset also ends the run. *)
Fixpoint timer_start (earlier : list (Frame * bool)) (t : time_point) : time_point :=
  match earlier with
  | (f, reset) :: rest =>
      if relocalizing f && negb reset then timer_start rest (f_time f) else t
  | [] => t
  end.

(** Frames at a fixed rate: frame [k] of a run at [rate] frames per second
    that starts at [t0] is due at [t0 + k / rate] seconds. *)
Definition frame_time (t0 : time_point) (rate : Z) (k : Z) : time_point :=
  t0 + (k * 1000000000) / rate.

Definition relocalizing_frame (t : time_point) : Frame :=
  {| f_status := VU_OBSERVATION_POSE_STATUS_LIMITED;
     f_info := VU_DEVICE_POSE_OBSERVATION_STATUS_INFO_RELOCALIZING;
     f_time := t |}.

(** [n] consecutive limited+relocalizing frames at [rate] frames per
    second, from frame number [s] on. *)
Definition frames_from (t0 : time_point) (rate : Z) (s n : nat) : list Frame :=
  map (fun k => relocalizing_frame (frame_time t0 rate (Z.of_nat k))) (seq s n).

Definition relocalizing_frames (t0 : time_point) (rate : Z) (n : nat) : list Frame :=
  frames_from t0 rate 0 n.

End Traces.

(** ** A small engine to run the model on

    [Toy.engine] answers every call from a table of settings, so that the
    methods can be evaluated on concrete inputs.  It keeps one piece of
    state of its own, whether the engine is running. *)

Module Toy.

(** Floats play no part in what is evaluated here. *)
#[local] Instance toy_float : CFloat :=
  {| float := unit;
     float_of_int := fun _ => tt;
     float_lit := fun _ _ => tt;
     fmul := fun _ _ => tt;
     fdiv := fun _ _ => tt;
     tanf := fun _ => tt;
     fmax := fun _ _ => tt;
     fge := fun _ _ => true;
     flt := fun _ _ => false |}.

Definition matrix : VuMatrix44F := {| m44_data := [] |}.
Definition vector3 : VuVector3F := {| v3_0 := tt; v3_1 := tt; v3_2 := tt |}.
Definition vector2 : VuVector2F := {| v2_0 := tt; v2_1 := tt |}.

Record World : Type := {
  running : bool;
  clock : time_point;
  addLicenseConfig : VuResult;
  addPlatformConfig : VuResult;
  addRenderConfig : VuResult;
  engineCreate : VuResult * ptr * VuErrorCode;
  setNearFar : VuResult;
  createDevicePoseObserver : VuResult;
  createObjectObserver : VuResult;
  engineStart : VuResult;
  engineStop : VuResult;
  engineDestroy : VuResult;
  acquireLatestState : VuResult * ptr;
  hasCameraFrame : VuBool;
  videoBackgroundMesh : ptr;
  observedPose : VuObservationPoseStatus;
  observedStatusInfo : VuDevicePoseObservationStatusInfo;
  guideViews : list (handle * string);
  activeGuideView : cstr
}.

Definition with_running (v : bool) (w : World) : World :=
  {| running := v;
     clock := clock w;
     addLicenseConfig := addLicenseConfig w;
     addPlatformConfig := addPlatformConfig w;
     addRenderConfig := addRenderConfig w;
     engineCreate := engineCreate w;
     setNearFar := setNearFar w;
     createDevicePoseObserver := createDevicePoseObserver w;
     createObjectObserver := createObjectObserver w;
     engineStart := engineStart w;
     engineStop := engineStop w;
     engineDestroy := engineDestroy w;
     acquireLatestState := acquireLatestState w;
     hasCameraFrame := hasCameraFrame w;
     videoBackgroundMesh := videoBackgroundMesh w;
     observedPose := observedPose w;
     observedStatusInfo := observedStatusInfo w;
     guideViews := guideViews w;
     activeGuideView := activeGuideView w |}.

Definition with_clock (v : time_point) (w : World) : World :=
  {| running := running w;
     clock := v;
     addLicenseConfig := addLicenseConfig w;
     addPlatformConfig := addPlatformConfig w;
     addRenderConfig := addRenderConfig w;
     engineCreate := engineCreate w;
     setNearFar := setNearFar w;
     createDevicePoseObserver := createDevicePoseObserver w;
     createObjectObserver := createObjectObserver w;
     engineStart := engineStart w;
     engineStop := engineStop w;
     engineDestroy := engineDestroy w;
     acquireLatestState := acquireLatestState w;
     hasCameraFrame := hasCameraFrame w;
     videoBackgroundMesh := videoBackgroundMesh w;
     observedPose := observedPose w;
     observedStatusInfo := observedStatusInfo w;
     guideViews := guideViews w;
     activeGuideView := activeGuideView w |}.

Definition with_addLicenseConfig (v : VuResult) (w : World) : World :=
  {| running := running w;
     clock := clock w;
     addLicenseConfig := v;
     addPlatformConfig := addPlatformConfig w;
     addRenderConfig := addRenderConfig w;
     engineCreate := engineCreate w;
     setNearFar := setNearFar w;
     createDevicePoseObserver := createDevicePoseObserver w;
     createObjectObserver := createObjectObserver w;
     engineStart := engineStart w;
     engineStop := engineStop w;
     engineDestroy := engineDestroy w;
     acquireLatestState := acquireLatestState w;
     hasCameraFrame := hasCameraFrame w;
     videoBackgroundMesh := videoBackgroundMesh w;
     observedPose := observedPose w;
     observedStatusInfo := observedStatusInfo w;
     guideViews := guideViews w;
     activeGuideView := activeGuideView w |}.

Definition with_addPlatformConfig (v : VuResult) (w : World) : World :=
  {| running := running w;
     clock := clock w;
     addLicenseConfig := addLicenseConfig w;
     addPlatformConfig := v;
     addRenderConfig := addRenderConfig w;
     engineCreate := engineCreate w;
     setNearFar := setNearFar w;
     createDevicePoseObserver := createDevicePoseObserver w;
     createObjectObserver := createObjectObserver w;
     engineStart := engineStart w;
     engineStop := engineStop w;
     engineDestroy := engineDestroy w;
     acquireLatestState := acquireLatestState w;
     hasCameraFrame := hasCameraFrame w;
     videoBackgroundMesh := videoBackgroundMesh w;
     observedPose := observedPose w;
     observedStatusInfo := observedStatusInfo w;
     guideViews := guideViews w;
     activeGuideView := activeGuideView w |}.

Definition with_addRenderConfig (v : VuResult) (w : World) : World :=
  {| running := running w;
     clock := clock w;
     addLicenseConfig := addLicenseConfig w;
     addPlatformConfig := addPlatformConfig w;
     addRenderConfig := v;
     engineCreate := engineCreate w;
     setNearFar := setNearFar w;
     createDevicePoseObserver := createDevicePoseObserver w;
     createObjectObserver := createObjectObserver w;
     engineStart := engineStart w;
     engineStop := engineStop w;
     engineDestroy := engineDestroy w;
     acquireLatestState := acquireLatestState w;
     hasCameraFrame := hasCameraFrame w;
     videoBackgroundMesh := videoBackgroundMesh w;
     observedPose := observedPose w;
     observedStatusInfo := observedStatusInfo w;
     guideViews := guideViews w;
     activeGuideView := activeGuideView w |}.

Definition with_engineCreate (v : VuResult * ptr * VuErrorCode) (w : World) : World :=
  {| running := running w;
     clock := clock w;
     addLicenseConfig := addLicenseConfig w;
     addPlatformConfig := addPlatformConfig w;
     addRenderConfig := addRenderConfig w;
     engineCreate := v;
     setNearFar := setNearFar w;
     createDevicePoseObserver := createDevicePoseObserver w;
     createObjectObserver := createObjectObserver w;
     engineStart := engineStart w;
     engineStop := engineStop w;
     engineDestroy := engineDestroy w;
     acquireLatestState := acquireLatestState w;
     hasCameraFrame := hasCameraFrame w;
     videoBackgroundMesh := videoBackgroundMesh w;
     observedPose := observedPose w;
     observedStatusInfo := observedStatusInfo w;
     guideViews := guideViews w;
     activeGuideView := activeGuideView w |}.

Definition with_setNearFar (v : VuResult) (w : World) : World :=
  {| running := running w;
     clock := clock w;
     addLicenseConfig := addLicenseConfig w;
     addPlatformConfig := addPlatformConfig w;
     addRenderConfig := addRenderConfig w;
     engineCreate := engineCreate w;
     setNearFar := v;
     createDevicePoseObserver := createDevicePoseObserver w;
     createObjectObserver := createObjectObserver w;
     engineStart := engineStart w;
     engineStop := engineStop w;
     engineDestroy := engineDestroy w;
     acquireLatestState := acquireLatestState w;
     hasCameraFrame := hasCameraFrame w;
     videoBackgroundMesh := videoBackgroundMesh w;
     observedPose := observedPose w;
     observedStatusInfo := observedStatusInfo w;
     guideViews := guideViews w;
     activeGuideView := activeGuideView w |}.

Definition with_createDevicePoseObserver (v : VuResult) (w : World) : World :=
  {| running := running w;
     clock := clock w;
     addLicenseConfig := addLicenseConfig w;
     addPlatformConfig := addPlatformConfig w;
     addRenderConfig := addRenderConfig w;
     engineCreate := engineCreate w;
     setNearFar := setNearFar w;
     createDevicePoseObserver := v;
     createObjectObserver := createObjectObserver w;
     engineStart := engineStart w;
     engineStop := engineStop w;
     engineDestroy := engineDestroy w;
     acquireLatestState := acquireLatestState w;
     hasCameraFrame := hasCameraFrame w;
     videoBackgroundMesh := videoBackgroundMesh w;
     observedPose := observedPose w;
     observedStatusInfo := observedStatusInfo w;
     guideViews := guideViews w;
     activeGuideView := activeGuideView w |}.

Definition with_createObjectObserver (v : VuResult) (w : World) : World :=
  {| running := running w;
     clock := clock w;
     addLicenseConfig := addLicenseConfig w;
     addPlatformConfig := addPlatformConfig w;
     addRenderConfig := addRenderConfig w;
     engineCreate := engineCreate w;
     setNearFar := setNearFar w;
     createDevicePoseObserver := createDevicePoseObserver w;
     createObjectObserver := v;
     engineStart := engineStart w;
     engineStop := engineStop w;
     engineDestroy := engineDestroy w;
     acquireLatestState := acquireLatestState w;
     hasCameraFrame := hasCameraFrame w;
     videoBackgroundMesh := videoBackgroundMesh w;
     observedPose := observedPose w;
     observedStatusInfo := observedStatusInfo w;
     guideViews := guideViews w;
     activeGuideView := activeGuideView w |}.

Definition with_engineStart (v : VuResult) (w : World) : World :=
  {| running := running w;
     clock := clock w;
     addLicenseConfig := addLicenseConfig w;
     addPlatformConfig := addPlatformConfig w;
     addRenderConfig := addRenderConfig w;
     engineCreate := engineCreate w;
     setNearFar := setNearFar w;
     createDevicePoseObserver := createDevicePoseObserver w;
     createObjectObserver := createObjectObserver w;
     engineStart := v;
     engineStop := engineStop w;
     engineDestroy := engineDestroy w;
     acquireLatestState := acquireLatestState w;
     hasCameraFrame := hasCameraFrame w;
     videoBackgroundMesh := videoBackgroundMesh w;
     observedPose := observedPose w;
     observedStatusInfo := observedStatusInfo w;
     guideViews := guideViews w;
     activeGuideView := activeGuideView w |}.

Definition with_engineStop (v : VuResult) (w : World) : World :=
  {| running := running w;
     clock := clock w;
     addLicenseConfig := addLicenseConfig w;
     addPlatformConfig := addPlatformConfig w;
     addRenderConfig := addRenderConfig w;
     engineCreate := engineCreate w;
     setNearFar := setNearFar w;
     createDevicePoseObserver := createDevicePoseObserver w;
     createObjectObserver := createObjectObserver w;
     engineStart := engineStart w;
     engineStop := v;
     engineDestroy := engineDestroy w;
     acquireLatestState := acquireLatestState w;
     hasCameraFrame := hasCameraFrame w;
     videoBackgroundMesh := videoBackgroundMesh w;
     observedPose := observedPose w;
     observedStatusInfo := observedStatusInfo w;
     guideViews := guideViews w;
     activeGuideView := activeGuideView w |}.

Definition with_engineDestroy (v : VuResult) (w : World) : World :=
  {| running := running w;
     clock := clock w;
     addLicenseConfig := addLicenseConfig w;
     addPlatformConfig := addPlatformConfig w;
     addRenderConfig := addRenderConfig w;
     engineCreate := engineCreate w;
     setNearFar := setNearFar w;
     createDevicePoseObserver := createDevicePoseObserver w;
     createObjectObserver := createObjectObserver w;
     engineStart := engineStart w;
     engineStop := engineStop w;
     engineDestroy := v;
     acquireLatestState := acquireLatestState w;
     hasCameraFrame := hasCameraFrame w;
     videoBackgroundMesh := videoBackgroundMesh w;
     observedPose := observedPose w;
     observedStatusInfo := observedStatusInfo w;
     guideViews := guideViews w;
     activeGuideView := activeGuideView w |}.

Definition with_acquireLatestState (v : VuResult * ptr) (w : World) : World :=
  {| running := running w;
     clock := clock w;
     addLicenseConfig := addLicenseConfig w;
     addPlatformConfig := addPlatformConfig w;
     addRenderConfig := addRenderConfig w;
     engineCreate := engineCreate w;
     setNearFar := setNearFar w;
     createDevicePoseObserver := createDevicePoseObserver w;
     createObjectObserver := createObjectObserver w;
     engineStart := engineStart w;
     engineStop := engineStop w;
     engineDestroy := engineDestroy w;
     acquireLatestState := v;
     hasCameraFrame := hasCameraFrame w;
     videoBackgroundMesh := videoBackgroundMesh w;
     observedPose := observedPose w;
     observedStatusInfo := observedStatusInfo w;
     guideViews := guideViews w;
     activeGuideView := activeGuideView w |}.

Definition with_hasCameraFrame (v : VuBool) (w : World) : World :=
  {| running := running w;
     clock := clock w;
     addLicenseConfig := addLicenseConfig w;
     addPlatformConfig := addPlatformConfig w;
     addRenderConfig := addRenderConfig w;
     engineCreate := engineCreate w;
     setNearFar := setNearFar w;
     createDevicePoseObserver := createDevicePoseObserver w;
     createObjectObserver := createObjectObserver w;
     engineStart := engineStart w;
     engineStop := engineStop w;
     engineDestroy := engineDestroy w;
     acquireLatestState := acquireLatestState w;
     hasCameraFrame := v;
     videoBackgroundMesh := videoBackgroundMesh w;
     observedPose := observedPose w;
     observedStatusInfo := observedStatusInfo w;
     guideViews := guideViews w;
     activeGuideView := activeGuideView w |}.

Definition with_videoBackgroundMesh (v : ptr) (w : World) : World :=
  {| running := running w;
     clock := clock w;
     addLicenseConfig := addLicenseConfig w;
     addPlatformConfig := addPlatformConfig w;
     addRenderConfig := addRenderConfig w;
     engineCreate := engineCreate w;
     setNearFar := setNearFar w;
     createDevicePoseObserver := createDevicePoseObserver w;
     createObjectObserver := createObjectObserver w;
     engineStart := engineStart w;
     engineStop := engineStop w;
     engineDestroy := engineDestroy w;
     acquireLatestState := acquireLatestState w;
     hasCameraFrame := hasCameraFrame w;
     videoBackgroundMesh := v;
     observedPose := observedPose w;
     observedStatusInfo := observedStatusInfo w;
     guideViews := guideViews w;
     activeGuideView := activeGuideView w |}.

Definition with_observedPose (v : VuObservationPoseStatus) (w : World) : World :=
  {| running := running w;
     clock := clock w;
     addLicenseConfig := addLicenseConfig w;
     addPlatformConfig := addPlatformConfig w;
     addRenderConfig := addRenderConfig w;
     engineCreate := engineCreate w;
     setNearFar := setNearFar w;
     createDevicePoseObserver := createDevicePoseObserver w;
     createObjectObserver := createObjectObserver w;
     engineStart := engineStart w;
     engineStop := engineStop w;
     engineDestroy := engineDestroy w;
     acquireLatestState := acquireLatestState w;
     hasCameraFrame := hasCameraFrame w;
     videoBackgroundMesh := videoBackgroundMesh w;
     observedPose := v;
     observedStatusInfo := observedStatusInfo w;
     guideViews := guideViews w;
     activeGuideView := activeGuideView w |}.

Definition with_observedStatusInfo (v : VuDevicePoseObservationStatusInfo) (w : World) : World :=
  {| running := running w;
     clock := clock w;
     addLicenseConfig := addLicenseConfig w;
     addPlatformConfig := addPlatformConfig w;
     addRenderConfig := addRenderConfig w;
     engineCreate := engineCreate w;
     setNearFar := setNearFar w;
     createDevicePoseObserver := createDevicePoseObserver w;
     createObjectObserver := createObjectObserver w;
     engineStart := engineStart w;
     engineStop := engineStop w;
     engineDestroy := engineDestroy w;
     acquireLatestState := acquireLatestState w;
     hasCameraFrame := hasCameraFrame w;
     videoBackgroundMesh := videoBackgroundMesh w;
     observedPose := observedPose w;
     observedStatusInfo := v;
     guideViews := guideViews w;
     activeGuideView := activeGuideView w |}.

Definition with_guideViews (v : list (handle * string)) (w : World) : World :=
  {| running := running w;
     clock := clock w;
     addLicenseConfig := addLicenseConfig w;
     addPlatformConfig := addPlatformConfig w;
     addRenderConfig := addRenderConfig w;
     engineCreate := engineCreate w;
     setNearFar := setNearFar w;
     createDevicePoseObserver := createDevicePoseObserver w;
     createObjectObserver := createObjectObserver w;
     engineStart := engineStart w;
     engineStop := engineStop w;
     engineDestroy := engineDestroy w;
     acquireLatestState := acquireLatestState w;
     hasCameraFrame := hasCameraFrame w;
     videoBackgroundMesh := videoBackgroundMesh w;
     observedPose := observedPose w;
     observedStatusInfo := observedStatusInfo w;
     guideViews := v;
     activeGuideView := activeGuideView w |}.

Definition with_activeGuideView (v : cstr) (w : World) : World :=
  {| running := running w;
     clock := clock w;
     addLicenseConfig := addLicenseConfig w;
     addPlatformConfig := addPlatformConfig w;
     addRenderConfig := addRenderConfig w;
     engineCreate := engineCreate w;
     setNearFar := setNearFar w;
     createDevicePoseObserver := createDevicePoseObserver w;
     createObjectObserver := createObjectObserver w;
     engineStart := engineStart w;
     engineStop := engineStop w;
     engineDestroy := engineDestroy w;
     acquireLatestState := acquireLatestState w;
     hasCameraFrame := hasCameraFrame w;
     videoBackgroundMesh := videoBackgroundMesh w;
     observedPose := observedPose w;
     observedStatusInfo := observedStatusInfo w;
     guideViews := guideViews w;
     activeGuideView := v |}.

Definition renderState (w : World) : VuRenderState :=
  {| viewport := {| v4_0 := 0; v4_1 := 0; v4_2 := 1080; v4_3 := 1920 |};
     vbProjectionMatrix := matrix;
     vbMesh := videoBackgroundMesh w;
     viewMatrix := matrix;
     projectionMatrix := matrix |}.

Definition imageInfo : VuImageInfo :=
  {| width := 640; height := 480; stride := 640; bufferWidth := 640; bufferHeight := 480;
     bufferSize := 307200; format := 1; buffer := Some 900 |}.

Definition nth_guide_view (w : World) (i : Z) : ptr :=
  option_map fst (nth_error (guideViews w) (Z.to_nat i)).

Definition guide_view_name (w : World) (g : ptr) : cstr :=
  match g with
  | Some h => option_map snd (find (fun p => fst p =? h) (guideViews w))
  | None => None
  end.

Definition engine (T : Type) (c : VuCall T) (w : World) : T * World :=
  match c in VuCall T return T * World with
  | vuEngineConfigSetCreate => ((VU_SUCCESS, Some 10), w)
  | vuEngineConfigSetDestroy _ => (VU_SUCCESS, w)
  | vuLicenseConfigDefault => ({| key := None |}, w)
  | vuEngineConfigSetAddLicenseConfig _ _ => (addLicenseConfig w, w)
  | vuRenderConfigDefault =>
      ({| vbRenderBackend := VU_RENDER_VB_BACKEND_DEFAULT; vbViewportMode := 1 |}, w)
  | vuEngineConfigSetAddRenderConfig _ _ => (addRenderConfig w, w)
  | vuPlatformAndroidConfigDefault => ({| pac_activity := None; pac_javaVM := None |}, w)
  | vuEngineConfigSetAddPlatformAndroidConfig _ _ => (addPlatformConfig w, w)
  | vuEngineCreate _ _ => (engineCreate w, w)
  | vuEngineDestroy _ =>
      (engineDestroy w, if is_success (engineDestroy w) then with_running false w else w)
  | vuEngineStart _ =>
      (engineStart w, if is_success (engineStart w) then with_running true w else w)
  | vuEngineStop _ =>
      (engineStop w, if is_success (engineStop w) then with_running false w else w)
  | vuEngineIsRunning _ => (if running w then VU_TRUE else VU_FALSE, w)
  | vuEngineResetWorldTracking _ => (VU_SUCCESS, w)
  | vuEngineGetCameraController _ => ((VU_SUCCESS, Some 20), w)
  | vuEngineGetRenderController _ _ => ((VU_SUCCESS, Some 21), w)
  | vuEngineGetPlatformController _ _ => ((VU_SUCCESS, Some 22), w)
  | vuCameraControllerSetActiveVideoMode _ _ => (VU_SUCCESS, w)
  | vuCameraControllerSetFocusMode _ _ => (VU_SUCCESS, w)
  | vuPlatformControllerConvertPlatformViewOrientation _ _ => ((VU_SUCCESS, 1), w)
  | vuPlatformControllerSetViewOrientation _ _ => (VU_SUCCESS, w)
  | vuRenderControllerSetRenderViewConfig _ _ => (VU_SUCCESS, w)
  | vuRenderControllerGetVideoBackgroundViewInfo _ => ((VU_SUCCESS, (1920, 1080)), w)
  | vuRenderControllerSetProjectionMatrixNearFar _ _ _ => (setNearFar w, w)
  | vuRenderControllerUpdateVideoBackgroundTexture _ _ _ => (VU_SUCCESS, w)
  | vuDevicePoseConfigDefault => ({| dp_activate := VU_TRUE; dp_staticMode := VU_FALSE |}, w)
  | vuEngineCreateDevicePoseObserver _ old _ =>
      (if is_success (createDevicePoseObserver w)
       then (VU_SUCCESS, Some 30, 0) else (VU_FAILED, old, 1), w)
  | vuImageTargetConfigDefault =>
      ({| itc_databasePath := None; itc_targetName := None; itc_activate := VU_TRUE;
          itc_scale := tt; itc_poseOffset := matrix |}, w)
  | vuEngineCreateImageTargetObserver _ old _ =>
      (if is_success (createObjectObserver w)
       then (VU_SUCCESS, Some 31, 0) else (VU_FAILED, old, 1), w)
  | vuModelTargetConfigDefault =>
      ({| mtc_databasePath := None; mtc_targetName := None; mtc_activeGuideViewName := None;
          mtc_activate := VU_TRUE; mtc_scale := tt; mtc_poseOffset := matrix |}, w)
  | vuEngineCreateModelTargetObserver _ old _ =>
      (if is_success (createObjectObserver w)
       then (VU_SUCCESS, Some 32, 0) else (VU_FAILED, old, 1), w)
  | vuObserverDestroy _ => (VU_SUCCESS, w)
  | vuModelTargetObserverGetGuideViews _ _ => (VU_SUCCESS, w)
  | vuEngineAcquireLatestState _ old =>
      (if is_success (fst (acquireLatestState w))
       then acquireLatestState w else (VU_FAILED, old), w)
  | vuStateRelease _ => (VU_SUCCESS, w)
  | vuStateHasCameraFrame _ => (hasCameraFrame w, w)
  | vuStateGetRenderState _ _ => ((VU_SUCCESS, renderState w), w)
  | vuStateGetCameraIntrinsics _ => ((VU_SUCCESS, 40), w)
  | vuStateGetDevicePoseObservations _ _ => (VU_SUCCESS, w)
  | vuStateGetImageTargetObservations _ _ => (VU_SUCCESS, w)
  | vuStateGetModelTargetObservations _ _ => (VU_SUCCESS, w)
  | vuObservationListCreate => ((VU_SUCCESS, Some 50), w)
  | vuObservationListDestroy _ => (VU_SUCCESS, w)
  | vuObservationListGetSize _ => ((VU_SUCCESS, 1), w)
  | vuObservationListGetElement _ _ => ((VU_SUCCESS, Some 60), w)
  | vuObservationIsType _ _ => (VU_TRUE, w)
  | vuObservationHasPoseInfo _ => (VU_TRUE, w)
  | vuObservationGetPoseInfo _ =>
      ((VU_SUCCESS, {| pi_poseStatus := observedPose w; pi_pose := matrix |}), w)
  | vuDevicePoseObservationGetStatusInfo _ _ => ((VU_SUCCESS, observedStatusInfo w), w)
  | vuImageTargetObservationGetTargetInfo _ =>
      ((VU_SUCCESS,
        {| it_uniqueId := None; it_name := Some "VeneraMarker"; it_size := vector2;
           it_bbox := {| center := vector3; extent := vector3 |};
           it_poseOffset := matrix |}), w)
  | vuModelTargetObservationGetTargetInfo _ =>
      ((VU_SUCCESS,
        {| mt_uniqueId := None; mt_name := Some "VuforiaMars_ModelTarget"; mt_size := vector3;
           mt_bbox := {| center := vector3; extent := vector3 |};
           activeGuideViewName := activeGuideView w; mt_trackingOptimization := 1;
           mt_poseOffset := matrix; mt_activeStateName := None |}), w)
  | vuGuideViewListCreate => ((VU_SUCCESS, Some 70), w)
  | vuGuideViewListDestroy _ => (VU_SUCCESS, w)
  | vuGuideViewListGetSize _ => ((VU_SUCCESS, Z.of_nat (List.length (guideViews w))), w)
  | vuGuideViewListGetElement _ i => ((VU_SUCCESS, nth_guide_view w i), w)
  | vuGuideViewGetName g => ((VU_SUCCESS, guide_view_name w g), w)
  | vuGuideViewIsImageOutdated _ _ => ((VU_SUCCESS, VU_FALSE), w)
  | vuGuideViewGetImage _ => ((VU_SUCCESS, Some 80), w)
  | vuImageGetImageInfo _ _ => ((VU_SUCCESS, imageInfo), w)
  | vuCameraIntrinsicsGetFov _ => (vector2, w)
  | vuIdentityMatrix44F => (matrix, w)
  | vuMatrix44FMultiplyMatrix _ _ => (matrix, w)
  | vuMatrix44FScale _ _ => (matrix, w)
  | vuMatrix44FScalingMatrix _ => (matrix, w)
  | vuMatrix44FTranslationMatrix _ => (matrix, w)
  end.

Definition env : Env World :=
  {| vu := engine; steady_clock_now := fun w => (clock w, w) |}.

(** An engine that has been created and is not started: every call
    succeeds, the device is tracked, the model target has a pose. *)
Definition idle : World :=
  {| running := false;
     clock := 0;
     addLicenseConfig := VU_SUCCESS;
     addPlatformConfig := VU_SUCCESS;
     addRenderConfig := VU_SUCCESS;
     engineCreate := (VU_SUCCESS, Some 1, VU_ENGINE_CREATION_ERROR_NONE);
     setNearFar := VU_SUCCESS;
     createDevicePoseObserver := VU_SUCCESS;
     createObjectObserver := VU_SUCCESS;
     engineStart := VU_SUCCESS;
     engineStop := VU_SUCCESS;
     engineDestroy := VU_SUCCESS;
     acquireLatestState := (VU_SUCCESS, Some 5);
     hasCameraFrame := VU_TRUE;
     videoBackgroundMesh := Some 6;
     observedPose := VU_OBSERVATION_POSE_STATUS_TRACKED;
     observedStatusInfo := VU_DEVICE_POSE_OBSERVATION_STATUS_INFO_NORMAL;
     guideViews := [(71, "Front"); (72, "Side")];
     activeGuideView := Some "Side" |}.

Definition started : World := with_running true idle.

(** The controller after a successful [initAR] for target [target]. *)
Definition initialised (target : Z) : AppController :=
  set_mTarget target
   (set_mVbRenderBackend VU_RENDER_VB_BACKEND_GLES3
    (set_mObjectObserver (Some (if target =? IMAGE_TARGET_ID then 31 else 32))
       (set_mDevicePoseObserver (Some 30)
          (set_mPlatformController (Some 22)
             (set_mRenderController (Some 21)
                (set_mEngine (Some 1)
                   (set_mInitDoneCallback (Some 2)
                      (set_mShowErrorCallback (Some 3) initial_controller)))))))).

Definition initConfig : InitConfig :=
  {| ic_vbRenderBackend := VU_RENDER_VB_BACKEND_GLES3;
     ic_appData := Some 4;
     ic_showErrorCallback := Some 3;
     ic_initDoneCallback := Some 2 |}.

Definition vbData : VuRenderVideoBackgroundData :=
  {| renderData := nullptr; textureData := nullptr; textureUnitData := Some 7 |}.

Definition guideView : GuideViewOut :=
  {| gv_projectionMatrix := matrix;
     gv_modelViewMatrix := matrix;
     guideViewImageInfo := imageInfo;
     guideViewImageHasChanged := VU_FALSE |}.

End Toy.

(** ** Views of a trace *)

Section Views.

Context {CF : CFloat}.

(** The entries of a trace that [f] recognises, in order. *)
Fixpoint view {X : Type} (f : entry -> option X) (tr : list entry) : list X :=
  match tr with
  | [] => []
  | e :: tr' =>
      match f e with
      | Some x => x :: view f tr'
      | None => view f tr'
      end
  end.

(** What a run returned, [d] if it crashed. *)
Definition returned {A : Type} (o : outcome A) (d : A) : A :=
  match o with
  | Done a => a
  | Crashed _ => d
  end.

(** *** Initialisation: the fallible steps and the two callbacks *)

Inductive InitEvent : Type :=
| AddLicenseConfig (r : VuResult)
| AddPlatformConfig (r : VuResult)
| AddRenderConfig (r : VuResult)
| EngineCreate (r : VuResult) (engine : ptr) (errorCode : VuErrorCode)
| SetNearFar (r : VuResult)
| CreateDevicePoseObserver (r : VuResult)
| CreateImageTargetObserver (r : VuResult)
| CreateModelTargetObserver (r : VuResult)
| ShowError (callback : handle) (errorString : string)
| InitDone (callback : handle).

Definition init_event (e : entry) : option InitEvent :=
  match e with
  | ECall c r =>
      match c in VuCall T return T -> option InitEvent with
      | vuEngineConfigSetAddLicenseConfig _ _ => fun r => Some (AddLicenseConfig r)
      | vuEngineConfigSetAddPlatformAndroidConfig _ _ => fun r => Some (AddPlatformConfig r)
      | vuEngineConfigSetAddRenderConfig _ _ => fun r => Some (AddRenderConfig r)
      | vuEngineCreate _ _ => fun r => Some (EngineCreate (fst (fst r)) (snd (fst r)) (snd r))
      | vuRenderControllerSetProjectionMatrixNearFar _ _ _ => fun r => Some (SetNearFar r)
      | vuEngineCreateDevicePoseObserver _ _ _ =>
          fun r => Some (CreateDevicePoseObserver (fst (fst r)))
      | vuEngineCreateImageTargetObserver _ _ _ =>
          fun r => Some (CreateImageTargetObserver (fst (fst r)))
      | vuEngineCreateModelTargetObserver _ _ _ =>
          fun r => Some (CreateModelTargetObserver (fst (fst r)))
      | _ => fun _ => None
      end r
  | EOut (OShowError f s) => Some (ShowError f s)
  | EOut (OInitDone f) => Some (InitDone f)
  | _ => None
  end.

Definition is_callback (e : InitEvent) : bool :=
  match e with ShowError _ _ | InitDone _ => true | _ => false end.

(** The callbacks a run invoked, in order. *)
Definition callbacks (tr : list entry) : list InitEvent :=
  filter is_callback (view init_event tr).

(** The error codes [initErrorToString] names in a [case] of its own. *)
Definition named_error_codes : list VuErrorCode :=
  [ VU_ENGINE_CREATION_ERROR_DEVICE_NOT_SUPPORTED;
    VU_ENGINE_CREATION_ERROR_PERMISSION_ERROR;
    VU_ENGINE_CREATION_ERROR_LICENSE_ERROR;
    VU_ENGINE_CREATION_ERROR_LICENSE_CONFIG_MISSING_KEY;
    VU_ENGINE_CREATION_ERROR_LICENSE_CONFIG_INVALID_KEY;
    VU_ENGINE_CREATION_ERROR_LICENSE_CONFIG_NO_NETWORK_PERMANENT;
    VU_ENGINE_CREATION_ERROR_LICENSE_CONFIG_NO_NETWORK_TRANSIENT;
    VU_ENGINE_CREATION_ERROR_LICENSE_CONFIG_BAD_REQUEST;
    VU_ENGINE_CREATION_ERROR_LICENSE_CONFIG_KEY_CANCELED;
    VU_ENGINE_CREATION_ERROR_LICENSE_CONFIG_PRODUCT_TYPE_MISMATCH;
    VU_ENGINE_CREATION_ERROR_LICENSE_CONFIG_UNKNOWN;
    VU_ENGINE_CREATION_ERROR_RENDER_CONFIG_UNSUPPORTED_BACKEND;
    VU_ENGINE_CREATION_ERROR_RENDER_CONFIG_FAILED_TO_SET_VIDEO_BG_VIEWPORT ].

(** The message for the codes without a [case] of their own. *)
Definition generic_init_error : string := "Vuforia initialization failed".

(** What the callbacks of a finished [initAR] say about its steps, with
    [f] the error callback and [g] the done callback: a failed step that
    reports is followed by the one error message of that step, and the
    creation of the object observer by the done callback alone. *)
Definition init_report (f g : handle) (tr : list entry) : Prop :=
  let ev := view init_event tr in
  (In (AddLicenseConfig VU_FAILED) ev ->
   callbacks tr =
     [ShowError f
        "Vuforia failed to initialize because the license key could not be added to the configuration"])
  /\ (In (AddPlatformConfig VU_FAILED) ev ->
      callbacks tr =
        [ShowError f "Vuforia failed to initialize, could not apply platform-specific configuration"])
  /\ (In (AddRenderConfig VU_FAILED) ev ->
      callbacks tr = [ShowError f "Vuforia failed to initialize, could not configure rendering"])
  /\ (forall engine code,
        In (EngineCreate VU_FAILED engine code) ev ->
        callbacks tr = [ShowError f (initErrorToString code)])
  /\ (forall code,
        In (EngineCreate VU_SUCCESS nullptr code) ev ->
        callbacks tr = [ShowError f "Vuforia initialization failed."])
  /\ (In (CreateImageTargetObserver VU_FAILED) ev ->
      callbacks tr = [ShowError f "Error creating image target observer"])
  /\ (In (CreateModelTargetObserver VU_FAILED) ev ->
      callbacks tr = [ShowError f "Error creating model target observer"])
  /\ (In (CreateImageTargetObserver VU_SUCCESS) ev \/ In (CreateModelTargetObserver VU_SUCCESS) ev ->
      callbacks tr = [InitDone g]).

(** *** Shutdown: what is stopped and destroyed, in order *)

Inductive Lifecycle : Type :=
| EngineStopped (engine : ptr)
| ObserverDestroyed (observer : ptr)
| EngineDestroyed (engine : ptr).

Definition lifecycle_event (e : entry) : option Lifecycle :=
  match e with
  | ECall c _ =>
      match c with
      | vuEngineStop engine => Some (EngineStopped engine)
      | vuObserverDestroy observer => Some (ObserverDestroyed observer)
      | vuEngineDestroy engine => Some (EngineDestroyed engine)
      | _ => None
      end
  | _ => None
  end.

Definition destroyed_if_set (observer : ptr) : list Lifecycle :=
  if is_null observer then [] else [ObserverDestroyed observer].

(** What the answer of [vuEngineDestroy] was, if it was called. *)
Definition destroy_answer (e : entry) : option VuResult :=
  match e with
  | ECall c r =>
      match c in VuCall T return T -> option VuResult with
      | vuEngineDestroy _ => fun r => Some r
      | _ => fun _ => None
      end r
  | _ => None
  end.

(** *** State snapshots: the ledger of acquisitions and releases *)

Inductive Snapshot : Type :=
| Acquired (r : VuResult) (state : ptr)
| Released (state : ptr).

Definition snapshot_event (e : entry) : option Snapshot :=
  match e with
  | ECall c r =>
      match c in VuCall T return T -> option Snapshot with
      | vuEngineAcquireLatestState _ _ => fun r => Some (Acquired (fst r) (snd r))
      | vuStateRelease state => fun _ => Some (Released state)
      | _ => fun _ => None
      end r
  | _ => None
  end.

Fixpoint remove_one (h : handle) (held : list handle) : list handle :=
  match held with
  | [] => []
  | x :: rest => if x =? h then rest else x :: remove_one h rest
  end.

(** The snapshots held after one more event: a successful acquisition of
    a non-null state adds it, a release gives it back. *)
Definition ledger_step (held : list handle) (s : Snapshot) : list handle :=
  match s with
  | Acquired VU_SUCCESS (Some h) => h :: held
  | Acquired _ _ => held
  | Released (Some h) => remove_one h held
  | Released None => held
  end.

Definition held_after (held : list handle) (evs : list Snapshot) : list handle :=
  fold_left ledger_step evs held.

(** The largest number of snapshots held at any point of the events. *)
Fixpoint peak_held (held : list handle) (evs : list Snapshot) : nat :=
  match evs with
  | [] => List.length held
  | s :: evs' => Nat.max (List.length held) (peak_held (ledger_step held s) evs')
  end.

(** A render frame as AppController.h prescribes it: [prepareToRender],
    the drawing if that succeeded, and [finishRender] whatever the result. *)
Definition renderFrame (vp : list Z) (renderData : VuRenderVideoBackgroundData)
    (draw : M unit) : M unit :=
  bind (prepareToRender vp renderData) (fun ok =>
  bind (if fst ok then draw else ret tt) (fun _ =>
  finishRender)).

Fixpoint renderFrames (n : nat) (vp : list Z) (renderData : VuRenderVideoBackgroundData)
    (draw : M unit) : M unit :=
  match n with
  | O => ret tt
  | S n' => bind (renderFrame vp renderData draw) (fun _ => renderFrames n' vp renderData draw)
  end.

(** The controller calls the sample's JNI [renderFrame] makes between the
    two (the GL drawing itself is not part of the controller). *)
Definition sampleDraw (m : VuMatrix44F) (g : GuideViewOut) : M unit :=
  bind getRenderState (fun _ =>
  bind (getOrigin (m, m)) (fun _ =>
  bind (getImageTargetResult (m, m, m)) (fun image =>
  if fst image then ret tt else
  bind (getModelTargetResult (m, m, m)) (fun model =>
  if fst model then ret tt else
  bind (getModelTargetGuideView g) (fun _ => ret tt))))).

(** *** The device pose read during a frame *)

(** The engine calls of [updateDevicePose], with their arguments and
    answers. *)
Inductive DevicePoseEvent : Type :=
| PoseCleared (identity : VuMatrix44F)
| PoseListCreated (r : VuResult) (observationList : ptr)
| DevicePoseObservationsGot (state observationList : ptr) (r : VuResult)
| PoseListSize (observationList : ptr) (r : VuResult) (numObservations : Z)
| PoseObservationGot (observationList : ptr) (index : Z) (r : VuResult) (observation : ptr)
| PoseObservationType (observation : ptr) (type : VuObservationType) (answer : VuBool)
| PoseObservationHasPose (observation : ptr) (answer : VuBool)
| PoseInfoRead (observation : ptr) (r : VuResult) (poseInfo : VuPoseInfo)
| PoseStatusInfoRead (observation : ptr) (statusInfo : VuDevicePoseObservationStatusInfo)
    (r : VuResult) (answer : VuDevicePoseObservationStatusInfo)
| PoseListDestroyed (observationList : ptr) (r : VuResult).

Definition device_pose_event (e : entry) : option DevicePoseEvent :=
  match e with
  | ECall c r =>
      match c in VuCall T return T -> option DevicePoseEvent with
      | vuIdentityMatrix44F => fun r => Some (PoseCleared r)
      | vuObservationListCreate => fun r => Some (PoseListCreated (fst r) (snd r))
      | vuStateGetDevicePoseObservations state observationList =>
          fun r => Some (DevicePoseObservationsGot state observationList r)
      | vuObservationListGetSize observationList =>
          fun r => Some (PoseListSize observationList (fst r) (snd r))
      | vuObservationListGetElement observationList index =>
          fun r => Some (PoseObservationGot observationList index (fst r) (snd r))
      | vuObservationIsType observation type =>
          fun r => Some (PoseObservationType observation type r)
      | vuObservationHasPoseInfo observation => fun r => Some (PoseObservationHasPose observation r)
      | vuObservationGetPoseInfo observation =>
          fun r => Some (PoseInfoRead observation (fst r) (snd r))
      | vuDevicePoseObservationGetStatusInfo observation statusInfo =>
          fun r => Some (PoseStatusInfoRead observation statusInfo (fst r) (snd r))
      | vuObservationListDestroy observationList =>
          fun r => Some (PoseListDestroyed observationList r)
      | _ => fun _ => None
      end r
  | _ => None
  end.

(** The pose cached when the frame has no device pose to offer: the
    identity matrix the engine handed out, NO_POSE, NORMAL. *)
Definition no_device_pose (identity : VuMatrix44F) : DevicePoseData :=
  {| pose := identity;
     poseStatus := VU_OBSERVATION_POSE_STATUS_NO_POSE;
     poseStatusInfo := VU_DEVICE_POSE_OBSERVATION_STATUS_INFO_NORMAL |}.

(** How the events [ev] of a frame read the device pose [d] off the state
    [state].  The pose is cleared and an observation list created; the
    device pose observations of [state] are got into that list; if that
    succeeds the size of the list is asked, and if it is positive its
    element 0, which must be a device pose observation with pose info; its
    pose info is read, and unless the status is NO_POSE, its status info.
    Then the list is destroyed.  [d] is the pose and status read and the
    status info answered in the last case, and the cleared pose in every
    other. *)
Definition device_pose_read (state : ptr) (ev : list DevicePoseEvent) (d : DevicePoseData)
  : Prop :=
  exists identity observationList,
    let opened := [PoseCleared identity; PoseListCreated VU_SUCCESS observationList] in
    let closed := [PoseListDestroyed observationList VU_SUCCESS] in
    (ev = opened ++ [DevicePoseObservationsGot state observationList VU_FAILED] ++ closed
     /\ d = no_device_pose identity)
    \/ (exists numObservations,
          numObservations <= 0
          /\ ev = opened
                  ++ [DevicePoseObservationsGot state observationList VU_SUCCESS;
                      PoseListSize observationList VU_SUCCESS numObservations]
                  ++ closed
          /\ d = no_device_pose identity)
    \/ (exists numObservations observation,
          0 < numObservations
          /\ ev = opened
                  ++ [DevicePoseObservationsGot state observationList VU_SUCCESS;
                      PoseListSize observationList VU_SUCCESS numObservations;
                      PoseObservationGot observationList 0 VU_FAILED observation]
                  ++ closed
          /\ d = no_device_pose identity)
    \/ exists numObservations observation poseInfo,
         let read :=
           [DevicePoseObservationsGot state observationList VU_SUCCESS;
            PoseListSize observationList VU_SUCCESS numObservations;
            PoseObservationGot observationList 0 VU_SUCCESS (Some observation);
            PoseObservationType (Some observation) VU_OBSERVATION_DEVICE_POSE_TYPE VU_TRUE;
            PoseObservationHasPose (Some observation) VU_TRUE;
            PoseInfoRead (Some observation) VU_SUCCESS poseInfo] in
         0 < numObservations
         /\ ((pi_poseStatus poseInfo = VU_OBSERVATION_POSE_STATUS_NO_POSE
              /\ ev = opened ++ read ++ closed
              /\ d = no_device_pose identity)
             \/ exists statusInfo,
                  pi_poseStatus poseInfo <> VU_OBSERVATION_POSE_STATUS_NO_POSE
                  /\ ev = opened ++ read
                          ++ [PoseStatusInfoRead (Some observation)
                                VU_DEVICE_POSE_OBSERVATION_STATUS_INFO_NORMAL VU_SUCCESS
                                statusInfo]
                          ++ closed
                  /\ d = {| pose := pi_pose poseInfo;
                            poseStatus := pi_poseStatus poseInfo;
                            poseStatusInfo := statusInfo |}).

(** *** Guide views: what [getModelTargetResult] learnt from the engine *)

Inductive GuideEvent : Type :=
| ObservedPose (status : VuObservationPoseStatus)
| ActiveName (name : cstr)
| GuideViewsQueried (observer : ptr)
| GuideViewName (guideView : ptr) (name : cstr).

Definition guide_event (e : entry) : option GuideEvent :=
  match e with
  | ECall c r =>
      match c in VuCall T return T -> option GuideEvent with
      | vuObservationGetPoseInfo _ => fun r => Some (ObservedPose (pi_poseStatus (snd r)))
      | vuModelTargetObservationGetTargetInfo _ =>
          fun r => Some (ActiveName (activeGuideViewName (snd r)))
      | vuModelTargetObserverGetGuideViews observer _ => fun _ => Some (GuideViewsQueried observer)
      | vuGuideViewGetName guideView => fun r => Some (GuideViewName guideView (snd r))
      | _ => fun _ => None
      end r
  | _ => None
  end.

(** ** Reasoning about every run of a program *)

(** [post p Q]: whatever the environment answers, the outcome and the trace
    of [p] satisfy [Q]. *)
Fixpoint post {A : Type} (p : prog A) (Q : outcome A -> list entry -> Prop) : Prop :=
  match p with
  | Ret a => Q (Done a) []
  | Call c k => forall r, post (k r) (fun o tr => Q o (ECall c r :: tr))
  | Now k => forall t, post (k t) (fun o tr => Q o (ENow t :: tr))
  | Out o k => post k (fun o' tr => Q o' (EOut o :: tr))
  | Crash why => Q (Crashed why) []
  end.

(** The cached device pose status is limited+relocalizing: the test
    [finishRender] makes. *)
Definition cached_relocalizing (c : AppController) : bool :=
  pose_status_eqb (poseStatus (mLatestDevicePoseData c)) VU_OBSERVATION_POSE_STATUS_LIMITED
  && is_relocalizing_info (poseStatusInfo (mLatestDevicePoseData c)).

(** A method that returns leaves the relocalization timer as it was. *)
Definition keeps_timer {A : Type} (m : M A) : Prop :=
  forall (W : Type) (env : Env W) (w : W) (c : AppController) (a : A) (c' : AppController),
    res (run env (m c) w) = Done (a, c') ->
    mTimingRelocalizingState c' = mTimingRelocalizingState c
    /\ mEnteredRelocalizingState c' = mEnteredRelocalizingState c.

(** The time the relocalization timer counts from, were [finishRender] to
    run at [t]. *)
Definition timer_origin (c : AppController) (t : time_point) : time_point :=
  if mTimingRelocalizingState c then mEnteredRelocalizingState c else t.

(** Whether [finishRender] at frame [f], after the frames [fs], invokes the
    reset. *)
Definition reset_at {W : Type} (env : Env W) (fs : list Frame) (f : Frame)
    (c : AppController) (w : W) : bool :=
  let '(_, c1, w1) := finishRender_frames env fs c w in
  reset_invoked (trace (run (at_time env) (finishRender (observe f c1)) (w1, f_time f))).

(** The frames [fs], each with whether its [finishRender] invoked the reset. *)
Definition reset_history {W : Type} (env : Env W) (fs : list Frame)
    (c : AppController) (w : W) : list (Frame * bool) :=
  let '(trs, _, _) := finishRender_frames env fs c w in
  combine fs (map reset_invoked trs).

(** How many resets the frames [fs] invoked in all, and the controller
    they leave. *)
Definition frames_outcome {W : Type} (env : Env W) (fs : list Frame)
    (c : AppController) (w : W) : nat * AppController :=
  let '(trs, c1, _) := finishRender_frames env fs c w in
  (resets (List.concat trs), c1).

(** Client code that may run between [prepareToRender] and [finishRender]:
    it neither acquires nor releases a snapshot and leaves the cached state
    handle alone. *)
Definition snapshot_neutral (draw : M unit) : Prop :=
  forall c : AppController,
    post (draw c)
      (fun o tr =>
         view snapshot_event tr = []
         /\ match o with
            | Done (_, c') => mVuforiaState c' = mVuforiaState c
            | Crashed _ => True
            end).

(** *** Starting the engine and the camera settings *)

Inductive StartEvent : Type :=
| CameraControllerGot (engine : ptr) (r : VuResult) (controller : ptr)
| VideoModeSet (controller : ptr) (preset : VuCameraVideoModePreset) (r : VuResult)
| EngineStarted (engine : ptr) (r : VuResult)
| FocusModeSet (controller : ptr) (focusMode : VuCameraFocusMode) (r : VuResult).

Definition start_event (e : entry) : option StartEvent :=
  match e with
  | ECall c r =>
      match c in VuCall T return T -> option StartEvent with
      | vuEngineGetCameraController engine =>
          fun r => Some (CameraControllerGot engine (fst r) (snd r))
      | vuCameraControllerSetActiveVideoMode controller preset =>
          fun r => Some (VideoModeSet controller preset r)
      | vuEngineStart engine => fun r => Some (EngineStarted engine r)
      | vuCameraControllerSetFocusMode controller focusMode =>
          fun r => Some (FocusModeSet controller focusMode r)
      | _ => fun _ => None
      end r
  | _ => None
  end.

(** What one focus request did: nothing, with AR not started; or it could
    not get the camera controller of the engine; or it got it and set
    [focusMode] on it. *)
Definition focus_request (c : AppController) (focusMode : VuCameraFocusMode)
    (tr : list entry) : Prop :=
  (mARStarted c = false /\ tr = [])
  \/ (mARStarted c = true
      /\ exists cameraController,
           view start_event tr = [CameraControllerGot (mEngine c) VU_FAILED cameraController])
  \/ (mARStarted c = true
      /\ exists cameraController r,
           view start_event tr =
             [CameraControllerGot (mEngine c) VU_SUCCESS cameraController;
              FocusModeSet cameraController focusMode r]).

(** The engine calls of a trace, without the log lines. *)
Definition is_call (e : entry) : bool :=
  match e with ECall _ _ => true | _ => false end.

Definition calls (tr : list entry) : list entry := filter is_call tr.

(** *** The view orientation and the render view *)

Inductive RenderingEvent : Type :=
| OrientationConverted (controller : ptr) (orientation : ptr) (r : VuResult) (vuOrientation : Z)
| OrientationSet (controller : ptr) (vuOrientation : Z) (r : VuResult)
| RenderViewConfigSet (controller : ptr) (resolution : Z * Z) (r : VuResult).

Definition rendering_event (e : entry) : option RenderingEvent :=
  match e with
  | ECall c r =>
      match c in VuCall T return T -> option RenderingEvent with
      | vuPlatformControllerConvertPlatformViewOrientation controller orientation =>
          fun r => Some (OrientationConverted controller orientation (fst r) (snd r))
      | vuPlatformControllerSetViewOrientation controller vuOrientation =>
          fun r => Some (OrientationSet controller vuOrientation r)
      | vuRenderControllerSetRenderViewConfig controller resolution =>
          fun r => Some (RenderViewConfigSet controller resolution r)
      | _ => fun _ => None
      end r
  | _ => None
  end.

(** *** A frame: the render state got and the video background update *)

Inductive FrameEvent : Type :=
| StateAcquired (engine : ptr) (r : VuResult) (state : ptr)
| CameraFrameAsked (state : ptr) (answer : VuBool)
| RenderStateGot (state : ptr) (r : VuResult) (renderState : VuRenderState)
| VideoBackgroundUpdated (controller state : ptr) (renderData : VuRenderVideoBackgroundData)
    (r : VuResult).

Definition frame_event (e : entry) : option FrameEvent :=
  match e with
  | ECall c r =>
      match c in VuCall T return T -> option FrameEvent with
      | vuEngineAcquireLatestState engine _ =>
          fun r => Some (StateAcquired engine (fst r) (snd r))
      | vuStateHasCameraFrame state => fun r => Some (CameraFrameAsked state r)
      | vuStateGetRenderState state _ => fun r => Some (RenderStateGot state (fst r) (snd r))
      | vuRenderControllerUpdateVideoBackgroundTexture controller state renderData =>
          fun r => Some (VideoBackgroundUpdated controller state renderData r)
      | _ => fun _ => None
      end r
  | _ => None
  end.

(** The frame events of a [prepareToRender] on controller [c] that got as
    far as updating the video background texture, with answer [r], for the
    state [state] and its render state [renderState]. *)
Definition frame_prepared (c : AppController) (renderData : VuRenderVideoBackgroundData)
    (state : ptr) (renderState : VuRenderState) (r : VuResult) : list FrameEvent :=
  [StateAcquired (mEngine c) VU_SUCCESS state;
   CameraFrameAsked state VU_TRUE;
   RenderStateGot state VU_SUCCESS renderState;
   VideoBackgroundUpdated (mRenderController c) state renderData r].

(** The viewport [prepareToRender] hands out for a render state. *)
Definition viewport_of (renderState : VuRenderState) (vp : list Z) : list Z :=
  write_viewport vp (v4_0 (viewport renderState)) (v4_1 (viewport renderState))
    (v4_2 (viewport renderState)) (v4_3 (viewport renderState)) 0 1.

(** *** Reading the target observation of a frame *)

Inductive ObservationEvent : Type :=
| TargetListCreated (r : VuResult) (observationList : ptr)
| ImageTargetObservationsGot (state observationList : ptr) (r : VuResult)
| ModelTargetObservationsGot (state observationList : ptr) (r : VuResult)
| TargetListSize (observationList : ptr) (r : VuResult) (numObservations : Z)
| ObservationGot (observationList : ptr) (index : Z) (r : VuResult) (observation : ptr)
| ObservationType (observation : ptr) (type : VuObservationType) (answer : VuBool)
| ObservationHasPose (observation : ptr) (answer : VuBool)
| PoseInfoGot (observation : ptr) (r : VuResult) (poseInfo : VuPoseInfo)
| ImageTargetInfoGot (observation : ptr) (r : VuResult)
    (info : VuImageTargetObservationTargetInfo)
| ModelTargetInfoGot (observation : ptr) (r : VuResult)
    (info : VuModelTargetObservationTargetInfo)
| TargetListDestroyed (observationList : ptr) (r : VuResult).

Definition observation_event (e : entry) : option ObservationEvent :=
  match e with
  | ECall c r =>
      match c in VuCall T return T -> option ObservationEvent with
      | vuObservationListCreate => fun r => Some (TargetListCreated (fst r) (snd r))
      | vuStateGetImageTargetObservations state observationList =>
          fun r => Some (ImageTargetObservationsGot state observationList r)
      | vuStateGetModelTargetObservations state observationList =>
          fun r => Some (ModelTargetObservationsGot state observationList r)
      | vuObservationListGetSize observationList =>
          fun r => Some (TargetListSize observationList (fst r) (snd r))
      | vuObservationListGetElement observationList index =>
          fun r => Some (ObservationGot observationList index (fst r) (snd r))
      | vuObservationIsType observation type =>
          fun r => Some (ObservationType observation type r)
      | vuObservationHasPoseInfo observation => fun r => Some (ObservationHasPose observation r)
      | vuObservationGetPoseInfo observation =>
          fun r => Some (PoseInfoGot observation (fst r) (snd r))
      | vuImageTargetObservationGetTargetInfo observation =>
          fun r => Some (ImageTargetInfoGot observation (fst r) (snd r))
      | vuModelTargetObservationGetTargetInfo observation =>
          fun r => Some (ModelTargetInfoGot observation (fst r) (snd r))
      | vuObservationListDestroy observationList =>
          fun r => Some (TargetListDestroyed observationList r)
      | _ => fun _ => None
      end r
  | _ => None
  end.

(** The events of reading one target observation to the end: a fresh
    list [observationList] receives the observations, by the event [got];
    it has [numObservations] elements; its element 0 is [observation], of
    type [type] and with pose info [poseInfo]; the event [targetInfo] asks
    for the target info; then the list is destroyed. *)
Definition observation_read (got : ObservationEvent) (observationList : ptr)
    (numObservations : Z) (observation : handle) (type : VuObservationType)
    (poseInfo : VuPoseInfo) (targetInfo : ObservationEvent) : list ObservationEvent :=
  [TargetListCreated VU_SUCCESS observationList;
   got;
   TargetListSize observationList VU_SUCCESS numObservations;
   ObservationGot observationList 0 VU_SUCCESS (Some observation);
   ObservationType (Some observation) type VU_TRUE;
   ObservationHasPose (Some observation) VU_TRUE;
   PoseInfoGot (Some observation) VU_SUCCESS poseInfo;
   targetInfo;
   TargetListDestroyed observationList VU_SUCCESS].

(** [getImageTargetResult] on controller [c] read the image target
    observation [observation] of the cached state, with [poseInfo] and
    [info]. *)
Definition image_target_read (c : AppController) (ev : list ObservationEvent)
    (observation : handle) (poseInfo : VuPoseInfo) (info : VuImageTargetObservationTargetInfo)
  : Prop :=
  exists observationList numObservations,
    0 < numObservations
    /\ ev = observation_read
              (ImageTargetObservationsGot (mVuforiaState c) observationList VU_SUCCESS)
              observationList numObservations observation VU_OBSERVATION_IMAGE_TARGET_TYPE
              poseInfo (ImageTargetInfoGot (Some observation) VU_SUCCESS info).

(** The same for [getModelTargetResult] and the model target observation. *)
Definition model_target_read (c : AppController) (ev : list ObservationEvent)
    (observation : handle) (poseInfo : VuPoseInfo) (info : VuModelTargetObservationTargetInfo)
  : Prop :=
  exists observationList numObservations,
    0 < numObservations
    /\ ev = observation_read
              (ModelTargetObservationsGot (mVuforiaState c) observationList VU_SUCCESS)
              observationList numObservations observation VU_OBSERVATION_MODEL_TARGET_TYPE
              poseInfo (ModelTargetInfoGot (Some observation) VU_SUCCESS info).

(** *** The search for the active guide view *)

Inductive GuideSearch : Type :=
| GuideViewListMade (r : VuResult) (guideViewList : ptr)
| GuideViewsGot (observer guideViewList : ptr) (r : VuResult)
| GuideViewListSize (guideViewList : ptr) (r : VuResult) (size : Z)
| GuideViewElement (guideViewList : ptr) (index : Z) (r : VuResult) (guideView : ptr)
| GuideViewNamed (guideView : ptr) (r : VuResult) (name : cstr)
| GuideViewListGone (guideViewList : ptr) (r : VuResult).

Definition search_event (e : entry) : option GuideSearch :=
  match e with
  | ECall c r =>
      match c in VuCall T return T -> option GuideSearch with
      | vuGuideViewListCreate => fun r => Some (GuideViewListMade (fst r) (snd r))
      | vuModelTargetObserverGetGuideViews observer guideViewList =>
          fun r => Some (GuideViewsGot observer guideViewList r)
      | vuGuideViewListGetSize guideViewList =>
          fun r => Some (GuideViewListSize guideViewList (fst r) (snd r))
      | vuGuideViewListGetElement guideViewList index =>
          fun r => Some (GuideViewElement guideViewList index (fst r) (snd r))
      | vuGuideViewGetName guideView =>
          fun r => Some (GuideViewNamed guideView (fst r) (snd r))
      | vuGuideViewListDestroy guideViewList =>
          fun r => Some (GuideViewListGone guideViewList r)
      | _ => fun _ => None
      end r
  | _ => None
  end.

(** The events of examining the guide views [examined], each with the name
    the engine gave it, at the indices from [i] on. *)
Fixpoint search_steps (guideViewList : ptr) (i : Z) (examined : list (ptr * string))
  : list GuideSearch :=
  match examined with
  | [] => []
  | (guideView, name) :: rest =>
      GuideViewElement guideViewList i VU_SUCCESS guideView
        :: GuideViewNamed guideView VU_SUCCESS (Some name)
        :: search_steps guideViewList (i + 1) rest
  end.

(** What a search over [n] guide views selected: [examined] ends with the
    first guide view named [active], which is [selected]; or all [n] guide
    views were examined, none is named [active], and [selected] is null. *)
Definition selects (active : cstr) (n : nat) (examined : list (ptr * string)) (selected : ptr)
  : Prop :=
  (Forall (fun p => Some (snd p) <> active) examined
   /\ List.length examined = n /\ selected = nullptr)
  \/ exists earlier name,
       active = Some name
       /\ examined = earlier ++ [(selected, name)]
       /\ Forall (fun p => snd p <> name) earlier
       /\ (List.length examined <= n)%nat.

(** What a [getModelTargetResult] that returned [result], from controller
    [c] to [c'] with trace [tr], did about the guide view.  It asked
    nothing about guide views, and the pointer is as before or was cleared
    with a [true] result.  Or it read the model target observation of the
    cached state, which said NO_POSE, and made a guide view list; then
    either the guide views of the object observer could not be got and the
    pointer is as before, or they were got into that list and examined in
    order from index 0, and the pointer is what the search selected for the
    active guide view name of the observation.  The list is destroyed and
    the result [false] either way. *)
Definition guide_search_outcome (c c' : AppController) (result : bool) (tr : list entry)
  : Prop :=
  (view search_event tr = []
   /\ (mGuideViewModelTarget c' = mGuideViewModelTarget c
       \/ (mGuideViewModelTarget c' = nullptr /\ result = true)))
  \/ exists observation poseInfo info guideViewList,
       model_target_read c (view observation_event tr) observation poseInfo info
       /\ pi_poseStatus poseInfo = VU_OBSERVATION_POSE_STATUS_NO_POSE
       /\ result = false
       /\ ((view search_event tr =
              [GuideViewListMade VU_SUCCESS guideViewList;
               GuideViewsGot (mObjectObserver c) guideViewList VU_FAILED;
               GuideViewListGone guideViewList VU_SUCCESS]
            /\ mGuideViewModelTarget c' = mGuideViewModelTarget c)
           \/ exists size examined,
                view search_event tr =
                  [GuideViewListMade VU_SUCCESS guideViewList;
                   GuideViewsGot (mObjectObserver c) guideViewList VU_SUCCESS;
                   GuideViewListSize guideViewList VU_SUCCESS size]
                  ++ search_steps guideViewList 0 examined
                  ++ [GuideViewListGone guideViewList VU_SUCCESS]
                /\ selects (activeGuideViewName info) (Z.to_nat size) examined
                     (mGuideViewModelTarget c')).

(** *** Observation lists and guide view lists: created and destroyed *)

Inductive ListEvent : Type :=
| ObservationListCreated (observationList : ptr)
| ObservationListDestroyed (observationList : ptr)
| GuideViewListCreated (guideViewList : ptr)
| GuideViewListDestroyed (guideViewList : ptr).

Definition list_event (e : entry) : option ListEvent :=
  match e with
  | ECall c r =>
      match c in VuCall T return T -> option ListEvent with
      | vuObservationListCreate => fun r => Some (ObservationListCreated (snd r))
      | vuObservationListDestroy observationList =>
          fun _ => Some (ObservationListDestroyed observationList)
      | vuGuideViewListCreate => fun r => Some (GuideViewListCreated (snd r))
      | vuGuideViewListDestroy guideViewList =>
          fun _ => Some (GuideViewListDestroyed guideViewList)
      | _ => fun _ => None
      end r
  | _ => None
  end.

(** *** The matrix arithmetic asked of the engine *)

Inductive MatrixEvent : Type :=
| Identity (result : VuMatrix44F)
| Multiplied (a b result : VuMatrix44F)
| Scaled (scale : VuVector3F) (m result : VuMatrix44F)
| ScalingMatrix (scale : VuVector3F) (result : VuMatrix44F)
| TranslationMatrix (translation : VuVector3F) (result : VuMatrix44F).

Definition matrix_event (e : entry) : option MatrixEvent :=
  match e with
  | ECall c r =>
      match c in VuCall T return T -> option MatrixEvent with
      | vuIdentityMatrix44F => fun r => Some (Identity r)
      | vuMatrix44FMultiplyMatrix a b => fun r => Some (Multiplied a b r)
      | vuMatrix44FScale scale m => fun r => Some (Scaled scale m r)
      | vuMatrix44FScalingMatrix scale => fun r => Some (ScalingMatrix scale r)
      | vuMatrix44FTranslationMatrix translation => fun r => Some (TranslationMatrix translation r)
      | _ => fun _ => None
      end r
  | _ => None
  end.

(** *** What [getModelTargetGuideView] asked about the guide view image *)

Inductive GuideImageEvent : Type :=
| IntrinsicsGot (state : ptr) (r : VuResult) (intrinsics : VuCameraIntrinsics)
| FovGot (intrinsics : VuCameraIntrinsics) (fov : VuVector2F)
| OutdatedAsked (guideView : ptr) (r : VuResult) (changed : VuBool)
| ImageGot (guideView : ptr) (r : VuResult) (image : ptr)
| ImageInfoGot (image : ptr) (r : VuResult) (info : VuImageInfo).

Definition guide_image_event (e : entry) : option GuideImageEvent :=
  match e with
  | ECall c r =>
      match c in VuCall T return T -> option GuideImageEvent with
      | vuStateGetCameraIntrinsics state =>
          fun r => Some (IntrinsicsGot state (fst r) (snd r))
      | vuCameraIntrinsicsGetFov intrinsics => fun r => Some (FovGot intrinsics r)
      | vuGuideViewIsImageOutdated guideView _ =>
          fun r => Some (OutdatedAsked guideView (fst r) (snd r))
      | vuGuideViewGetImage guideView => fun r => Some (ImageGot guideView (fst r) (snd r))
      | vuImageGetImageInfo image _ => fun r => Some (ImageInfoGot image (fst r) (snd r))
      | _ => fun _ => None
      end r
  | _ => None
  end.

(** The scale [getModelTargetGuideView] gives the guide view plane, from
    the vertical field of view, the display aspect ratio and the size of
    the guide view image: the arithmetic of the method's second half. *)
Definition guideViewScale (fieldOfView displayAspectRatio : float) (imageInfo : VuImageInfo)
  : VuVector3F :=
  let one := float_lit 1 1 in
  let guideViewAspectRatio :=
    fdiv (float_of_int (width imageInfo)) (float_of_int (height imageInfo)) in
  let planeDistance := float_lit 1 100 in
  let nearPlaneHeight :=
    fmul (fmul one planeDistance) (tanf (fmul fieldOfView (float_lit 1 2))) in
  let nearPlaneWidth := fmul nearPlaneHeight displayAspectRatio in
  let plane :=
    if fge guideViewAspectRatio one && fge displayAspectRatio one then
      (nearPlaneWidth, fdiv nearPlaneWidth guideViewAspectRatio)
    else if flt guideViewAspectRatio one && flt displayAspectRatio one then
      (fmul nearPlaneHeight guideViewAspectRatio, nearPlaneHeight)
    else if flt displayAspectRatio one then
      (nearPlaneHeight, fdiv nearPlaneHeight guideViewAspectRatio)
    else
      (fmul nearPlaneWidth guideViewAspectRatio, nearPlaneWidth) in
  {| v3_0 := fdiv (fmul (float_of_int 2) (fst plane)) nearPlaneWidth;
     v3_1 := fdiv (fmul (float_of_int 2) (snd plane)) nearPlaneHeight;
     v3_2 := one |}.

(** *** Initialisation: what the engine is asked, and what it answers *)

Inductive ConfigSetEvent : Type :=
| ConfigSetCreated (configSet : ptr)
| ConfigSetDestroyed (configSet : ptr).

Definition config_set_event (e : entry) : option ConfigSetEvent :=
  match e with
  | ECall c r =>
      match c in VuCall T return T -> option ConfigSetEvent with
      | vuEngineConfigSetCreate => fun r => Some (ConfigSetCreated (snd r))
      | vuEngineConfigSetDestroy configSet => fun _ => Some (ConfigSetDestroyed configSet)
      | _ => fun _ => None
      end r
  | _ => None
  end.

(** The calls of [initVuforiaInternal] and [createObservers], with their
    arguments and answers, and the two callbacks. *)
Inductive SetupEvent : Type :=
| ConfigSetMade (r : VuResult) (configSet : ptr)
| LicenseAdded (configSet : ptr) (config : VuLicenseConfig) (r : VuResult)
| RenderConfigDefault (config : VuRenderConfig)
| PlatformAdded (configSet : ptr) (config : VuPlatformAndroidConfig) (r : VuResult)
| RenderAdded (configSet : ptr) (config : VuRenderConfig) (r : VuResult)
| EngineMade (configSet : ptr) (r : VuResult) (engine : ptr) (errorCode : VuErrorCode)
| ConfigSetGone (configSet : ptr) (r : VuResult)
| RenderControllerGot (engine : ptr) (r : VuResult) (controller : ptr)
| PlatformControllerGot (engine : ptr) (r : VuResult) (controller : ptr)
| NearFarSet (controller : ptr) (nearPlane farPlane : float) (r : VuResult)
| DevicePoseConfigDefault (config : VuDevicePoseConfig)
| DevicePoseObserverMade (engine : ptr) (config : VuDevicePoseConfig) (r : VuResult)
    (observer : ptr)
| ImageTargetConfigDefault (config : VuImageTargetConfig)
| ImageTargetObserverMade (engine : ptr) (config : VuImageTargetConfig) (r : VuResult)
    (observer : ptr)
| ModelTargetConfigDefault (config : VuModelTargetConfig)
| ModelTargetObserverMade (engine : ptr) (config : VuModelTargetConfig) (r : VuResult)
    (observer : ptr)
| ErrorShown (callback : handle) (errorString : string)
| DoneCalled (callback : handle).

Definition setup_event (e : entry) : option SetupEvent :=
  match e with
  | ECall c r =>
      match c in VuCall T return T -> option SetupEvent with
      | vuEngineConfigSetCreate => fun r => Some (ConfigSetMade (fst r) (snd r))
      | vuEngineConfigSetAddLicenseConfig configSet config =>
          fun r => Some (LicenseAdded configSet config r)
      | vuRenderConfigDefault => fun r => Some (RenderConfigDefault r)
      | vuEngineConfigSetAddPlatformAndroidConfig configSet config =>
          fun r => Some (PlatformAdded configSet config r)
      | vuEngineConfigSetAddRenderConfig configSet config =>
          fun r => Some (RenderAdded configSet config r)
      | vuEngineCreate _ configSet =>
          fun r => Some (EngineMade configSet (fst (fst r)) (snd (fst r)) (snd r))
      | vuEngineConfigSetDestroy configSet => fun r => Some (ConfigSetGone configSet r)
      | vuEngineGetRenderController engine _ =>
          fun r => Some (RenderControllerGot engine (fst r) (snd r))
      | vuEngineGetPlatformController engine _ =>
          fun r => Some (PlatformControllerGot engine (fst r) (snd r))
      | vuRenderControllerSetProjectionMatrixNearFar controller nearPlane farPlane =>
          fun r => Some (NearFarSet controller nearPlane farPlane r)
      | vuDevicePoseConfigDefault => fun r => Some (DevicePoseConfigDefault r)
      | vuEngineCreateDevicePoseObserver engine _ config =>
          fun r => Some (DevicePoseObserverMade engine config (fst (fst r)) (snd (fst r)))
      | vuImageTargetConfigDefault => fun r => Some (ImageTargetConfigDefault r)
      | vuEngineCreateImageTargetObserver engine _ config =>
          fun r => Some (ImageTargetObserverMade engine config (fst (fst r)) (snd (fst r)))
      | vuModelTargetConfigDefault => fun r => Some (ModelTargetConfigDefault r)
      | vuEngineCreateModelTargetObserver engine _ config =>
          fun r => Some (ModelTargetObserverMade engine config (fst (fst r)) (snd (fst r)))
      | _ => fun _ => None
      end r
  | EOut (OShowError f s) => Some (ErrorShown f s)
  | EOut (OInitDone f) => Some (DoneCalled f)
  | _ => None
  end.

(** The events of an [initVuforiaInternal] that got the engine and both
    controllers now held by [c']: the configuration set made, the license
    key, the platform configuration with the activity and the Java VM, and
    the render configuration with the backend asked for added to it, the
    engine created from it, the set destroyed, and the two controllers got
    from that engine. *)
Definition engine_made (javaVM : ptr) (initConfig : InitConfig) (c' : AppController)
    (configSet : ptr) (renderDefault : VuRenderConfig) (code : VuErrorCode)
  : list SetupEvent :=
  [ConfigSetMade VU_SUCCESS configSet;
   LicenseAdded configSet {| key := Some licenseKey |} VU_SUCCESS;
   RenderConfigDefault renderDefault;
   PlatformAdded configSet
     {| pac_activity := ic_appData initConfig; pac_javaVM := javaVM |} VU_SUCCESS;
   RenderAdded configSet
     {| vbRenderBackend := ic_vbRenderBackend initConfig;
        vbViewportMode := vbViewportMode renderDefault |} VU_SUCCESS;
   EngineMade configSet VU_SUCCESS (mEngine c') code;
   ConfigSetGone configSet VU_SUCCESS;
   RenderControllerGot (mEngine c') VU_SUCCESS (mRenderController c');
   PlatformControllerGot (mEngine c') VU_SUCCESS (mPlatformController c')].

(** Setting the near and far planes on the render controller of [c']. *)
Definition near_far_set (c' : AppController) (r : VuResult) : list SetupEvent :=
  [NearFarSet (mRenderController c') NEAR_PLANE FAR_PLANE r].

(** Creating the device pose observer of [c'] on its engine, with the
    engine's default configuration. *)
Definition device_pose_observer_made (c' : AppController) (config : VuDevicePoseConfig)
    (r : VuResult) : list SetupEvent :=
  [DevicePoseConfigDefault config;
   DevicePoseObserverMade (mEngine c') config r (mDevicePoseObserver c')].

(** The configurations [createObservers] passes for the two targets: the
    engine's default with the database, the target name and the
    activation flag set. *)
Definition imageTargetConfig (defaults : VuImageTargetConfig) : VuImageTargetConfig :=
  {| itc_databasePath := Some "TestDB1.xml";
     itc_targetName := Some "VeneraMarker";
     itc_activate := VU_TRUE;
     itc_scale := itc_scale defaults;
     itc_poseOffset := itc_poseOffset defaults |}.

Definition modelTargetConfig (defaults : VuModelTargetConfig) : VuModelTargetConfig :=
  {| mtc_databasePath := Some "VuforiaMars_ModelTarget.xml";
     mtc_targetName := Some "VuforiaMars_ModelTarget";
     mtc_activeGuideViewName := mtc_activeGuideViewName defaults;
     mtc_activate := VU_TRUE;
     mtc_scale := mtc_scale defaults;
     mtc_poseOffset := mtc_poseOffset defaults |}.

(** Creating the object observer of [c'] on its engine for [target]: the
    image target observer for [IMAGE_TARGET_ID], the model target observer
    for every other value. *)
Definition target_observer_made (target : Z) (c' : AppController) (r : VuResult)
    (ev : list SetupEvent) : Prop :=
  (target = IMAGE_TARGET_ID
   /\ exists defaults,
        ev = [ImageTargetConfigDefault defaults;
              ImageTargetObserverMade (mEngine c') (imageTargetConfig defaults) r
                (mObjectObserver c')])
  \/ (target <> IMAGE_TARGET_ID
      /\ exists defaults,
           ev = [ModelTargetConfigDefault defaults;
                 ModelTargetObserverMade (mEngine c') (modelTargetConfig defaults) r
                   (mObjectObserver c')]).

(** What a finished [initAR] for [target], from controller [c] to [c'] with
    trace [tr], did: see the theorems that use the parts. *)
Definition init_outcome (javaVM : ptr) (initConfig : InitConfig) (target : Z)
    (c c' : AppController) (tr : list entry) : Prop :=
  let ev := view setup_event tr in
  (forall g,
     In (DoneCalled g) ev ->
     (exists configSet renderDefault code devicePoseDefault observerMade,
        ev = engine_made javaVM initConfig c' configSet renderDefault code
             ++ near_far_set c' VU_SUCCESS
             ++ device_pose_observer_made c' devicePoseDefault VU_SUCCESS
             ++ observerMade
             ++ [DoneCalled g]
        /\ target_observer_made target c' VU_SUCCESS observerMade)
     /\ mInitDoneCallback c' = Some g
     /\ mEngine c' <> nullptr
     /\ mRenderController c' <> nullptr
     /\ mPlatformController c' <> nullptr
     /\ mTarget c' = target
     /\ mGuideViewModelTarget c' = nullptr)
  /\ (mEngine c <> nullptr -> calls tr = [] /\ ev = [] /\ mEngine c' = mEngine c)
  /\ (forall controller nearPlane farPlane,
        In (NearFarSet controller nearPlane farPlane VU_FAILED) ev ->
        mEngine c' <> nullptr
        /\ exists configSet renderDefault code,
             ev = engine_made javaVM initConfig c' configSet renderDefault code
                  ++ near_far_set c' VU_FAILED)
  /\ (forall engine config observer,
        In (DevicePoseObserverMade engine config VU_FAILED observer) ev ->
        mEngine c' <> nullptr
        /\ exists configSet renderDefault code,
             ev = engine_made javaVM initConfig c' configSet renderDefault code
                  ++ near_far_set c' VU_SUCCESS
                  ++ device_pose_observer_made c' config VU_FAILED)
  /\ (forall configSet engine code,
        In (EngineMade configSet VU_SUCCESS (Some engine) code) ev -> mEngine c' = Some engine)
  /\ ((mEngine c <> nullptr /\ view config_set_event tr = [])
      \/ exists configSet,
           view config_set_event tr = [ConfigSetCreated configSet; ConfigSetDestroyed configSet]).

(** The engine and the two observers that the events [ev] of an
    initialisation created, with success. *)
Definition created_by_init (ev : list SetupEvent) (engine devicePoseObserver objectObserver : ptr)
  : Prop :=
  (exists configSet code, In (EngineMade configSet VU_SUCCESS engine code) ev)
  /\ (exists config,
        In (DevicePoseObserverMade engine config VU_SUCCESS devicePoseObserver) ev)
  /\ ((exists config,
         In (ImageTargetObserverMade engine config VU_SUCCESS objectObserver) ev)
      \/ exists config,
           In (ModelTargetObserverMade engine config VU_SUCCESS objectObserver) ev).

(** *** The JNI wrapper: one call of [renderFrame]

    [Java_..._VuforiaActivity_renderFrame] of the Android wrapper.  Its
    calls to OpenGL and to the sample's [GLESRenderer] do not touch the
    controller; they are returned as the list of calls made, in order.
    The texture unit argument of [renderVideoBackground], a local the
    engine may write through [renderVideoBackgroundData], is left out. *)

Inductive RendererCall : Type :=
| glClear
| glViewport (x y width height : Z)
| renderVideoBackground (projectionMatrix : VuMatrix44F) (mesh : handle)
| renderWorldOrigin (projectionMatrix modelViewMatrix : VuMatrix44F)
| renderImageTarget (projectionMatrix modelViewMatrix scaledModelViewMatrix : VuMatrix44F)
| renderModelTarget (projectionMatrix modelViewMatrix scaledModelViewMatrix : VuMatrix44F)
| renderModelTargetGuideView (projectionMatrix modelViewMatrix : VuMatrix44F)
    (image : VuImageInfo) (changed : VuBool).

(** The locals of [renderFrame] that are declared without initialiser, with
    whatever they hold, and the address of [vbTextureUnit]. *)
Record FrameLocals : Type := {
  l_viewport : list Z;
  l_worldOrigin : VuMatrix44F * VuMatrix44F;
  l_trackable : matrices;
  l_modelTargetGuideViewImage : VuImageInfo;
  l_guideViewImageHasChanged : VuBool;
  l_vbTextureUnit : handle
}.

(** The three alternatives of [renderFrame]: the image target, else the
    model target, else its guide view; all write the same locals. *)
Definition jni_renderTrackable (locals : FrameLocals) : M (list RendererCall) :=
  bind (getImageTargetResult (l_trackable locals)) (fun image =>
  let '(p, mv, smv) := snd image in
  if fst image then ret [renderImageTarget p mv smv] else
  bind (getModelTargetResult (snd image)) (fun model =>
  let '(p, mv, smv) := snd model in
  if fst model then ret [renderModelTarget p mv smv] else
  bind (getModelTargetGuideView
          {| gv_projectionMatrix := p;
             gv_modelViewMatrix := mv;
             guideViewImageInfo := l_modelTargetGuideViewImage locals;
             guideViewImageHasChanged := l_guideViewImageHasChanged locals |})
    (fun guide =>
  if fst guide then
    ret [renderModelTargetGuideView (gv_projectionMatrix (snd guide))
           (gv_modelViewMatrix (snd guide)) (guideViewImageInfo (snd guide))
           (guideViewImageHasChanged (snd guide))]
  else ret []))).

(** [renderFrame]; [usingARCore] is the wrapper's flag, and
    [accessFusionProviderPointers] its helper that looks at the ARCore
    session, which is outside the engine calls modelled here. *)
Definition jni_renderFrame (usingARCore : bool) (accessFusionProviderPointers : M unit)
    (locals : FrameLocals) : M (bool * list RendererCall) :=
  bind isARStarted (fun started =>
  if negb started then ret (false, []) else
  bind (prepareToRender (l_viewport locals)
          {| renderData := nullptr; textureData := nullptr;
             textureUnitData := Some (l_vbTextureUnit locals) |}) (fun prepared =>
  bind (if fst prepared then
          let viewport := snd prepared in
          bind getRenderState (fun renderState =>
          match vbMesh renderState with
          | None => abort NullDereference
          | Some mesh =>
              bind (getOrigin (l_worldOrigin locals)) (fun origin =>
              bind (jni_renderTrackable locals) (fun trackable =>
              bind (if usingARCore then accessFusionProviderPointers else ret tt) (fun _ =>
              ret ([glViewport (nth 0 viewport 0) (nth 1 viewport 0) (nth 2 viewport 0)
                      (nth 3 viewport 0);
                    renderVideoBackground (vbProjectionMatrix renderState) mesh]
                   ++ (if fst origin
                       then [renderWorldOrigin (fst (snd origin)) (snd (snd origin))]
                       else [])
                   ++ trackable))))
          end)
        else ret []) (fun drawn =>
  bind finishRender (fun _ =>
  ret (true, glClear :: drawn))))).

(** Code that asks the engine for no snapshot and leaves the controller as
    it is: what [accessFusionProviderPointers] is, which only reads the
    platform controller. *)
Definition controller_neutral (m : M unit) : Prop :=
  forall c : AppController,
    post (m c)
      (fun o tr =>
         view snapshot_event tr = []
         /\ match o with
            | Done (_, c') => c' = c
            | Crashed _ => True
            end).

(** At most one of the three things [renderFrame] draws for the target,
    with the projection matrix of [renderState] for the two targets. *)
Definition trackable_calls (renderState : VuRenderState) (calls : list RendererCall) : Prop :=
  calls = []
  \/ (exists mv smv, calls = [renderImageTarget (projectionMatrix renderState) mv smv])
  \/ (exists mv smv, calls = [renderModelTarget (projectionMatrix renderState) mv smv])
  \/ exists p mv image changed, calls = [renderModelTargetGuideView p mv image changed].

(** The calls of a frame that was drawn from [renderState]. *)
Definition drawn_frame (renderState : VuRenderState) (calls : list RendererCall) : Prop :=
  exists mesh origin trackable,
    vbMesh renderState = Some mesh
    /\ calls =
         [glClear;
          glViewport (v4_0 (viewport renderState)) (v4_1 (viewport renderState))
            (v4_2 (viewport renderState)) (v4_3 (viewport renderState));
          renderVideoBackground (vbProjectionMatrix renderState) mesh]
         ++ origin ++ trackable
    /\ (origin = []
        \/ origin = [renderWorldOrigin (projectionMatrix renderState) (viewMatrix renderState)])
    /\ trackable_calls renderState trackable.

End Views.

(** * Properties *)

Section Properties.

Context {CF : CFloat}.

(** ** Every run satisfies what [post] establishes *)

Lemma post_mono {A : Type} (p : prog A) :
  forall Q Q' : outcome A -> list entry -> Prop,
    (forall o tr, Q o tr -> Q' o tr) -> post p Q -> post p Q'.
Proof.
  induction p as [a | T c k IH | k IH | o k IH | why]; simpl; intros Q Q' HQ Hp; auto.
  - intros r. eapply IH; [ | apply Hp]. simpl. auto.
  - intros t. eapply IH; [ | apply Hp]. simpl. auto.
  - eapply IH; [ | apply Hp]. simpl. auto.
Qed.

Lemma post_pbind {A B : Type} (p : prog A) (f : A -> prog B) :
  forall Q : outcome B -> list entry -> Prop,
    post p (fun o tr =>
              match o with
              | Done a => post (f a) (fun o' tr' => Q o' (tr ++ tr'))
              | Crashed why => Q (Crashed why) tr
              end) ->
    post (pbind p f) Q.
Proof.
  induction p as [a | T c k IH | k IH | o k IH | why]; simpl; intros Q Hp; auto.
Qed.

Lemma post_run {A : Type} (p : prog A) :
  forall Q : outcome A -> list entry -> Prop,
    post p Q ->
    forall (W : Type) (env : Env W) (w : W),
      Q (res (run env p w)) (trace (run env p w)).
Proof.
  induction p as [a | T c k IH | k IH | o k IH | why]; simpl; intros Q Hp W env w; auto.
  - apply (IH _ _ (Hp _)).
  - apply (IH _ _ (Hp _)).
  - apply (IH _ Hp).
Qed.

Lemma run_pbind {A B W : Type} (env : Env W) (p : prog A) (f : A -> prog B) :
  forall w : W,
    run env (pbind p f) w =
      match res (run env p w) with
      | Done a =>
          let r := run env (f a) (world (run env p w)) in
          {| res := res r; world := world r; trace := trace (run env p w) ++ trace r |}
      | Crashed why =>
          {| res := Crashed why; world := world (run env p w); trace := trace (run env p w) |}
      end.
Proof.
  induction p as [a | T c k IH | k IH | o k IH | why]; simpl; intros w.
  - destruct (run env (f a) w); reflexivity.
  - rewrite IH. destruct (res (run env (k _) _)); reflexivity.
  - rewrite IH. destruct (res (run env (k _) _)); reflexivity.
  - rewrite IH. destruct (res (run env k _)); reflexivity.
  - reflexivity.
Qed.

(** Symbolic execution of a method body: unfold the monad, then split on
    whatever the next branch inspects. *)
Ltac unfold_monad :=
  unfold mShowErrorCallback_, mInitDoneCallback_, strcmp_is_0, LOG, REQUIRE_SUCCESS;
  unfold assert, bind, get, assign, call, now, emit, abort, ret.

Ltac break :=
  match goal with
  | |- context [match ?x with _ => _ end] =>
      match x with
      | context [match _ with _ => _ end] => fail 1
      | _ => destruct x eqn:?
      end
  end.

Ltac exec := repeat (simpl; intros; try break); simpl; auto.

(** The same by full reduction, which the kernel re-checks faster on the
    longer methods; comparisons and the trace views stay folded. *)
Ltac reduce :=
  lazy beta iota zeta delta
    -[Z.eqb Z.gtb Z.sub Z.quot Z.add Z.to_nat String.eqb initErrorToString licenseKey
      NEAR_PLANE FAR_PLANE findGuideView view callbacks In app filter existsb fold_left
      List.length duration_cast_seconds init_report].

Ltac exec_lazy := repeat (reduce; intros; break); reduce.

#[local] Arguments Z.eqb : simpl never.
#[local] Arguments Z.gtb : simpl never.
#[local] Arguments Z.sub : simpl never.
#[local] Arguments Z.quot : simpl never.
#[local] Arguments String.eqb : simpl never.
#[local] Arguments initErrorToString : simpl never.

(** ** Start and stop in the wrong state *)

(** C4: [startAR] on a controller without engine, or whose engine answers
    that it is running, returns [false], leaves the controller (and so
    [mARStarted]) as it was and calls nothing but the [vuEngineIsRunning]
    query: no video mode, start or focus call.  [stopAR] without engine, or
    with an engine that is not running, likewise: no [vuEngineStop]. *)
Theorem startAR_stopAR_wrong_state :
  forall (W : Type) (env : Env W) (w : W) (c : AppController),
    let running := vu env (vuEngineIsRunning (mEngine c)) w in
    (mEngine c = nullptr ->
       run env (startAR c) w =
         {| res := Done (false, c); world := w;
            trace :=
              [EOut (OLog "AppController::startAR");
               EOut (OLog "Failed to start Vuforia as no valid engine instance is available")] |}
       /\ run env (stopAR c) w =
         {| res := Done (false, c); world := w;
            trace :=
              [EOut (OLog "AppController::stopAR");
               EOut (OLog "Failed to stop Vuforia as no valid engine instance is available")] |})
    /\ (mEngine c <> nullptr -> truthy (fst running) = true ->
        run env (startAR c) w =
          {| res := Done (false, c); world := snd running;
             trace :=
               [EOut (OLog "AppController::startAR");
                ECall (vuEngineIsRunning (mEngine c)) (fst running);
                EOut (OLog "Failed to start Vuforia as it is already running")] |})
    /\ (mEngine c <> nullptr -> truthy (fst running) = false ->
        run env (stopAR c) w =
          {| res := Done (false, c); world := snd running;
             trace :=
               [EOut (OLog "AppController::stopAR");
                ECall (vuEngineIsRunning (mEngine c)) (fst running);
                EOut (OLog "Failed to stop Vuforia as it is currently not running")] |}).
Proof.
  intros W env w c running. subst running.
  unfold startAR, stopAR. unfold_monad. simpl.
  destruct (mEngine c) as [e|]; simpl.
  - split; [discriminate | ].
    split; intros _ R; rewrite R; reflexivity.
  - split; [auto | ]. split; intros N; elim N; reflexivity.
Qed.

(** ** [stopAR] clears the started flag first *)

(** C9: when the engine exists and answers that it is running, the
    controller reports not started after [stopAR], whatever [vuEngineStop]
    answers; [stopAR] itself returns whether the stop succeeded. *)
Theorem stopAR_clears_started :
  forall (W : Type) (env : Env W) (w : W) (c : AppController),
    mEngine c <> nullptr ->
    truthy (fst (vu env (vuEngineIsRunning (mEngine c)) w)) = true ->
    let r := run env (stopAR c) w in
    let stop := vu env (vuEngineStop (mEngine c)) (snd (vu env (vuEngineIsRunning (mEngine c)) w)) in
    res r = Done (is_success (fst stop), set_mARStarted false c)
    /\ world r = snd stop
    /\ forall (W' : Type) (env' : Env W') (w' : W'),
         run env' (isARStarted (set_mARStarted false c)) w' =
           {| res := Done (false, set_mARStarted false c); world := w'; trace := [] |}.
Proof.
  intros W env w c N R r stop. subst r stop.
  unfold stopAR, isARStarted. unfold_monad. simpl.
  destruct (mEngine c) as [e|]; [ | elim N; reflexivity]. simpl.
  rewrite R. simpl.
  destruct (fst (vu env (vuEngineStop (Some e)) _)); simpl; auto.
Qed.

(** ** What each method leaves alone *)

Lemma set_mGuideViewModelTarget_same (c : AppController) :
  set_mGuideViewModelTarget (mGuideViewModelTarget c) c = c.
Proof. destruct c; reflexivity. Qed.

Lemma view_app {X : Type} (f : entry -> option X) (l1 l2 : list entry) :
  view f (l1 ++ l2) = view f l1 ++ view f l2.
Proof.
  induction l1 as [|e l1 IH]; simpl; [reflexivity | ].
  destruct (f e); simpl; rewrite IH; reflexivity.
Qed.

(** The guide-view search changes nothing in the controller and touches no
    snapshot; a guide view it returns carries the active name. *)
Lemma findGuideView_post (l : ptr) (a : cstr) (n : nat) :
  forall (i : Z) (c : AppController),
    post (findGuideView l a n i c)
      (fun o tr =>
         view snapshot_event tr = []
         /\ match o with
            | Done (g, c') =>
                c' = c
                /\ forall h, g = Some h ->
                     exists name, a = Some name
                       /\ In (GuideViewName (Some h) (Some name)) (view guide_event tr)
            | Crashed _ => True
            end).
Proof.
  induction n as [|n IH]; intros i c; simpl.
  - split; [reflexivity | split; [reflexivity | discriminate]].
  - unfold_monad. simpl. intros [r g]. simpl. destruct r; simpl; [auto | ].
    intros [r name]. simpl. destruct r; simpl; [auto | ].
    destruct name as [s|]; simpl; [ | auto].
    destruct a as [t|]; simpl; [ | auto].
    destruct (String.eqb s t) eqn:E; simpl.
    + split; [reflexivity | split; [reflexivity | ]].
      intros h ->. apply String.eqb_eq in E. subst t. exists s. auto.
    + eapply post_mono; [ | apply (IH (i + 1) c)]. simpl.
      intros o tr [S P]. split; [exact S | ].
      destruct o as [[g' c'] | ]; [ | exact I].
      destruct P as [-> P]. split; [reflexivity | ].
      intros h Hh. destruct (P h Hh) as [nm [Hn Hin]]. exists nm. split; [exact Hn | ].
      right. exact Hin.
Qed.

Lemma pose_status_eqb_eq (a b : VuObservationPoseStatus) :
  pose_status_eqb a b = true <-> a = b.
Proof. destruct a, b; simpl; split; intros H; try reflexivity; discriminate H. Qed.

Ltac exec_to_loop :=
  repeat (simpl; intros;
          lazymatch goal with
          | |- post (pbind (findGuideView _ _ _ _ _) _) _ => fail
          | _ => break
          end).

(** [getModelTargetResult] changes at most the guide-view pointer and
    touches no snapshot; it clears the pointer when it returns [true], and
    looks for a guide view only after a NO_POSE observation. *)
Lemma getModelTargetResult_post (out : matrices) (c : AppController) :
  post (getModelTargetResult out c)
    (fun o tr =>
       view snapshot_event tr = []
       /\ match o with
          | Done (result, c') =>
              c' = set_mGuideViewModelTarget (mGuideViewModelTarget c') c
              /\ (fst result = true -> mGuideViewModelTarget c' = nullptr)
              /\ ((exists p, In (GuideViewsQueried p) (view guide_event tr)) ->
                  In (ObservedPose VU_OBSERVATION_POSE_STATUS_NO_POSE) (view guide_event tr))
              /\ forall h, mGuideViewModelTarget c' = Some h ->
                   mGuideViewModelTarget c = Some h
                   \/ (In (ObservedPose VU_OBSERVATION_POSE_STATUS_NO_POSE) (view guide_event tr)
                       /\ exists name,
                            In (ActiveName (Some name)) (view guide_event tr)
                            /\ In (GuideViewName (Some h) (Some name)) (view guide_event tr))
          | Crashed _ => True
          end).
Proof.
  unfold getModelTargetResult. unfold_monad.
  exec_to_loop.
  all: simpl; try (split; [reflexivity | ]); auto.
  all: try match goal with
           | H : pose_status_eqb _ _ = true |- _ => apply pose_status_eqb_eq in H
           end.
  all: try (rewrite ?set_mGuideViewModelTarget_same;
            solve [ split; [reflexivity | ];
                    split; [intros; try discriminate; reflexivity | ];
                    split; [ intros [q Hq]; intuition (try discriminate; try congruence)
                           | intros h Hh; try discriminate; auto ] ]).
  apply post_pbind. apply post_pbind. apply post_pbind.
  eapply post_mono; [ | apply findGuideView_post]. simpl.
  intros o tr [S P]. destruct o as [[g c'] | why]; simpl.
  - destruct P as [-> P].
    assert (G : forall (h : handle) (rest : list entry),
               g = Some h ->
               exists name,
                 ActiveName (activeGuideViewName v5) = ActiveName (Some name)
                 /\ In (GuideViewName (Some h) (Some name)) (view guide_event (tr ++ rest))).
    { intros h rest Hg. destruct (P h Hg) as [name [A I]]. exists name.
      split; [congruence | ]. rewrite view_app. apply in_or_app. left. exact I. }
    destruct g as [h|]; exec; rewrite ?app_nil_r, ?view_app, ?S; simpl.
    all: try solve [split; [reflexivity | exact I]].
    all: split; [reflexivity | ].
    all: split; [reflexivity | ].
    all: split; [discriminate | ].
    all: split; [intros _; left; congruence | ].
    all: intros h0 Hh0; try discriminate.
    right. split; [left; congruence | ].
    injection Hh0 as <-.
    destruct (G h [ECall (vuGuideViewListDestroy p1) r10; ECall (vuObservationListDestroy p) r11]
                eq_refl) as [name [A I]].
    exists name. split; [right; left; exact A | ].
    right. right. right. rewrite view_app in I. simpl in I.
    rewrite !app_nil_r in *. exact I.
  - rewrite S. auto.
Qed.

Lemma post_keeps_timer {A : Type} (m : M A) :
  (forall c,
     post (m c)
       (fun o _ =>
          match o with
          | Done (_, c') =>
              mTimingRelocalizingState c' = mTimingRelocalizingState c
              /\ mEnteredRelocalizingState c' = mEnteredRelocalizingState c
          | Crashed _ => True
          end)) ->
  keeps_timer m.
Proof.
  intros H W env w c a c' E.
  pose proof (post_run _ _ (H c) env w) as P. rewrite E in P. exact P.
Qed.

Lemma startAR_keeps_timer : keeps_timer startAR.
Proof. apply post_keeps_timer. intros c. unfold startAR. unfold_monad. exec. Qed.

Lemma stopAR_keeps_timer : keeps_timer stopAR.
Proof. apply post_keeps_timer. intros c. unfold stopAR. unfold_monad. exec. Qed.

Lemma deinitAR_keeps_timer : keeps_timer deinitAR.
Proof.
  apply post_keeps_timer. intros c.
  unfold deinitAR, stopAR, destroyObservers. unfold_monad. exec.
Qed.

Lemma initAR_keeps_timer (javaVM : ptr) (initConfig : InitConfig) (target : Z) :
  keeps_timer (initAR javaVM initConfig target).
Proof.
  apply post_keeps_timer. intros c.
  unfold initAR, initVuforiaInternal, createObservers. unfold_monad. exec_lazy.
  all: auto.
Qed.

Lemma cameraSetFocus_keeps_timer (focusMode : VuCameraFocusMode) :
  keeps_timer (cameraSetFocus focusMode).
Proof. apply post_keeps_timer. intros c. unfold cameraSetFocus. unfold_monad. exec. Qed.

Lemma configureRendering_keeps_timer (width height : Z) (orientation : ptr) :
  keeps_timer (configureRendering width height orientation).
Proof. apply post_keeps_timer. intros c. unfold configureRendering. unfold_monad. exec. Qed.

Lemma getVideoBackgroundTextureSize_keeps_timer (textureSize : Z * Z) :
  keeps_timer (getVideoBackgroundTextureSize textureSize).
Proof.
  apply post_keeps_timer. intros c. unfold getVideoBackgroundTextureSize. unfold_monad. exec.
Qed.

Lemma prepareToRender_keeps_timer (vp : list Z) (renderData : VuRenderVideoBackgroundData) :
  keeps_timer (prepareToRender vp renderData).
Proof.
  apply post_keeps_timer. intros c. unfold prepareToRender, updateDevicePose. unfold_monad. exec.
Qed.

Lemma getOrigin_keeps_timer (out : VuMatrix44F * VuMatrix44F) : keeps_timer (getOrigin out).
Proof. apply post_keeps_timer. intros c. unfold getOrigin. unfold_monad. exec. Qed.

Lemma getImageTargetResult_post (out : matrices) (c : AppController) :
  post (getImageTargetResult out c)
    (fun o tr =>
       view snapshot_event tr = []
       /\ match o with Done (_, c') => c' = c | Crashed _ => True end).
Proof. unfold getImageTargetResult. unfold_monad. exec. Qed.

Lemma getImageTargetResult_keeps_timer (out : matrices) : keeps_timer (getImageTargetResult out).
Proof.
  apply post_keeps_timer. intros c.
  eapply post_mono; [ | apply getImageTargetResult_post]. simpl.
  intros [[a c'] | why] tr [_ H]; [subst c'; auto | exact I].
Qed.

Lemma getModelTargetResult_keeps_timer (out : matrices) : keeps_timer (getModelTargetResult out).
Proof.
  apply post_keeps_timer. intros c.
  eapply post_mono; [ | apply getModelTargetResult_post]. simpl.
  intros [[a c'] | why] tr [_ H]; [ | exact I].
  destruct H as [-> _]. auto.
Qed.

Lemma getModelTargetGuideView_post (out : GuideViewOut) (c : AppController) :
  post (getModelTargetGuideView out c)
    (fun o tr =>
       view snapshot_event tr = []
       /\ match o with Done (_, c') => c' = c | Crashed _ => True end).
Proof. unfold getModelTargetGuideView. unfold_monad. exec. Qed.

Lemma getModelTargetGuideView_keeps_timer (out : GuideViewOut) :
  keeps_timer (getModelTargetGuideView out).
Proof.
  apply post_keeps_timer. intros c.
  eapply post_mono; [ | apply getModelTargetGuideView_post]. simpl.
  intros [[a c'] | why] tr [_ H]; [subst c'; auto | exact I].
Qed.

(** ** The relocalization timer *)

(** [finishRender] never fails: it makes no assertion. *)
Lemma finishRender_returns :
  forall (W : Type) (env : Env W) (w : W) (c : AppController),
    exists c', res (run env (finishRender c) w) = Done (tt, c').
Proof.
  intros W env w c. unfold finishRender. unfold_monad. simpl.
  repeat (break; simpl); eauto.
Qed.

(** C3: [finishRender] writes [mEnteredRelocalizingState] only when the
    cached status is limited+relocalizing and the timing flag was clear;
    whenever the cached status is anything else it leaves the flag clear.
    It always returns, and no other method touches the flag or the
    time stamp. *)
Theorem relocalizing_timer_set_only_on_entry :
  (forall (W : Type) (env : Env W) (w : W) (c : AppController),
     exists c', res (run env (finishRender c) w) = Done (tt, c'))
  /\ (forall (W : Type) (env : Env W) (w : W) (c c' : AppController),
        res (run env (finishRender c) w) = Done (tt, c') ->
        (mEnteredRelocalizingState c' <> mEnteredRelocalizingState c ->
         cached_relocalizing c = true /\ mTimingRelocalizingState c = false)
        /\ (cached_relocalizing c = false -> mTimingRelocalizingState c' = false))
  /\ (forall javaVM initConfig target, keeps_timer (initAR javaVM initConfig target))
  /\ keeps_timer startAR
  /\ keeps_timer stopAR
  /\ keeps_timer deinitAR
  /\ keeps_timer cameraPerformAutoFocus
  /\ keeps_timer cameraRestoreAutoFocus
  /\ (forall width height orientation,
        keeps_timer (configureRendering width height orientation))
  /\ (forall textureSize, keeps_timer (getVideoBackgroundTextureSize textureSize))
  /\ (forall vp renderData, keeps_timer (prepareToRender vp renderData))
  /\ (forall out, keeps_timer (getOrigin out))
  /\ (forall out, keeps_timer (getImageTargetResult out))
  /\ (forall out, keeps_timer (getModelTargetResult out))
  /\ (forall out, keeps_timer (getModelTargetGuideView out)).
Proof.
  split; [exact finishRender_returns | ].
  split.
  { intros W env w c c'. unfold finishRender, cached_relocalizing. unfold_monad. simpl.
    repeat (break; simpl); intros E; injection E as <-; simpl.
    all: split; [intros N; try (elim N; reflexivity) | intros; try discriminate; auto].
    all: split; [reflexivity | ].
    all: destruct (mTimingRelocalizingState c); [discriminate | reflexivity]. }
  split; [intros; apply initAR_keeps_timer | ].
  split; [exact startAR_keeps_timer | ].
  split; [exact stopAR_keeps_timer | ].
  split; [exact deinitAR_keeps_timer | ].
  split; [apply cameraSetFocus_keeps_timer | ].
  split; [apply cameraSetFocus_keeps_timer | ].
  split; [intros; apply configureRendering_keeps_timer | ].
  split; [intros; apply getVideoBackgroundTextureSize_keeps_timer | ].
  split; [intros; apply prepareToRender_keeps_timer | ].
  split; [intros; apply getOrigin_keeps_timer | ].
  split; [intros; apply getImageTargetResult_keeps_timer | ].
  split; [intros; apply getModelTargetResult_keeps_timer | ].
  intros; apply getModelTargetGuideView_keeps_timer.
Qed.

(** ** The relocalization timer over successive frames *)

Lemma cached_relocalizing_observe (f : Frame) (c : AppController) :
  cached_relocalizing (observe f c) = relocalizing f.
Proof. reflexivity. Qed.

Lemma timer_origin_observe (f : Frame) (c : AppController) (t : time_point) :
  timer_origin (observe f c) t = timer_origin c t.
Proof. reflexivity. Qed.

(** One [finishRender] at a fixed clock reading [t]. *)
Lemma finishRender_at_time {W : Type} (env : Env W) (w : W) (t : time_point)
    (c : AppController) :
  let r := run (at_time env) (finishRender c) (w, t) in
  let fire :=
    cached_relocalizing c
    && (duration_cast_seconds (t - timer_origin c t) >? MAX_RELOCALIZING_SECONDS) in
  exists c',
    res r = Done (tt, c')
    /\ reset_invoked (trace r) = fire
    /\ resets (trace r) = (if fire then 1%nat else 0%nat)
    /\ mTimingRelocalizingState c' = cached_relocalizing c && negb fire
    /\ (forall t', timer_origin c' t' =
                   if cached_relocalizing c && negb fire then timer_origin c t else t').
Proof.
  unfold finishRender, cached_relocalizing, timer_origin. unfold_monad. simpl.
  destruct (pose_status_eqb _ _ && is_relocalizing_info _); simpl.
  - destruct (mTimingRelocalizingState c) eqn:T; simpl;
      destruct (duration_cast_seconds _ >? MAX_RELOCALIZING_SECONDS) eqn:D; simpl;
      repeat (break; simpl); eexists; (split; [reflexivity | ]); simpl;
      try rewrite T; auto.
  - repeat (break; simpl); eexists; (split; [reflexivity | ]); simpl; auto.
Qed.

Lemma timer_invariant {W : Type} (env : Env W) (fs : list Frame) :
  forall (c : AppController) (w : W) (earlier : list (Frame * bool)),
    (forall t, timer_origin c t = timer_start earlier t) ->
    forall t,
      timer_origin (snd (fst (finishRender_frames env fs c w))) t =
      timer_start
        (rev (combine fs (map reset_invoked (fst (fst (finishRender_frames env fs c w)))))
         ++ earlier) t.
Proof.
  induction fs as [|f fs IH]; intros c w earlier H t; simpl; [apply H | ].
  destruct (finishRender_at_time env w (f_time f) (observe f c))
    as [c' [R [F [_ [_ O]]]]].
  rewrite R.
  destruct (finishRender_frames env fs c' _) as [[trs c1] w1] eqn:E. simpl.
  specialize (IH c' (fst (world (run (at_time env) (finishRender (observe f c)) (w, f_time f))))
                ((f, reset_invoked
                       (trace (run (at_time env) (finishRender (observe f c)) (w, f_time f))))
                   :: earlier)).
  rewrite E in IH. simpl in IH. rewrite <- app_assoc. simpl. apply IH.
  intros t'. rewrite O, F. simpl.
  rewrite cached_relocalizing_observe, timer_origin_observe.
  destruct (relocalizing f); simpl; [ | reflexivity].
  rewrite H.
  destruct (duration_cast_seconds _ >? MAX_RELOCALIZING_SECONDS); reflexivity.
Qed.

(** C1, as the code has it: at each [finishRender] the reset is invoked
    exactly when the cached status is limited+relocalizing and the time
    since the timer started, cut to whole seconds, exceeds the threshold;
    the timer starts at the first limited+relocalizing frame after the
    latest frame that saw another status or invoked the reset. *)
Theorem reset_iff_timer_exceeds_threshold :
  forall (W : Type) (env : Env W) (w : W) (c : AppController) (fs : list Frame) (f : Frame),
    mTimingRelocalizingState c = false ->
    reset_at env fs f c w =
      relocalizing f
      && (duration_cast_seconds
            (f_time f - timer_start (rev (reset_history env fs c w)) (f_time f))
          >? MAX_RELOCALIZING_SECONDS).
Proof.
  intros W env w c fs f T. unfold reset_at, reset_history.
  pose proof (timer_invariant env fs c w []) as I.
  destruct (finishRender_frames env fs c w) as [[trs c1] w1]. simpl in I.
  destruct (finishRender_at_time env w1 (f_time f) (observe f c1)) as [c' [_ [F _]]].
  rewrite F, cached_relocalizing_observe, timer_origin_observe.
  rewrite I, app_nil_r; [reflexivity | ].
  intros t. unfold timer_origin. rewrite T. reflexivity.
Qed.

(** ** Frames at a fixed rate *)

Lemma resets_app (l1 l2 : list entry) : resets (l1 ++ l2) = (resets l1 + resets l2)%nat.
Proof. unfold resets. rewrite filter_app, length_app. reflexivity. Qed.

Lemma finishRender_frames_app {W : Type} (env : Env W) (l1 l2 : list Frame) :
  forall (c : AppController) (w : W),
    finishRender_frames env (l1 ++ l2) c w =
      let '(trs1, c1, w1) := finishRender_frames env l1 c w in
      let '(trs2, c2, w2) := finishRender_frames env l2 c1 w1 in
      (trs1 ++ trs2, c2, w2).
Proof.
  induction l1 as [|f l1 IH]; intros c w; simpl.
  - destruct (finishRender_frames env l2 c w) as [[trs2 c2] w2]. reflexivity.
  - destruct (finishRender_at_time env w (f_time f) (observe f c)) as [c' [R _]].
    rewrite R, IH.
    destruct (finishRender_frames env l1 c' _) as [[trs1 c1] w1].
    destruct (finishRender_frames env l2 c1 w1) as [[trs2 c2] w2]. reflexivity.
Qed.

(** At [rate] frames per second, frame [k] is [k / rate] whole seconds
    after the first. *)
Lemma seconds_at_frame (t0 rate k : Z) :
  0 < rate -> 0 <= k ->
  duration_cast_seconds (frame_time t0 rate k - t0) = k / rate.
Proof.
  intros Hr Hk. unfold duration_cast_seconds, frame_time.
  replace (t0 + k * 1000000000 / rate - t0) with (k * 1000000000 / rate) by lia.
  rewrite Z.quot_div_nonneg; [ | apply Z.div_pos; lia | lia].
  rewrite Z.div_div; [ | lia | lia].
  apply Z.div_mul_cancel_r; lia.
Qed.

(** While fewer than [(MAX_RELOCALIZING_SECONDS + 1) * rate] frames have
    passed since the timer started, nothing is reset and the timer keeps
    running from [t0]. *)
Lemma quiet_frames {W : Type} (env : Env W) (t0 rate : Z) (n : nat) :
  forall (s : nat) (c : AppController) (w : W),
    0 < rate ->
    timer_origin c (frame_time t0 rate (Z.of_nat s)) = t0 ->
    Z.of_nat (s + n) <= (MAX_RELOCALIZING_SECONDS + 1) * rate ->
    let out := finishRender_frames env (frames_from t0 rate s n) c w in
    resets (List.concat (fst (fst out))) = 0%nat
    /\ (n = 0%nat
        \/ (mTimingRelocalizingState (snd (fst out)) = true
            /\ mEnteredRelocalizingState (snd (fst out)) = t0)).
Proof.
  induction n as [|n IH]; intros s c w Hr Ho Hn; simpl.
  - split; [reflexivity | left; reflexivity].
  - destruct (finishRender_at_time env w (frame_time t0 rate (Z.of_nat s))
                (observe (relocalizing_frame (frame_time t0 rate (Z.of_nat s))) c))
      as [c' [R [_ [N [T O]]]]].
    simpl in R. rewrite R.
    rewrite cached_relocalizing_observe, timer_origin_observe, Ho in N, T, O.
    simpl in N, T, O.
    rewrite seconds_at_frame in N, T, O by lia.
    assert (D : (Z.of_nat s / rate >? MAX_RELOCALIZING_SECONDS) = false).
    { rewrite Z.gtb_ltb. apply Z.ltb_ge.
      assert (Z.of_nat s / rate < MAX_RELOCALIZING_SECONDS + 1); [ | lia].
      apply Z.div_lt_upper_bound; lia. }
    rewrite D in N, T, O. simpl in N, T, O.
    specialize (IH (S s) c'
                  (fst (world (run (at_time env)
                                 (finishRender
                                    (observe (relocalizing_frame
                                                (frame_time t0 rate (Z.of_nat s))) c))
                                 (w, frame_time t0 rate (Z.of_nat s))))) Hr).
    fold (frames_from t0 rate (S s) n).
    destruct (finishRender_frames env (frames_from t0 rate (S s) n) c' _)
      as [[trs c1] w1] eqn:E.
    simpl in *.
    destruct IH as [Z1 Z2]; [apply O | lia | ].
    rewrite resets_app, N, Z1. split; [reflexivity | right].
    destruct Z2 as [-> | Z2]; [ | exact Z2].
    simpl in E. injection E as _ <- _.
    split; [exact T | ]. specialize (O 0). unfold timer_origin in O.
    rewrite T in O. exact O.
Qed.

Lemma frames_outcome_eq {W : Type} (env : Env W) (fs : list Frame) (c : AppController) (w : W) :
  frames_outcome env fs c w =
    (resets (List.concat (fst (fst (finishRender_frames env fs c w)))),
     snd (fst (finishRender_frames env fs c w))).
Proof.
  unfold frames_outcome. destruct (finishRender_frames env fs c w) as [[trs c1] w1].
  reflexivity.
Qed.

Lemma timer_origin_at_start (c : AppController) (t0 rate : Z) :
  mTimingRelocalizingState c = false ->
  timer_origin c (frame_time t0 rate (Z.of_nat 0)) = t0.
Proof.
  intros T. unfold timer_origin, frame_time. rewrite T. simpl. rewrite Zdiv_0_l. lia.
Qed.

(** C2, as the code has it: a [finishRender] that finds the status
    limited+relocalizing, the timer running and more than the threshold of
    whole seconds elapsed invokes the reset once and clears the timing
    flag.  At [rate] frames per second that happens at frame number
    [(MAX_RELOCALIZING_SECONDS + 1) * rate]: so many frames and one more
    give exactly one reset and a clear flag, while
    [MAX_RELOCALIZING_SECONDS * rate + 1] frames give none and leave the
    timer running. *)
Theorem reset_once_when_threshold_exceeded :
  forall (W : Type) (env : Env W) (w : W) (c : AppController),
    (cached_relocalizing c = true ->
     mTimingRelocalizingState c = true ->
     duration_cast_seconds (fst (steady_clock_now env w) - mEnteredRelocalizingState c)
       > MAX_RELOCALIZING_SECONDS ->
     resets (trace (run env (finishRender c) w)) = 1%nat
     /\ exists c',
          res (run env (finishRender c) w) = Done (tt, c')
          /\ mTimingRelocalizingState c' = false)
    /\ (forall t0 rate : Z,
          0 < rate ->
          mTimingRelocalizingState c = false ->
          let out :=
            frames_outcome env
              (relocalizing_frames t0 rate
                 (Z.to_nat ((MAX_RELOCALIZING_SECONDS + 1) * rate + 1))) c w in
          fst out = 1%nat /\ mTimingRelocalizingState (snd out) = false)
    /\ (forall t0 rate : Z,
          0 < rate ->
          mTimingRelocalizingState c = false ->
          let out :=
            frames_outcome env
              (relocalizing_frames t0 rate (Z.to_nat (MAX_RELOCALIZING_SECONDS * rate + 1)))
              c w in
          fst out = 0%nat /\ mTimingRelocalizingState (snd out) = true).
Proof.
  intros W env w c. split; [ | split].
  - intros R T D. unfold finishRender. unfold_monad. simpl.
    unfold cached_relocalizing in R. rewrite R, T. simpl.
    apply Z.gt_lt in D. apply Z.gtb_lt in D. rewrite D. simpl.
    repeat (break; simpl); (split; [reflexivity | eexists; split; reflexivity]).
  - intros t0 rate Hr T out. subst out. rewrite frames_outcome_eq. cbn [fst snd].
    unfold relocalizing_frames.
    replace (Z.to_nat ((MAX_RELOCALIZING_SECONDS + 1) * rate + 1))
      with (S (Z.to_nat ((MAX_RELOCALIZING_SECONDS + 1) * rate)))
      by (unfold MAX_RELOCALIZING_SECONDS; lia).
    set (n := Z.to_nat ((MAX_RELOCALIZING_SECONDS + 1) * rate)).
    assert (Hn : Z.of_nat n = (MAX_RELOCALIZING_SECONDS + 1) * rate)
      by (unfold n, MAX_RELOCALIZING_SECONDS; lia).
    unfold frames_from. rewrite seq_S, map_app. simpl.
    fold (frames_from t0 rate 0 n).
    rewrite finishRender_frames_app.
    destruct (@quiet_frames W env t0 rate n 0%nat c w Hr (@timer_origin_at_start c t0 rate T))
      as [Q1 Q2]; [change (0 + n)%nat with n; lia | ].
    destruct (finishRender_frames env (frames_from t0 rate 0 n) c w) as [[trs1 c1] w1].
    simpl in Q1, Q2.
    destruct Q2 as [Q2 | [T1 E1]];
      [unfold MAX_RELOCALIZING_SECONDS in Hn; lia | ].
    simpl.
    destruct (finishRender_at_time env w1 (frame_time t0 rate (Z.of_nat n))
                (observe (relocalizing_frame (frame_time t0 rate (Z.of_nat n))) c1))
      as [c' [R [_ [N [T' _]]]]].
    cbn [f_time relocalizing_frame] in R. rewrite R. cbn [fst snd].
    rewrite cached_relocalizing_observe, timer_origin_observe in N, T'.
    assert (Hd : Z.of_nat n / rate = MAX_RELOCALIZING_SECONDS + 1)
      by (rewrite Hn; apply Z.div_mul; lia).
    unfold timer_origin in N, T'. rewrite T1, E1 in N, T'.
    cbn [relocalizing_frame relocalizing f_status f_info f_time pose_status_eqb
         is_relocalizing_info andb] in N, T'.
    rewrite seconds_at_frame, Hd in N, T' by lia.
    change (MAX_RELOCALIZING_SECONDS + 1 >? MAX_RELOCALIZING_SECONDS) with true in N, T'.
    cbn [andb negb] in N, T'.
    rewrite concat_app, resets_app, Q1. cbn [List.concat fst snd Nat.add].
    rewrite app_nil_r, N.
    split; [reflexivity | exact T'].
  - intros t0 rate Hr T out. subst out. rewrite frames_outcome_eq. cbn [fst snd].
    unfold relocalizing_frames.
    destruct (@quiet_frames W env t0 rate (Z.to_nat (MAX_RELOCALIZING_SECONDS * rate + 1))
                0%nat c w Hr (@timer_origin_at_start c t0 rate T)) as [Q1 Q2];
      [unfold MAX_RELOCALIZING_SECONDS; cbn [Nat.add]; lia | ].
    split; [exact Q1 | ].
    destruct Q2 as [Q2 | [T1 _]]; [unfold MAX_RELOCALIZING_SECONDS in Q2; lia | exact T1].
Qed.

(** ** Shutdown *)

(** C6, as the code has it: without engine [deinitAR] only logs.  With one
    it stops the engine if the engine says it is running, destroys the
    observers that are set and then the engine, in this order, and clears
    both observer handles; it clears the engine, render controller and
    platform controller handles when [vuEngineDestroy] succeeds and leaves
    them as they were when it fails. *)
Theorem deinitAR_shutdown :
  forall (W : Type) (env : Env W) (w : W) (c : AppController),
    (mEngine c = nullptr ->
     run env (deinitAR c) w =
       {| res := Done (tt, c); world := w;
          trace :=
            [EOut (OLog "Failed to deinitialize Vuforia as no engine instance is available")] |})
    /\ (mEngine c <> nullptr ->
        let r := run env (deinitAR c) w in
        let running := truthy (fst (vu env (vuEngineIsRunning (mEngine c)) w)) in
        exists c',
          res r = Done (tt, c')
          /\ mObjectObserver c' = nullptr
          /\ mDevicePoseObserver c' = nullptr
          /\ view lifecycle_event (trace r) =
               (if running then [EngineStopped (mEngine c)] else [])
               ++ destroyed_if_set (mObjectObserver c)
               ++ destroyed_if_set (mDevicePoseObserver c)
               ++ [EngineDestroyed (mEngine c)]
          /\ mARStarted c' = (if running then false else mARStarted c)
          /\ match view destroy_answer (trace r) with
             | [VU_SUCCESS] =>
                 mEngine c' = nullptr
                 /\ mRenderController c' = nullptr
                 /\ mPlatformController c' = nullptr
             | [VU_FAILED] =>
                 mEngine c' = mEngine c
                 /\ mRenderController c' = mRenderController c
                 /\ mPlatformController c' = mPlatformController c
             | _ => False
             end).
Proof.
  intros W env w c. destruct c. unfold deinitAR, stopAR, destroyObservers, destroyed_if_set.
  unfold_monad. simpl.
  match goal with |- (?e = nullptr -> _) /\ _ => destruct e as [e'|] end; simpl.
  - split; [discriminate | ]. intros _.
    destruct (truthy (fst (vu env (vuEngineIsRunning (Some e')) w))); simpl.
    all: repeat match goal with
                | |- context [is_null ?p] => is_var p; destruct p; simpl
                end.
    all: repeat (break; simpl).
    all: try solve [exfalso; simpl in *; discriminate].
    all: eexists; (split; [reflexivity | ]); simpl; auto 10.
  - split; [reflexivity | ]. intros N. elim N. reflexivity.
Qed.

(** ** Preparing a frame *)

Lemma pose_status_eqb_neq (a b : VuObservationPoseStatus) :
  pose_status_eqb a b = false -> a <> b.
Proof. intros H E. apply pose_status_eqb_eq in E. congruence. Qed.

(** The answers the branches of a run were taken on, made explicit. *)
Ltac answers :=
  repeat match goal with
         | H : is_success ?r = _ |- _ =>
             is_var r; destruct r; simpl in H; try discriminate H; clear H
         | H : negb (is_success ?r) = _ |- _ =>
             is_var r; destruct r; simpl in H; try discriminate H; clear H
         | H : is_null ?p = _ |- _ =>
             is_var p; destruct p; simpl in H; try discriminate H; clear H
         | H : negb (is_null ?p) = _ |- _ =>
             is_var p; destruct p; simpl in H; try discriminate H; clear H
         | H : true = true |- _ => clear H
         | H : false = false |- _ => clear H
         end.

Ltac observed :=
  repeat match goal with
         | H : (?b =? VU_TRUE) = true |- _ => apply Z.eqb_eq in H; try subst b
         | H : (_ >? 0) = true |- _ => apply Z.gtb_lt in H
         | H : (_ >? 0) = false |- _ => rewrite Z.gtb_ltb in H; apply Z.ltb_ge in H
         | H : negb (pose_status_eqb _ _) = true |- _ =>
             apply negb_true_iff, pose_status_eqb_neq in H
         | H : negb (pose_status_eqb _ _) = false |- _ =>
             apply negb_false_iff, pose_status_eqb_eq in H
         end.

Lemma prepareToRender_pose_post (vp : list Z) (renderData : VuRenderVideoBackgroundData)
    (c : AppController) :
  post (prepareToRender vp renderData c)
    (fun o tr =>
       match o with
       | Done (true, _, c') =>
           (exists rest,
              view snapshot_event tr = Acquired VU_SUCCESS (mVuforiaState c') :: rest)
           /\ device_pose_read (mVuforiaState c') (view device_pose_event tr)
                (mLatestDevicePoseData c')
       | _ => True
       end).
Proof.
  unfold prepareToRender, updateDevicePose, device_pose_read, no_device_pose. unfold_monad.
  destruct c. exec.
  all: answers; observed.
  all: split; [eexists; reflexivity | ].
  all: do 2 eexists.
  all: first
         [ left; split; reflexivity
         | right; left; eexists; split; [eassumption | split; reflexivity]
         | right; right; left; do 2 eexists; split; [eassumption | split; reflexivity]
         | right; right; right; do 3 eexists; split;
           [eassumption | left; (split; [ | split; reflexivity]); assumption]
         | right; right; right; do 3 eexists; split;
           [eassumption | right; eexists; (split; [ | split; reflexivity]); assumption] ].
Qed.

(** C7: [prepareToRender] returns [false] when the state cannot be acquired
    and when the acquired state has no camera frame; in both cases it
    leaves the caller's viewport and the cached device pose untouched and
    makes no further call, in particular no video-background update.  When
    it returns [true] the cached state is the one acquired in this call and
    the cached device pose is the one read off that state in this call:
    the device pose observations of the acquired state are got into a fresh
    list, element 0 of that list is the observation asked for its pose info
    and, unless that says NO_POSE, for its status info, and the pose,
    status and status info cached are these answers; when the state offers
    no observation, or one with NO_POSE, the cached pose is the identity
    matrix with NO_POSE and NORMAL, whatever was cached before. *)
Theorem prepareToRender_fails_or_updates_pose :
  forall (W : Type) (env : Env W) (w : W) (c : AppController) (vp : list Z)
         (renderData : VuRenderVideoBackgroundData),
    let acquire := vu env (vuEngineAcquireLatestState (mEngine c) (mVuforiaState c)) w in
    let state := snd (fst acquire) in
    let hasFrame := vu env (vuStateHasCameraFrame state) (snd acquire) in
    let r := run env (prepareToRender vp renderData c) w in
    (fst (fst acquire) = VU_FAILED ->
     r = {| res := Done (false, vp, set_mVuforiaState state c);
            world := snd acquire;
            trace :=
              [ECall (vuEngineAcquireLatestState (mEngine c) (mVuforiaState c)) (fst acquire);
               EOut (OLog "Error getting state")] |})
    /\ (fst (fst acquire) = VU_SUCCESS ->
        fst hasFrame <> VU_TRUE ->
        r = {| res := Done (false, vp, set_mVuforiaState state c);
               world := snd hasFrame;
               trace :=
                 [ECall (vuEngineAcquireLatestState (mEngine c) (mVuforiaState c))
                    (fst acquire);
                  ECall (vuStateHasCameraFrame state) (fst hasFrame)] |})
    /\ (forall vp' c',
          res r = Done (true, vp', c') ->
          mVuforiaState c' = state
          /\ device_pose_read state (view device_pose_event (trace r))
               (mLatestDevicePoseData c')).
Proof.
  intros W env w c vp renderData acquire state hasFrame r.
  assert (P : forall vp' c',
             res r = Done (true, vp', c') ->
             mVuforiaState c' = state
             /\ device_pose_read state (view device_pose_event (trace r))
                  (mLatestDevicePoseData c')).
  { intros vp' c' R.
    pose proof (post_run _ _ (prepareToRender_pose_post vp renderData c) env w) as P.
    fold r in P. rewrite R in P. destruct P as [[rest S] D].
    assert (E : mVuforiaState c' = state).
    { revert S. subst r state acquire. unfold prepareToRender. unfold_monad. simpl.
      destruct (vu env (vuEngineAcquireLatestState (mEngine c) (mVuforiaState c)) w)
        as [[a s] w1]. simpl. intros S. injection S as _ S _. symmetry. exact S. }
    split; [exact E | ]. rewrite <- E. exact D. }
  split; [ | split; [ | exact P]]; clear P; subst r hasFrame state acquire.
  - unfold prepareToRender. unfold_monad. simpl.
    destruct (vu env (vuEngineAcquireLatestState (mEngine c) (mVuforiaState c)) w)
      as [[a s] w1]. simpl. intros ->. reflexivity.
  - unfold prepareToRender. unfold_monad. simpl.
    destruct (vu env (vuEngineAcquireLatestState (mEngine c) (mVuforiaState c)) w)
      as [[a s] w1]. simpl. intros -> N. simpl.
    destruct (vu env (vuStateHasCameraFrame s) w1) as [b w2]. simpl in *.
    apply Z.eqb_neq in N. rewrite N. reflexivity.
Qed.

(** ** State snapshots *)

Lemma prepareToRender_snapshot_post (vp : list Z) (renderData : VuRenderVideoBackgroundData)
    (c : AppController) :
  post (prepareToRender vp renderData c)
    (fun o tr =>
       exists r st,
         view snapshot_event tr = [Acquired r st]
         /\ match o with
            | Done (_, c') => mVuforiaState c' = st
            | Crashed _ => True
            end).
Proof.
  unfold prepareToRender, updateDevicePose. unfold_monad. destruct c.
  simpl. intros [r st]. simpl.
  exec; eexists; eexists; (split; [reflexivity | auto]).
Qed.

Lemma finishRender_snapshot_post (c : AppController) :
  post (finishRender c)
    (fun o tr =>
       view snapshot_event tr =
         (if is_null (mVuforiaState c) then [] else [Released (mVuforiaState c)])
       /\ match o with
          | Done (_, c') => mVuforiaState c' = nullptr
          | Crashed _ => False
          end).
Proof.
  unfold finishRender. unfold_monad. destruct c. simpl.
  match goal with |- context [is_null ?s] => destruct s end; exec.
Qed.

Lemma getOrigin_post (out : VuMatrix44F * VuMatrix44F) (c : AppController) :
  post (getOrigin out c)
    (fun o tr =>
       view snapshot_event tr = []
       /\ match o with Done (_, c') => c' = c | Crashed _ => True end).
Proof. unfold getOrigin. unfold_monad. exec. Qed.

Lemma sampleDraw_neutral (m : VuMatrix44F) (g : GuideViewOut) :
  snapshot_neutral (sampleDraw m g).
Proof.
  intros c. unfold sampleDraw, getRenderState, bind, get, ret. simpl.
  apply post_pbind. eapply post_mono; [ | apply getOrigin_post]. simpl.
  intros [[a c1] | why] tr [S H]; [subst c1 | auto].
  apply post_pbind. eapply post_mono; [ | apply getImageTargetResult_post]. simpl.
  intros [[[b o] c1] | why] tr1 [S1 H]; [subst c1 | rewrite view_app, S, S1; auto].
  simpl. destruct b; simpl; [rewrite !view_app, S, S1; auto | ].
  apply post_pbind. eapply post_mono; [ | apply getModelTargetResult_post]. simpl.
  intros [[[b o2] c1] | why] tr2 [S2 H]; [ | rewrite !view_app, S, S1, S2; auto].
  destruct H as [H _]. simpl. destruct b; simpl.
  - rewrite !view_app, S, S1, S2. rewrite H. auto.
  - apply post_pbind. eapply post_mono; [ | apply getModelTargetGuideView_post]. simpl.
    intros [[a3 c3] | why] tr3 [S3 H3]; simpl; rewrite ?app_nil_r, !view_app, S, S1, S2, S3;
      [subst c3; rewrite H; auto | auto].
Qed.


Lemma held_after_app (held : list handle) (e1 e2 : list Snapshot) :
  held_after held (e1 ++ e2) = held_after (held_after held e1) e2.
Proof. unfold held_after. apply fold_left_app. Qed.

Lemma peak_held_app (e1 : list Snapshot) :
  forall (held : list handle) (e2 : list Snapshot),
    peak_held held (e1 ++ e2) =
      Nat.max (peak_held held e1) (peak_held (held_after held e1) e2).
Proof.
  induction e1 as [|s e1 IH]; intros held e2.
  - unfold held_after. simpl. destruct e2; simpl; lia.
  - change (peak_held held ((s :: e1) ++ e2))
      with (Nat.max (List.length held) (peak_held (ledger_step held s) (e1 ++ e2))).
    change (peak_held held (s :: e1))
      with (Nat.max (List.length held) (peak_held (ledger_step held s) e1)).
    change (held_after held (s :: e1)) with (held_after (ledger_step held s) e1).
    rewrite IH. apply Nat.max_assoc.
Qed.

(** One bracketed frame holds at most one snapshot and gives it back. *)
Lemma renderFrame_post (vp : list Z) (renderData : VuRenderVideoBackgroundData)
    (draw : M unit) (c : AppController) :
  snapshot_neutral draw ->
  post (renderFrame vp renderData draw c)
    (fun o tr =>
       (peak_held [] (view snapshot_event tr) <= 1)%nat
       /\ match o with
          | Done (_, c') =>
              mVuforiaState c' = nullptr /\ held_after [] (view snapshot_event tr) = []
          | Crashed _ => True
          end).
Proof.
  intros N. unfold renderFrame, bind.
  apply post_pbind. eapply post_mono; [ | apply prepareToRender_snapshot_post]. simpl.
  intros [[ok c1] | why] tr [r [st [A H]]]; simpl.
  - assert (D : post ((if fst ok then draw else ret tt) c1)
                  (fun o tr =>
                     view snapshot_event tr = []
                     /\ match o with
                        | Done (_, c') => mVuforiaState c' = mVuforiaState c1
                        | Crashed _ => True
                        end)).
    { destruct (fst ok); [apply N | simpl; auto]. }
    apply post_pbind. eapply post_mono; [ | apply D]. simpl.
    intros [[u c2] | why] tr2 [S2 H2]; simpl.
    + eapply post_mono; [ | apply finishRender_snapshot_post]. simpl.
      intros [[u3 c3] | why] tr3 [S3 H3]; [ | contradiction].
      rewrite !view_app, A, S2, S3, H2, H. simpl.
      destruct r, st as [h|]; simpl; unfold held_after; simpl; rewrite ?Z.eqb_refl;
        (split; [first [lia | cbv; lia] | split; [exact H3 | reflexivity]]).
    + rewrite view_app, A, S2. simpl. destruct r, st; simpl; (split; [first [lia | cbv; lia] | exact I]).
  - rewrite A. simpl. destruct r, st; simpl; (split; [first [lia | cbv; lia] | exact I]).
Qed.

Lemma renderFrames_post (vp : list Z) (renderData : VuRenderVideoBackgroundData)
    (draw : M unit) (n : nat) :
  snapshot_neutral draw ->
  forall c : AppController,
    mVuforiaState c = nullptr ->
    post (renderFrames n vp renderData draw c)
      (fun o tr =>
         (peak_held [] (view snapshot_event tr) <= 1)%nat
         /\ match o with
            | Done (_, c') =>
                mVuforiaState c' = nullptr /\ held_after [] (view snapshot_event tr) = []
            | Crashed _ => True
            end).
Proof.
  intros N. induction n as [|n IH]; intros c E.
  - simpl. split; [lia | split; [exact E | reflexivity]].
  - change (renderFrames (S n) vp renderData draw c)
      with (bind (renderFrame vp renderData draw)
              (fun _ => renderFrames n vp renderData draw) c).
    unfold bind. apply post_pbind.
    eapply post_mono; [ | apply (renderFrame_post vp renderData c N)]. simpl.
    intros [[u c1] | why] tr [P H]; [ | auto].
    destruct H as [H1 H2].
    eapply post_mono; [ | apply (IH c1 H1)]. simpl.
    intros o tr2 [P2 H3]. rewrite view_app, peak_held_app, held_after_app, H2.
    split; [lia | exact H3].
Qed.

(** C8: [prepareToRender] acquires one snapshot, into the cached handle;
    [finishRender] releases the cached snapshot once if there is one, and
    clears the handle either way.  Over any number of frames bracketed this
    way, with drawing code that leaves snapshots alone (the sample's does),
    the client never holds more than one snapshot and holds none after the
    last [finishRender]. *)
Theorem one_snapshot_held :
  (forall (W : Type) (env : Env W) (w : W) (c : AppController) (vp : list Z)
          (renderData : VuRenderVideoBackgroundData),
     let r := run env (prepareToRender vp renderData c) w in
     exists a st,
       view snapshot_event (trace r) = [Acquired a st]
       /\ forall x c', res r = Done (x, c') -> mVuforiaState c' = st)
  /\ (forall (W : Type) (env : Env W) (w : W) (c : AppController),
        let r := run env (finishRender c) w in
        view snapshot_event (trace r) =
          (if is_null (mVuforiaState c) then [] else [Released (mVuforiaState c)])
        /\ exists c', res r = Done (tt, c') /\ mVuforiaState c' = nullptr)
  /\ (forall m g, snapshot_neutral (sampleDraw m g))
  /\ (forall (W : Type) (env : Env W) (w : W) (c : AppController) (n : nat) (vp : list Z)
             (renderData : VuRenderVideoBackgroundData) (draw : M unit),
        snapshot_neutral draw ->
        mVuforiaState c = nullptr ->
        let r := run env (renderFrames n vp renderData draw c) w in
        (peak_held [] (view snapshot_event (trace r)) <= 1)%nat
        /\ forall c', res r = Done (tt, c') ->
             mVuforiaState c' = nullptr
             /\ held_after [] (view snapshot_event (trace r)) = []).
Proof.
  split; [ | split; [ | split; [exact sampleDraw_neutral | ]]].
  - intros W env w c vp renderData r.
    pose proof (post_run _ _ (prepareToRender_snapshot_post vp renderData c) env w) as P.
    fold r in P. destruct P as [a [st [A H]]]. exists a, st. split; [exact A | ].
    intros x c' R. rewrite R in H. exact H.
  - intros W env w c r.
    pose proof (post_run _ _ (finishRender_snapshot_post c) env w) as P.
    fold r in P. destruct P as [A H]. split; [exact A | ].
    destruct (res r) as [[[] c'] | why]; [ | contradiction].
    exists c'. split; [reflexivity | exact H].
  - intros W env w c n vp renderData draw N E r.
    pose proof (post_run _ _ (@renderFrames_post vp renderData draw n N c E) env w) as P.
    fold r in P. destruct P as [P H]. split; [exact P | ].
    intros c' R. rewrite R in H. exact H.
Qed.

(** ** Guide views *)

(** C10: when [getModelTargetResult] returns [true] the stored guide-view
    pointer is null afterwards, and a [getModelTargetGuideView] that follows
    returns [false] without asking the engine anything and leaves its
    outputs as they were.  The guide views of the observer are queried only
    after the model target was observed with pose status NO_POSE, and a
    pointer stored by the call that was not stored before is a guide view
    whose name the engine reported equal to the active guide view name of
    that NO_POSE observation run. *)
Theorem model_target_result_clears_guide_view :
  forall (W : Type) (env : Env W) (w : W) (c : AppController) (out : matrices)
         (result : bool * matrices) (c' : AppController),
    res (run env (getModelTargetResult out c) w) = Done (result, c') ->
    (fst result = true ->
       mGuideViewModelTarget c' = nullptr
       /\ forall (W' : Type) (env' : Env W') (w' : W') (gv : GuideViewOut),
            res (run env' (getModelTargetGuideView gv c') w') = Done ((false, gv), c')
            /\ trace (run env' (getModelTargetGuideView gv c') w') = [])
    /\ ((exists p, In (GuideViewsQueried p)
                     (view guide_event (trace (run env (getModelTargetResult out c) w)))) ->
        In (ObservedPose VU_OBSERVATION_POSE_STATUS_NO_POSE)
           (view guide_event (trace (run env (getModelTargetResult out c) w))))
    /\ (forall h : handle,
          mGuideViewModelTarget c' = Some h ->
          mGuideViewModelTarget c = Some h
          \/ (In (ObservedPose VU_OBSERVATION_POSE_STATUS_NO_POSE)
                 (view guide_event (trace (run env (getModelTargetResult out c) w)))
              /\ exists name,
                   In (ActiveName (Some name))
                      (view guide_event (trace (run env (getModelTargetResult out c) w)))
                   /\ In (GuideViewName (Some h) (Some name))
                         (view guide_event (trace (run env (getModelTargetResult out c) w))))).
Proof.
  intros W env w c out result c' R.
  pose proof (post_run _ _ (getModelTargetResult_post out c) env w) as P.
  simpl in P. rewrite R in P. destruct P as [_ [_ [T [Q S]]]].
  split; [ | split; [exact Q | exact S]].
  intros E. specialize (T E). split; [exact T | ].
  intros W' env' w' gv. unfold getModelTargetGuideView. unfold_monad.
  simpl. rewrite T. simpl. split; reflexivity.
Qed.

(** ** Initialisation *)

Lemma initAR_post (javaVM : ptr) (initConfig : InitConfig) (target : Z) (f g : handle)
    (c : AppController) :
  ic_showErrorCallback initConfig = Some f ->
  ic_initDoneCallback initConfig = Some g ->
  post (initAR javaVM initConfig target c)
    (fun o tr => match o with Done _ => init_report f g tr | Crashed _ => True end).
Proof.
  intros F G. unfold initAR, initVuforiaInternal, createObservers. unfold_monad.
  destruct c, initConfig. simpl in F, G. subst.
  exec_lazy.
  all: try exact I.
  all: unfold init_report, callbacks; cbn.
  all: repeat split; intros.
  all: repeat match goal with
              | H : _ \/ _ |- _ => destruct H
              | H : False |- _ => destruct H
              end.
  all: try discriminate; try congruence.
Qed.

Lemma initErrorToString_named_distinct :
  NoDup (generic_init_error :: map initErrorToString named_error_codes).
Proof.
  assert (D : forall (s : string) (l : list string),
             forallb (fun t => negb (String.eqb s t)) l = true -> ~ In s l).
  { intros s l. induction l as [|t l IH]; simpl; [tauto | ].
    intros H [E | I]; apply andb_prop in H; destruct H as [H1 H2].
    - subst t. rewrite String.eqb_refl in H1. discriminate.
    - exact (IH H2 I). }
  vm_compute named_error_codes. cbv [map].
  repeat (apply NoDup_cons; [apply D; vm_compute; reflexivity | ]).
  apply NoDup_nil.
Qed.

Lemma initErrorToString_default (code : VuErrorCode) :
  ~ In code named_error_codes -> initErrorToString code = generic_init_error.
Proof.
  unfold named_error_codes, initErrorToString. simpl In. intros N.
  repeat match goal with
         | |- context [?a =? ?b] =>
             destruct (Z.eqb_spec a b) as [E | _]; [exfalso; apply N; rewrite E; tauto | ]
         end.
  reflexivity.
Qed.

(** C5, as the code has it, with both callbacks registered and for a call
    of [initAR] that returns: when adding the license, platform or render
    configuration fails, when engine creation fails or yields no engine, or
    when creating the image or model target observer fails, the error
    callback is the one callback invoked, once, with the message of that
    step; for a failed engine creation the message is [initErrorToString]
    of the error code, which is a message of its own for each of the
    thirteen codes the function names and the same generic message for every
    other code.  When the object observer is created, the done callback is
    the one callback invoked. *)
Theorem initAR_reports_through_callbacks :
  forall (W : Type) (env : Env W) (w : W) (c c' : AppController) (javaVM : ptr)
         (initConfig : InitConfig) (target : Z) (f g : handle),
    ic_showErrorCallback initConfig = Some f ->
    ic_initDoneCallback initConfig = Some g ->
    res (run env (initAR javaVM initConfig target c) w) = Done (tt, c') ->
    let tr := trace (run env (initAR javaVM initConfig target c) w) in
    let ev := view init_event tr in
    ((In (AddLicenseConfig VU_FAILED) ev ->
      callbacks tr =
        [ShowError f
           "Vuforia failed to initialize because the license key could not be added to the configuration"])
     /\ (In (AddPlatformConfig VU_FAILED) ev ->
         callbacks tr =
           [ShowError f
              "Vuforia failed to initialize, could not apply platform-specific configuration"])
     /\ (In (AddRenderConfig VU_FAILED) ev ->
         callbacks tr =
           [ShowError f "Vuforia failed to initialize, could not configure rendering"])
     /\ (forall engine code,
           In (EngineCreate VU_FAILED engine code) ev ->
           callbacks tr = [ShowError f (initErrorToString code)])
     /\ (forall code,
           In (EngineCreate VU_SUCCESS nullptr code) ev ->
           callbacks tr = [ShowError f "Vuforia initialization failed."])
     /\ (In (CreateImageTargetObserver VU_FAILED) ev ->
         callbacks tr = [ShowError f "Error creating image target observer"])
     /\ (In (CreateModelTargetObserver VU_FAILED) ev ->
         callbacks tr = [ShowError f "Error creating model target observer"])
     /\ (In (CreateImageTargetObserver VU_SUCCESS) ev
         \/ In (CreateModelTargetObserver VU_SUCCESS) ev ->
         callbacks tr = [InitDone g]))
    /\ NoDup (generic_init_error :: map initErrorToString named_error_codes)
    /\ (forall code : VuErrorCode,
          ~ In code named_error_codes -> initErrorToString code = generic_init_error).
Proof.
  intros W env w c c' javaVM initConfig target f g F G R tr ev.
  pose proof (post_run _ _ (@initAR_post javaVM initConfig target f g c F G) env w) as P.
  cbv beta in P. rewrite R in P.
  split; [exact P | ].
  split; [exact initErrorToString_named_distinct | exact initErrorToString_default].
Qed.


(** The flags of the controller the branches of a run were taken on. *)
Ltac flags :=
  repeat match goal with
         | H : negb ?b = _ |- _ =>
             is_var b; destruct b; simpl in H; try discriminate H; clear H
         end.

(** ** Starting the engine *)

Lemma startAR_start_post (c : AppController) :
  post (startAR c)
    (fun o tr =>
       match o with
       | Done (true, c') =>
           c' = set_mARStarted true c
           /\ exists cameraController r1 r3,
                view start_event tr =
                  [CameraControllerGot (mEngine c) VU_SUCCESS cameraController;
                   VideoModeSet cameraController (mCameraVideoMode c) r1;
                   EngineStarted (mEngine c) VU_SUCCESS;
                   FocusModeSet cameraController VU_CAMERA_FOCUS_MODE_CONTINUOUSAUTO r3]
       | Done (false, c') =>
           c' = c
           /\ (view start_event tr = []
               \/ exists cameraController r1,
                    view start_event tr =
                      [CameraControllerGot (mEngine c) VU_SUCCESS cameraController;
                       VideoModeSet cameraController (mCameraVideoMode c) r1;
                       EngineStarted (mEngine c) VU_FAILED])
       | Crashed why =>
           why = AssertionFailed
           /\ exists cameraController,
                view start_event tr =
                  [CameraControllerGot (mEngine c) VU_FAILED cameraController]
       end).
Proof.
  unfold startAR. unfold_monad. destruct c. exec.
  all: answers.
  all: simpl; split; try reflexivity; eauto 6.
Qed.

(** X1: [startAR] returns [true] exactly when it got as far as
    [vuEngineStart] and that succeeded, and only then sets [mARStarted];
    the video mode is chosen before the start and continuous autofocus
    after it, on the camera controller got from the controller's engine,
    and neither answer changes the result.  When it returns [false] the
    controller is as before and no focus mode was set.  It fails an
    assertion only when the camera controller cannot be got. *)
Theorem startAR_starts_engine :
  forall (W : Type) (env : Env W) (w : W) (c : AppController),
    let r := run env (startAR c) w in
    let ev := view start_event (trace r) in
    match res r with
    | Done (true, c') =>
        c' = set_mARStarted true c
        /\ exists cameraController r1 r3,
             ev = [CameraControllerGot (mEngine c) VU_SUCCESS cameraController;
                   VideoModeSet cameraController (mCameraVideoMode c) r1;
                   EngineStarted (mEngine c) VU_SUCCESS;
                   FocusModeSet cameraController VU_CAMERA_FOCUS_MODE_CONTINUOUSAUTO r3]
    | Done (false, c') =>
        c' = c
        /\ (ev = []
            \/ exists cameraController r1,
                 ev = [CameraControllerGot (mEngine c) VU_SUCCESS cameraController;
                       VideoModeSet cameraController (mCameraVideoMode c) r1;
                       EngineStarted (mEngine c) VU_FAILED])
    | Crashed why =>
        why = AssertionFailed
        /\ exists cameraController,
             ev = [CameraControllerGot (mEngine c) VU_FAILED cameraController]
    end.
Proof.
  intros W env w c r ev. subst ev r.
  exact (post_run _ _ (startAR_start_post c) env w).
Qed.

(** ** Camera focus *)

Lemma cameraSetFocus_post (focusMode : VuCameraFocusMode) (c : AppController) :
  post (cameraSetFocus focusMode c)
    (fun o tr => o = Done (tt, c) /\ focus_request c focusMode tr).
Proof.
  unfold cameraSetFocus, focus_request. unfold_monad. destruct c. exec.
  all: answers; flags.
  all: simpl; split; [reflexivity | ].
  all: first [left; split; reflexivity
             | right; left; split; [reflexivity | eexists; reflexivity]
             | right; right; split; [reflexivity | eexists; eexists; reflexivity]].
Qed.

(** X2: [cameraPerformAutoFocus] and [cameraRestoreAutoFocus] always
    return and leave the controller as it was.  They call nothing while AR
    is not started; otherwise they get the camera controller of the
    controller's engine anew and, if that succeeds, set one focus mode on
    it, whatever the answer: triggered autofocus for the first, continuous
    autofocus for the second. *)
Theorem camera_focus_requests :
  forall (W : Type) (env : Env W) (w : W) (c : AppController),
    let perform := run env (cameraPerformAutoFocus c) w in
    let restore := run env (cameraRestoreAutoFocus c) w in
    (res perform = Done (tt, c)
     /\ focus_request c VU_CAMERA_FOCUS_MODE_TRIGGERAUTO (trace perform))
    /\ (res restore = Done (tt, c)
        /\ focus_request c VU_CAMERA_FOCUS_MODE_CONTINUOUSAUTO (trace restore)).
Proof.
  intros W env w c perform restore. split.
  - exact (post_run _ _ (cameraSetFocus_post VU_CAMERA_FOCUS_MODE_TRIGGERAUTO c) env w).
  - exact (post_run _ _ (cameraSetFocus_post VU_CAMERA_FOCUS_MODE_CONTINUOUSAUTO c) env w).
Qed.

(** ** Rendering configuration *)

(** X3: [configureRendering] always returns.  While AR is not started it
    returns [false] and calls nothing.  It returns [false], with the
    controller as before, when the orientation cannot be converted or set.
    Otherwise it returns [true], whatever [vuRenderControllerSetRenderViewConfig]
    answers, having stored [width / height] as the display aspect ratio and
    passed the converted orientation and the resolution on. *)
Theorem configureRendering_outcome :
  forall (W : Type) (env : Env W) (w : W) (c : AppController) (width height : Z)
         (orientation : ptr),
    let r := run env (configureRendering width height orientation c) w in
    let ev := view rendering_event (trace r) in
    (mARStarted c = false -> res r = Done (false, c) /\ trace r = [])
    /\ match res r with
       | Done (true, c') =>
           c' = set_mDisplayAspectRatio (fdiv (float_of_int width) (float_of_int height)) c
           /\ exists vuOrientation r3,
                ev = [OrientationConverted (mPlatformController c) orientation VU_SUCCESS
                        vuOrientation;
                      OrientationSet (mPlatformController c) vuOrientation VU_SUCCESS;
                      RenderViewConfigSet (mRenderController c) (width, height) r3]
       | Done (false, c') =>
           c' = c
           /\ (ev = []
               \/ (exists vuOrientation,
                     ev = [OrientationConverted (mPlatformController c) orientation VU_FAILED
                             vuOrientation])
               \/ exists vuOrientation,
                    ev = [OrientationConverted (mPlatformController c) orientation VU_SUCCESS
                            vuOrientation;
                          OrientationSet (mPlatformController c) vuOrientation VU_FAILED])
       | Crashed _ => False
       end.
Proof.
  intros W env w c width height orientation r ev. subst ev r.
  apply (post_run (configureRendering width height orientation c)
           (fun o tr =>
              (mARStarted c = false -> o = Done (false, c) /\ tr = [])
              /\ match o with
                 | Done (true, c') =>
                     c' = set_mDisplayAspectRatio
                            (fdiv (float_of_int width) (float_of_int height)) c
                     /\ exists vuOrientation r3,
                          view rendering_event tr =
                            [OrientationConverted (mPlatformController c) orientation
                               VU_SUCCESS vuOrientation;
                             OrientationSet (mPlatformController c) vuOrientation VU_SUCCESS;
                             RenderViewConfigSet (mRenderController c) (width, height) r3]
                 | Done (false, c') =>
                     c' = c
                     /\ (view rendering_event tr = []
                         \/ (exists vuOrientation,
                               view rendering_event tr =
                                 [OrientationConverted (mPlatformController c) orientation
                                    VU_FAILED vuOrientation])
                         \/ exists vuOrientation,
                              view rendering_event tr =
                                [OrientationConverted (mPlatformController c) orientation
                                   VU_SUCCESS vuOrientation;
                                 OrientationSet (mPlatformController c) vuOrientation
                                   VU_FAILED])
                 | Crashed _ => False
                 end)).
  unfold configureRendering. unfold_monad. destruct c. exec.
  all: answers.
  all: simpl; split.
  all: try (intros E; first [split; reflexivity | simpl in E; subst; discriminate]).
  all: split; [reflexivity | eauto 8].
Qed.

(** ** What a prepared frame holds *)

Lemma prepareToRender_frame_post (vp : list Z) (renderData : VuRenderVideoBackgroundData)
    (c : AppController) :
  post (prepareToRender vp renderData c)
    (fun o tr =>
       match o with
       | Done (true, vp', c') =>
           view frame_event tr =
             frame_prepared c renderData (mVuforiaState c') (mCurrentRenderState c') VU_SUCCESS
           /\ vbMesh (mCurrentRenderState c') <> nullptr
           /\ vp' = viewport_of (mCurrentRenderState c') vp
       | Done (false, vp', c') =>
           mLatestDevicePoseData c' = mLatestDevicePoseData c
           /\ view device_pose_event tr = []
           /\ (vp' = vp
               \/ (view frame_event tr =
                     frame_prepared c renderData (mVuforiaState c') (mCurrentRenderState c')
                       VU_FAILED
                   /\ vbMesh (mCurrentRenderState c') <> nullptr
                   /\ vp' = viewport_of (mCurrentRenderState c') vp))
       | Crashed why => why = AssertionFailed
       end).
Proof.
  unfold prepareToRender, updateDevicePose, viewport_of, frame_prepared. unfold_monad.
  destruct c. exec.
  all: answers.
  all: repeat match goal with
              | H : negb (?b =? VU_TRUE) = false |- _ =>
                  apply negb_false_iff, Z.eqb_eq in H; try subst b
              end.
  all: simpl; try reflexivity.
  all: try (split; [reflexivity | split; [reflexivity | auto]]).
  all: try right.
  all: split; [reflexivity | split; [ | reflexivity]].
  all: intros E; rewrite E in *; discriminate.
Qed.

(** X4: when [prepareToRender] returns [true], it has acquired the latest
    state of the controller's engine, which is now the cached state, found
    that it has a camera frame, got its render state, which is now the
    cached render state and has a video background mesh, and updated the
    video background texture, with success, for that state and with the
    caller's render data, on the controller's render controller.  The
    first six entries of the caller's viewport are that render state's
    viewport followed by 0 and 1; later entries are untouched. *)
Theorem prepareToRender_hands_out_render_state :
  forall (W : Type) (env : Env W) (w : W) (c c' : AppController) (vp vp' : list Z)
         (renderData : VuRenderVideoBackgroundData),
    res (run env (prepareToRender vp renderData c) w) = Done (true, vp', c') ->
    view frame_event (trace (run env (prepareToRender vp renderData c) w)) =
      frame_prepared c renderData (mVuforiaState c') (mCurrentRenderState c') VU_SUCCESS
    /\ vbMesh (mCurrentRenderState c') <> nullptr
    /\ firstn 6 vp' =
         [v4_0 (viewport (mCurrentRenderState c')); v4_1 (viewport (mCurrentRenderState c'));
          v4_2 (viewport (mCurrentRenderState c')); v4_3 (viewport (mCurrentRenderState c'));
          0; 1]
    /\ skipn 6 vp' = skipn 6 vp.
Proof.
  intros W env w c c' vp vp' renderData R.
  pose proof (post_run _ _ (prepareToRender_frame_post vp renderData c) env w) as P.
  cbv beta in P. rewrite R in P. destruct P as [V [N ->]].
  split; [exact V | ]. split; [exact N | ]. split; reflexivity.
Qed.

(** X5: when [prepareToRender] returns [false], for whatever reason, the
    device pose was not read and the cached device pose is the one of the
    previous frame.  The caller's viewport is then untouched, except when
    it was the update of the video background texture that failed: by then
    the state was acquired and cached, its render state got and cached,
    and the viewport written. *)
Theorem prepareToRender_failure_keeps_pose :
  forall (W : Type) (env : Env W) (w : W) (c c' : AppController) (vp vp' : list Z)
         (renderData : VuRenderVideoBackgroundData),
    res (run env (prepareToRender vp renderData c) w) = Done (false, vp', c') ->
    mLatestDevicePoseData c' = mLatestDevicePoseData c
    /\ view device_pose_event (trace (run env (prepareToRender vp renderData c) w)) = []
    /\ (vp' = vp
        \/ (view frame_event (trace (run env (prepareToRender vp renderData c) w)) =
              frame_prepared c renderData (mVuforiaState c') (mCurrentRenderState c') VU_FAILED
            /\ vbMesh (mCurrentRenderState c') <> nullptr
            /\ vp' = viewport_of (mCurrentRenderState c') vp)).
Proof.
  intros W env w c c' vp vp' renderData R.
  pose proof (post_run _ _ (prepareToRender_frame_post vp renderData c) env w) as P.
  cbv beta in P. rewrite R in P. exact P.
Qed.

(** X6: [getOrigin] asks the engine nothing and leaves the controller as it
    is.  After a [prepareToRender] that returned [true] it returns [true]
    exactly when the device pose read off the acquired state in that call
    has a status other than NO_POSE, and then hands out the projection and
    view matrices of the render state got for that state in that call;
    otherwise the caller's matrices are untouched. *)
Theorem getOrigin_after_prepareToRender :
  forall (W : Type) (env : Env W) (w : W) (c c' : AppController) (vp vp' : list Z)
         (renderData : VuRenderVideoBackgroundData),
    res (run env (prepareToRender vp renderData c) w) = Done (true, vp', c') ->
    exists (d : DevicePoseData) (renderState : VuRenderState),
      device_pose_read (mVuforiaState c')
        (view device_pose_event (trace (run env (prepareToRender vp renderData c) w))) d
      /\ view frame_event (trace (run env (prepareToRender vp renderData c) w)) =
           frame_prepared c renderData (mVuforiaState c') renderState VU_SUCCESS
      /\ forall (W' : Type) (env' : Env W') (w' : W') (out : VuMatrix44F * VuMatrix44F),
           run env' (getOrigin out c') w' =
             {| res :=
                  Done (if pose_status_eqb (poseStatus d) VU_OBSERVATION_POSE_STATUS_NO_POSE
                        then (false, out)
                        else (true, (projectionMatrix renderState, viewMatrix renderState)),
                        c');
                world := w';
                trace := [] |}.
Proof.
  intros W env w c c' vp vp' renderData R.
  pose proof (post_run _ _ (prepareToRender_frame_post vp renderData c) env w) as P.
  pose proof (post_run _ _ (prepareToRender_pose_post vp renderData c) env w) as Q.
  cbv beta in P, Q. rewrite R in P, Q.
  destruct P as [V _]. destruct Q as [_ D].
  exists (mLatestDevicePoseData c'), (mCurrentRenderState c').
  split; [exact D | ]. split; [exact V | ].
  intros W' env' w' out. unfold getOrigin. unfold_monad. simpl.
  destruct (pose_status_eqb (poseStatus (mLatestDevicePoseData c'))
              VU_OBSERVATION_POSE_STATUS_NO_POSE); reflexivity.
Qed.

(** ** The search for the active guide view *)

Lemma post_conj {A : Type} (p : prog A) :
  forall Q1 Q2 : outcome A -> list entry -> Prop,
    post p Q1 -> post p Q2 -> post p (fun o tr => Q1 o tr /\ Q2 o tr).
Proof.
  induction p as [a | T c k IH | k IH | o k IH | why]; simpl; intros Q1 Q2 H1 H2; auto.
Qed.

Lemma findGuideView_search_post (guideViewList : ptr) (activeName : cstr) (n : nat) :
  forall (i : Z) (c : AppController),
    post (findGuideView guideViewList activeName n i c)
      (fun o tr =>
         match o with
         | Done (g, c') =>
             c' = c
             /\ exists examined,
                  view search_event tr = search_steps guideViewList i examined
                  /\ selects activeName n examined g
         | Crashed _ => True
         end).
Proof.
  induction n as [|n IH]; intros i c; simpl.
  - split; [reflexivity | ]. exists []. split; [reflexivity | ].
    left. split; [constructor | split; reflexivity].
  - unfold_monad. simpl. intros [r g]. simpl. destruct r; simpl; [auto | ].
    intros [r name]. simpl. destruct r; simpl; [auto | ].
    destruct name as [s|]; simpl; [ | auto].
    destruct activeName as [t|]; simpl; [ | auto].
    destruct (String.eqb s t) eqn:E; simpl.
    + split; [reflexivity | ]. apply String.eqb_eq in E. subst t.
      exists [(g, s)]. split; [reflexivity | ].
      right. exists [], s. split; [reflexivity | ]. split; [reflexivity | ].
      split; [constructor | simpl; lia].
    + eapply post_mono; [ | apply (IH (i + 1) c)]. simpl.
      intros o tr P. destruct o as [[g' c'] | ]; [ | exact I].
      destruct P as [-> [examined [V S]]]. split; [reflexivity | ].
      exists ((g, s) :: examined). split; [simpl; rewrite V; reflexivity | ].
      apply String.eqb_neq in E.
      destruct S as [[F [L N]] | [earlier [name [A [X [F L]]]]]].
      * left. split; [constructor; [simpl; congruence | exact F] | ].
        split; [simpl; congruence | exact N].
      * right. exists ((g, s) :: earlier), name. split; [exact A | ].
        split; [rewrite X; reflexivity | ].
        split; [constructor; [simpl; congruence | exact F] | simpl; lia].
Qed.

Lemma findGuideView_quiet_post (guideViewList : ptr) (activeName : cstr) (n : nat) :
  forall (i : Z) (c : AppController),
    post (findGuideView guideViewList activeName n i c)
      (fun o tr =>
         view matrix_event tr = []
         /\ view list_event tr = []
         /\ view observation_event tr = []).
Proof.
  induction n as [|n IH]; intros i c; simpl.
  - auto.
  - unfold_monad. simpl. intros [r g]. simpl. destruct r; simpl; [auto | ].
    intros [r name]. simpl. destruct r; simpl; [auto | ].
    destruct name as [s|]; simpl; [ | auto].
    destruct activeName as [t|]; simpl; [ | auto].
    destruct (String.eqb s t) eqn:E; simpl; [auto | ].
    eapply post_mono; [ | apply (IH (i + 1) c)]. simpl. auto.
Qed.

Ltac target_known :=
  repeat match goal with
         | H : negb (_ =? _) = false |- _ => apply negb_false_iff, Z.eqb_eq in H
         | H : negb (_ =? _) = true |- _ => apply negb_true_iff, Z.eqb_neq in H
         | H : (?b =? VU_TRUE) = true |- _ => apply Z.eqb_eq in H; try subst b
         | H : (_ >? 0) = true |- _ => apply Z.gtb_lt in H
         | H : (_ >? 0) = false |- _ => rewrite Z.gtb_ltb in H; apply Z.ltb_ge in H
         | H : negb (pose_status_eqb _ _) = true |- _ =>
             apply negb_true_iff, pose_status_eqb_neq in H
         | H : negb (pose_status_eqb _ _) = false |- _ =>
             apply negb_false_iff, pose_status_eqb_eq in H
         | H : pose_status_eqb _ _ = true |- _ => apply pose_status_eqb_eq in H
         | H : pose_status_eqb _ _ = false |- _ => apply pose_status_eqb_neq in H
         end.

Lemma getModelTargetResult_search_post (out : matrices) (c : AppController) :
  post (getModelTargetResult out c)
    (fun o tr =>
       match o with
       | Done (result, c') => guide_search_outcome c c' (fst result) tr
       | Crashed _ => True
       end).
Proof.
  unfold getModelTargetResult, guide_search_outcome, model_target_read, observation_read.
  unfold_monad.
  exec_to_loop.
  all: answers; target_known.
  all: simpl; auto.
  - right. do 4 eexists.
    split; [do 2 eexists; split; [eassumption | reflexivity] | ].
    split; [assumption | ]. split; [reflexivity | ]. left. split; reflexivity.
  - apply post_pbind. apply post_pbind. apply post_pbind.
    eapply post_mono;
      [ | apply (post_conj _ _ _ (findGuideView_search_post _ _ _ _ _)
                   (findGuideView_quiet_post _ _ _ _ _))].
    simpl. intros o tr [P [_ [_ Q]]]. destruct o as [[g c'] | why]; simpl; [ | exact I].
    destruct P as [-> [examined [V S]]].
    destruct g as [found|]; exec; rewrite ?app_nil_r, ?view_app, ?V, ?Q; simpl.
    all: answers; rewrite ?app_nil_r.
    all: right; do 4 eexists.
    all: split; [do 2 eexists; split; [eassumption | reflexivity] | ].
    all: split; [assumption | ]; split; [reflexivity | ].
    all: right; exists z0, examined; split; [reflexivity | exact S].
Qed.

(** X7: what [getModelTargetResult] does about the guide view.  It looks
    for one only after it read the model target observation of the cached
    state (element 0 of the observations got for that state) and found
    NO_POSE.  It then makes a guide view list and asks for the guide views
    of the object observer; if they cannot be got the stored pointer stays
    as it was.  Otherwise the guide views are examined in list order from
    index 0, at most as many as the size the engine reported, and the
    search stops at the first one whose name is the active guide view name
    of that observation: that one is stored.  If none has that name the
    stored pointer becomes null.  The result is [false] in both cases and
    the guide view list is destroyed. *)
Theorem guide_view_is_first_match :
  forall (W : Type) (env : Env W) (w : W) (c c' : AppController) (out : matrices)
         (result : bool * matrices),
    res (run env (getModelTargetResult out c) w) = Done (result, c') ->
    guide_search_outcome c c' (fst result) (trace (run env (getModelTargetResult out c) w)).
Proof.
  intros W env w c c' out result R.
  pose proof (post_run _ _ (getModelTargetResult_search_post out c) env w) as P.
  cbv beta in P. rewrite R in P. exact P.
Qed.

(** ** The target results *)

Lemma getImageTargetResult_result_post (out : matrices) (c : AppController) :
  post (getImageTargetResult out c)
    (fun o tr =>
       match o with
       | Done (true, (p, mv, smv), c') =>
           c' = c
           /\ mTarget c = IMAGE_TARGET_ID
           /\ exists observation poseInfo info,
                image_target_read c (view observation_event tr) observation poseInfo info
                /\ pi_poseStatus poseInfo <> VU_OBSERVATION_POSE_STATUS_NO_POSE
                /\ p = projectionMatrix (mCurrentRenderState c)
                /\ view matrix_event tr =
                     [Multiplied (viewMatrix (mCurrentRenderState c)) (pi_pose poseInfo) mv;
                      Scaled {| v3_0 := v2_0 (it_size info);
                                v3_1 := v2_1 (it_size info);
                                v3_2 := fmax (v2_0 (it_size info)) (v2_1 (it_size info)) |}
                        mv smv]
       | Done (false, out', c') =>
           c' = c /\ out' = out /\ view matrix_event tr = []
           /\ (mTarget c <> IMAGE_TARGET_ID -> tr = [])
       | Crashed why => why = AssertionFailed
       end).
Proof.
  unfold getImageTargetResult, image_target_read, observation_read. unfold_monad.
  destruct c. exec.
  all: answers; target_known.
  all: simpl; try reflexivity.
  all: try (split; [reflexivity | split; [reflexivity | split; [reflexivity | ]]];
            intros N; solve [reflexivity | contradiction]).
  split; [reflexivity | split; [assumption | ]].
  do 3 eexists.
  split; [do 2 eexists; split; [eassumption | reflexivity] | ].
  split; [assumption | ]. split; reflexivity.
Qed.

Lemma getModelTargetResult_result_post (out : matrices) (c : AppController) :
  post (getModelTargetResult out c)
    (fun o tr =>
       match o with
       | Done (true, (p, mv, smv), c') =>
           c' = set_mGuideViewModelTarget nullptr c
           /\ mTarget c = MODEL_TARGET_ID
           /\ exists observation poseInfo info sm tm tsm,
                model_target_read c (view observation_event tr) observation poseInfo info
                /\ pi_poseStatus poseInfo <> VU_OBSERVATION_POSE_STATUS_NO_POSE
                /\ p = projectionMatrix (mCurrentRenderState c)
                /\ view matrix_event tr =
                     [Multiplied (viewMatrix (mCurrentRenderState c)) (pi_pose poseInfo) mv;
                      ScalingMatrix (mt_size info) sm;
                      TranslationMatrix (center (mt_bbox info)) tm;
                      Multiplied tm sm tsm;
                      Multiplied mv tsm smv]
       | Done (false, out', c') =>
           out' = out /\ view matrix_event tr = []
           /\ (mTarget c <> MODEL_TARGET_ID -> tr = [] /\ c' = c)
       | Crashed _ => True
       end).
Proof.
  unfold getModelTargetResult, model_target_read, observation_read. unfold_monad.
  exec_to_loop.
  all: answers; target_known.
  all: simpl; auto.
  all: try (split; [reflexivity | split; [reflexivity | ]];
            intros N; solve [split; reflexivity | contradiction]).
  - apply post_pbind. apply post_pbind. apply post_pbind.
    eapply post_mono; [ | apply findGuideView_quiet_post]. simpl.
    intros o tr [Mx _]. destruct o as [[g c'] | why]; simpl; [ | exact I].
    destruct g as [found|]; exec; rewrite ?app_nil_r, ?view_app, ?Mx; simpl.
    all: split; [reflexivity | split; [reflexivity | ]].
    all: intros N; contradiction.
  - split; [reflexivity | split; [assumption | ]].
    do 6 eexists.
    split; [do 2 eexists; split; [eassumption | reflexivity] | ].
    split; [assumption | ]. split; reflexivity.
Qed.

(** X8: [getImageTargetResult] never changes the controller.  When it
    returns [true] the target is the image target; the image target
    observations of the cached state were got into a fresh list, whose
    element 0 is an image target observation with a pose status other than
    NO_POSE; the projection matrix handed out is the cached render
    state's, the model-view matrix is what the engine computed as the
    cached view matrix times the pose of that observation, and the scaled
    one is that matrix scaled by the width and height in the target info
    of that observation and, for z, the larger of the two.  When it returns
    [false] the caller's matrices are untouched and no matrix was computed;
    for another target nothing at all is called. *)
Theorem getImageTargetResult_matrices :
  forall (W : Type) (env : Env W) (w : W) (c : AppController) (out : matrices),
    let r := run env (getImageTargetResult out c) w in
    match res r with
    | Done (true, (p, mv, smv), c') =>
        c' = c
        /\ mTarget c = IMAGE_TARGET_ID
        /\ exists observation poseInfo info,
             image_target_read c (view observation_event (trace r)) observation poseInfo info
             /\ pi_poseStatus poseInfo <> VU_OBSERVATION_POSE_STATUS_NO_POSE
             /\ p = projectionMatrix (mCurrentRenderState c)
             /\ view matrix_event (trace r) =
                  [Multiplied (viewMatrix (mCurrentRenderState c)) (pi_pose poseInfo) mv;
                   Scaled {| v3_0 := v2_0 (it_size info);
                             v3_1 := v2_1 (it_size info);
                             v3_2 := fmax (v2_0 (it_size info)) (v2_1 (it_size info)) |}
                     mv smv]
    | Done (false, out', c') =>
        c' = c /\ out' = out /\ view matrix_event (trace r) = []
        /\ (mTarget c <> IMAGE_TARGET_ID -> trace r = [])
    | Crashed why => why = AssertionFailed
    end.
Proof.
  intros W env w c out r.
  exact (post_run _ _ (getImageTargetResult_result_post out c) env w).
Qed.

(** X9: when [getModelTargetResult] returns [true] the target is the model
    target; the model target observations of the cached state were got
    into a fresh list, whose element 0 is a model target observation with
    a pose status other than NO_POSE; the stored guide view pointer is
    cleared and nothing else of the controller changes; the projection
    matrix handed out is the cached render state's, the model-view matrix
    is the cached view matrix times the pose of that observation, and the
    scaled one is the model-view matrix times (translation to the bounding
    box centre times scaling by the target size, both from the target info
    of that observation), all as computed by the engine.  When it returns
    [false] the caller's matrices are untouched and no matrix was computed;
    for another target nothing is called and the controller is as before. *)
Theorem getModelTargetResult_matrices :
  forall (W : Type) (env : Env W) (w : W) (c : AppController) (out : matrices),
    let r := run env (getModelTargetResult out c) w in
    match res r with
    | Done (true, (p, mv, smv), c') =>
        c' = set_mGuideViewModelTarget nullptr c
        /\ mTarget c = MODEL_TARGET_ID
        /\ exists observation poseInfo info sm tm tsm,
             model_target_read c (view observation_event (trace r)) observation poseInfo info
             /\ pi_poseStatus poseInfo <> VU_OBSERVATION_POSE_STATUS_NO_POSE
             /\ p = projectionMatrix (mCurrentRenderState c)
             /\ view matrix_event (trace r) =
                  [Multiplied (viewMatrix (mCurrentRenderState c)) (pi_pose poseInfo) mv;
                   ScalingMatrix (mt_size info) sm;
                   TranslationMatrix (center (mt_bbox info)) tm;
                   Multiplied tm sm tsm;
                   Multiplied mv tsm smv]
    | Done (false, out', c') =>
        out' = out /\ view matrix_event (trace r) = []
        /\ (mTarget c <> MODEL_TARGET_ID -> trace r = [] /\ c' = c)
    | Crashed _ => True
    end.
Proof.
  intros W env w c out r.
  exact (post_run _ _ (getModelTargetResult_result_post out c) env w).
Qed.

(** X10: for one controller the image target result and the model target
    result are never both [true], whatever the engine answers; and with a
    target that is neither of the two both return [false] without a call. *)
Theorem target_results_exclusive :
  forall (W W' : Type) (env : Env W) (env' : Env W') (w : W) (w' : W') (c : AppController)
         (out out' : matrices),
    let image := run env (getImageTargetResult out c) w in
    let model := run env' (getModelTargetResult out' c) w' in
    (forall m c1 m' c2,
       res image = Done (true, m, c1) -> res model = Done (true, m', c2) -> False)
    /\ (mTarget c <> IMAGE_TARGET_ID -> mTarget c <> MODEL_TARGET_ID ->
        image = {| res := Done (false, out, c); world := w; trace := [] |}
        /\ model = {| res := Done (false, out', c); world := w'; trace := [] |}).
Proof.
  intros W W' env env' w w' c out out' image model. split.
  - intros [[p mv] smv] c1 [[p' mv'] smv'] c2 I M.
    pose proof (post_run _ _ (getImageTargetResult_result_post out c) env w) as PI.
    pose proof (post_run _ _ (getModelTargetResult_result_post out' c) env' w') as PM.
    cbv beta in PI, PM. fold image in PI. fold model in PM. rewrite I in PI. rewrite M in PM.
    destruct PI as [_ [TI _]]. destruct PM as [_ [TM _]].
    rewrite TI in TM. discriminate TM.
  - intros NI NM. subst image model.
    unfold getImageTargetResult, getModelTargetResult. unfold_monad. simpl.
    apply Z.eqb_neq in NI, NM. rewrite NI, NM. simpl. split; reflexivity.
Qed.


(** ** Lists are given back *)

Lemma prepareToRender_lists_post (vp : list Z) (renderData : VuRenderVideoBackgroundData)
    (c : AppController) :
  post (prepareToRender vp renderData c)
    (fun o tr =>
       match o with
       | Done (true, _, _) =>
           exists observationList,
             view list_event tr =
               [ObservationListCreated observationList; ObservationListDestroyed observationList]
       | Done (false, _, _) => view list_event tr = []
       | Crashed _ => True
       end).
Proof.
  unfold prepareToRender, updateDevicePose. unfold_monad. destruct c. exec.
  all: eexists; reflexivity.
Qed.

Lemma getImageTargetResult_lists_post (out : matrices) (c : AppController) :
  post (getImageTargetResult out c)
    (fun o tr =>
       match o with
       | Done _ =>
           view list_event tr = []
           \/ exists observationList,
                view list_event tr =
                  [ObservationListCreated observationList;
                   ObservationListDestroyed observationList]
       | Crashed _ => True
       end).
Proof.
  unfold getImageTargetResult. unfold_monad. destruct c. exec.
  all: right; eexists; reflexivity.
Qed.

Lemma getModelTargetResult_lists_post (out : matrices) (c : AppController) :
  post (getModelTargetResult out c)
    (fun o tr =>
       match o with
       | Done _ =>
           view list_event tr = []
           \/ (exists observationList,
                 view list_event tr =
                   [ObservationListCreated observationList;
                    ObservationListDestroyed observationList])
           \/ exists observationList guideViewList,
                view list_event tr =
                  [ObservationListCreated observationList;
                   GuideViewListCreated guideViewList;
                   GuideViewListDestroyed guideViewList;
                   ObservationListDestroyed observationList]
       | Crashed _ => True
       end).
Proof.
  unfold getModelTargetResult. unfold_monad.
  exec_to_loop.
  all: simpl; auto.
  all: try solve [right; left; eexists; reflexivity].
  all: try solve [right; right; eexists; eexists; reflexivity].
  apply post_pbind. apply post_pbind. apply post_pbind.
  eapply post_mono; [ | apply findGuideView_quiet_post]. simpl.
  intros o tr [_ [L _]]. destruct o as [[g c'] | why]; simpl; [ | exact I].
  destruct g as [found|]; exec; rewrite ?app_nil_r, ?view_app, ?L; simpl.
  all: right; right; eexists; eexists; reflexivity.
Qed.

(** X11: every list a frame's methods create is destroyed before they
    return.  [prepareToRender] creates one observation list when it gets as
    far as updating the device pose, and destroys it; [getImageTargetResult]
    and [getModelTargetResult] create at most one observation list each and
    destroy it on every path that returns, the failure paths included; and
    the guide view list [getModelTargetResult] creates on a NO_POSE
    observation is destroyed before the observation list is. *)
Theorem lists_are_destroyed :
  forall (W : Type) (env : Env W) (w : W) (c : AppController),
    (forall vp renderData,
       match res (run env (prepareToRender vp renderData c) w) with
       | Done (true, _, _) =>
           exists observationList,
             view list_event (trace (run env (prepareToRender vp renderData c) w)) =
               [ObservationListCreated observationList; ObservationListDestroyed observationList]
       | Done (false, _, _) =>
           view list_event (trace (run env (prepareToRender vp renderData c) w)) = []
       | Crashed _ => True
       end)
    /\ (forall out,
          match res (run env (getImageTargetResult out c) w) with
          | Done _ =>
              view list_event (trace (run env (getImageTargetResult out c) w)) = []
              \/ exists observationList,
                   view list_event (trace (run env (getImageTargetResult out c) w)) =
                     [ObservationListCreated observationList;
                      ObservationListDestroyed observationList]
          | Crashed _ => True
          end)
    /\ (forall out,
          match res (run env (getModelTargetResult out c) w) with
          | Done _ =>
              view list_event (trace (run env (getModelTargetResult out c) w)) = []
              \/ (exists observationList,
                    view list_event (trace (run env (getModelTargetResult out c) w)) =
                      [ObservationListCreated observationList;
                       ObservationListDestroyed observationList])
              \/ exists observationList guideViewList,
                   view list_event (trace (run env (getModelTargetResult out c) w)) =
                     [ObservationListCreated observationList;
                      GuideViewListCreated guideViewList;
                      GuideViewListDestroyed guideViewList;
                      ObservationListDestroyed observationList]
          | Crashed _ => True
          end).
Proof.
  intros W env w c. split; [ | split].
  - intros vp renderData.
    exact (post_run _ _ (prepareToRender_lists_post vp renderData c) env w).
  - intros out. exact (post_run _ _ (getImageTargetResult_lists_post out c) env w).
  - intros out. exact (post_run _ _ (getModelTargetResult_lists_post out c) env w).
Qed.

(** ** The guide view image *)

Lemma getModelTargetGuideView_result_post (out : GuideViewOut) (c : AppController) :
  post (getModelTargetGuideView out c)
    (fun o tr =>
       match o with
       | Done (true, out', c') =>
           c' = c
           /\ mGuideViewModelTarget c <> nullptr
           /\ exists intrinsics fov image identity,
                view guide_image_event tr =
                  [IntrinsicsGot (mVuforiaState c) VU_SUCCESS intrinsics;
                   FovGot intrinsics fov;
                   OutdatedAsked (mGuideViewModelTarget c) VU_SUCCESS
                     (guideViewImageHasChanged out');
                   ImageGot (mGuideViewModelTarget c) VU_SUCCESS image;
                   ImageInfoGot image VU_SUCCESS (guideViewImageInfo out')]
                /\ view matrix_event tr =
                     [Identity (gv_projectionMatrix out'); Identity identity;
                      Scaled (guideViewScale (v2_1 fov) (mDisplayAspectRatio c)
                                (guideViewImageInfo out'))
                        identity (gv_modelViewMatrix out')]
       | Done (false, out', c') =>
           c' = c
           /\ gv_projectionMatrix out' = gv_projectionMatrix out
           /\ gv_modelViewMatrix out' = gv_modelViewMatrix out
           /\ view matrix_event tr = []
           /\ (mGuideViewModelTarget c = nullptr -> tr = [] /\ out' = out)
       | Crashed _ => False
       end).
Proof.
  unfold getModelTargetGuideView, guideViewScale. unfold_monad. destruct c. exec.
  all: answers.
  all: simpl.
  all: try (split; [reflexivity | split; [reflexivity | split; [reflexivity | ]]];
            split; [reflexivity | ]; intros N; solve [split; reflexivity | discriminate N]).
  all: split; [reflexivity | split; [discriminate | ]].
  all: do 4 eexists.
  all: split; [reflexivity | ].
  all: repeat match goal with H : _ = _ |- _ => rewrite H; clear H end.
  all: reflexivity.
Qed.

(** X12: [getModelTargetGuideView] always returns and never changes the
    controller.  It returns [true] only with a stored guide view, after the
    camera intrinsics of the cached state, the outdated flag and the image
    of that guide view, and the info of that image were all got with
    success.  The image info and the flag handed out are these answers, the
    projection matrix is the engine's identity matrix, and the model-view
    matrix is an identity matrix scaled by [guideViewScale] of the vertical
    field of view of those intrinsics, the display aspect ratio stored by
    [configureRendering] and that image info.  When it returns [false]
    both matrices are as the caller passed them and no matrix was
    computed; without a stored guide view nothing is called and every
    output is untouched. *)
Theorem getModelTargetGuideView_outcome :
  forall (W : Type) (env : Env W) (w : W) (c : AppController) (out : GuideViewOut),
    let r := run env (getModelTargetGuideView out c) w in
    match res r with
    | Done (true, out', c') =>
        c' = c
        /\ mGuideViewModelTarget c <> nullptr
        /\ exists intrinsics fov image identity,
             view guide_image_event (trace r) =
               [IntrinsicsGot (mVuforiaState c) VU_SUCCESS intrinsics;
                FovGot intrinsics fov;
                OutdatedAsked (mGuideViewModelTarget c) VU_SUCCESS
                  (guideViewImageHasChanged out');
                ImageGot (mGuideViewModelTarget c) VU_SUCCESS image;
                ImageInfoGot image VU_SUCCESS (guideViewImageInfo out')]
             /\ view matrix_event (trace r) =
                  [Identity (gv_projectionMatrix out'); Identity identity;
                   Scaled (guideViewScale (v2_1 fov) (mDisplayAspectRatio c)
                             (guideViewImageInfo out'))
                     identity (gv_modelViewMatrix out')]
    | Done (false, out', c') =>
        c' = c
        /\ gv_projectionMatrix out' = gv_projectionMatrix out
        /\ gv_modelViewMatrix out' = gv_modelViewMatrix out
        /\ view matrix_event (trace r) = []
        /\ (mGuideViewModelTarget c = nullptr -> trace r = [] /\ out' = out)
    | Crashed _ => False
    end.
Proof.
  intros W env w c out r.
  exact (post_run _ _ (getModelTargetGuideView_result_post out c) env w).
Qed.

(** ** Initialisation, beyond the callbacks *)

Ltac reduce_init :=
  lazy beta iota zeta delta
    -[Z.eqb Z.gtb Z.sub Z.quot Z.add Z.to_nat String.eqb initErrorToString licenseKey
      NEAR_PLANE FAR_PLANE view callbacks calls In app filter existsb fold_left
      List.length init_outcome].

Ltac exec_init := repeat (reduce_init; intros; break); reduce_init.

Lemma initAR_outcome_post (javaVM : ptr) (initConfig : InitConfig) (target : Z)
    (c : AppController) :
  post (initAR javaVM initConfig target c)
    (fun o tr =>
       match o with
       | Done (_, c') => init_outcome javaVM initConfig target c c' tr
       | Crashed _ => True
       end).
Proof.
  unfold initAR, initVuforiaInternal, createObservers. unfold_monad.
  destruct c, initConfig.
  exec_init.
  all: try exact I.
  all: answers.
  all: unfold init_outcome, engine_made, near_far_set, device_pose_observer_made,
         target_observer_made, imageTargetConfig, modelTargetConfig, calls; cbn.
  all: repeat match goal with |- _ /\ _ => split end; intros.
  all: repeat match goal with
              | H : _ \/ _ |- _ => destruct H
              | H : False |- _ => destruct H
              end.
  all: try discriminate; try congruence.
  all: try solve [left; split; [discriminate | reflexivity] | right; eexists; reflexivity].
  all: try match goal with N : None <> nullptr |- _ => elim N; reflexivity end.
  all: try solve [split; [reflexivity | split; reflexivity]].
  all: try match goal with
           | H : DevicePoseObserverMade _ _ _ _ = DevicePoseObserverMade _ _ _ _ |- _ =>
               injection H as <- <- <-
           end.
  all: try solve [split; [discriminate | do 3 eexists; reflexivity]].
  all: try solve [split; [discriminate | ];
                  eexists; eexists {| vbRenderBackend := _; vbViewportMode := _ |}; eexists;
                  reflexivity].
  all: match goal with H : DoneCalled _ = DoneCalled _ |- _ => injection H as <- end.
  all: repeat match goal with
              | H : (_ =? _) = true |- _ => apply Z.eqb_eq in H
              | H : (_ =? _) = false |- _ => apply Z.eqb_neq in H
              end.
  all: split; [ | repeat split; try discriminate; reflexivity].
  all: eexists; eexists {| vbRenderBackend := _; vbViewportMode := _ |}; do 2 eexists.
  all: eexists [_; _]; split; [reflexivity | ].
  all: first
         [ left; split;
           [assumption | eexists (Build_VuImageTargetConfig _ _ _ _ _); reflexivity]
         | right; split;
           [assumption | eexists (Build_VuModelTargetConfig _ _ _ _ _ _); reflexivity] ].
Qed.

(** X13: the done callback is invoked only at the end of an initialisation
    in which every step succeeded, and these are the steps, in order: the
    configuration set is made; the license key, the platform configuration
    with the caller's activity and Java VM, and the render configuration
    with the caller's backend are added to it; the engine is created from
    it and the set destroyed; the render and platform controllers are got
    from that engine; the near and far planes are set on that render
    controller; the device pose observer is created on that engine with the
    default configuration; and the observer of the target is created on it:
    the image target observer with database TestDB1.xml and target
    VeneraMarker for [IMAGE_TARGET_ID], the model target observer with
    VuforiaMars_ModelTarget for every other target value, both activated.
    The controller then holds that engine, those controllers and
    observers, the target asked for and no guide view. *)
Theorem initDone_means_every_step_succeeded :
  forall (W : Type) (env : Env W) (w : W) (c c' : AppController) (javaVM : ptr)
         (initConfig : InitConfig) (target : Z) (g : handle),
    res (run env (initAR javaVM initConfig target c) w) = Done (tt, c') ->
    In (DoneCalled g) (view setup_event (trace (run env (initAR javaVM initConfig target c) w))) ->
    (exists configSet renderDefault code devicePoseDefault observerMade,
       view setup_event (trace (run env (initAR javaVM initConfig target c) w)) =
         engine_made javaVM initConfig c' configSet renderDefault code
         ++ near_far_set c' VU_SUCCESS
         ++ device_pose_observer_made c' devicePoseDefault VU_SUCCESS
         ++ observerMade
         ++ [DoneCalled g]
       /\ target_observer_made target c' VU_SUCCESS observerMade)
    /\ mInitDoneCallback c' = Some g
    /\ mEngine c' <> nullptr
    /\ mRenderController c' <> nullptr
    /\ mPlatformController c' <> nullptr
    /\ mTarget c' = target
    /\ mGuideViewModelTarget c' = nullptr.
Proof.
  intros W env w c c' javaVM initConfig target g R D.
  pose proof (post_run _ _ (initAR_outcome_post javaVM initConfig target c) env w) as P.
  cbv beta in P. rewrite R in P. destruct P as [P _]. exact (P g D).
Qed.

(** X14: three ways in which [initAR] returns without invoking any
    callback.  On a controller that already has an engine it calls nothing
    and keeps that engine.  When the near and far planes cannot be set it
    returns right after that call, with the engine created and kept.  When
    the device pose observer cannot be created it returns right after that
    call, with the engine kept and without having asked for a target
    observer. *)
Theorem initAR_returns_in_silence :
  forall (W : Type) (env : Env W) (w : W) (c c' : AppController) (javaVM : ptr)
         (initConfig : InitConfig) (target : Z),
    res (run env (initAR javaVM initConfig target c) w) = Done (tt, c') ->
    let tr := trace (run env (initAR javaVM initConfig target c) w) in
    (mEngine c <> nullptr ->
     calls tr = [] /\ view setup_event tr = [] /\ mEngine c' = mEngine c)
    /\ (forall controller nearPlane farPlane,
          In (NearFarSet controller nearPlane farPlane VU_FAILED) (view setup_event tr) ->
          mEngine c' <> nullptr
          /\ exists configSet renderDefault code,
               view setup_event tr =
                 engine_made javaVM initConfig c' configSet renderDefault code
                 ++ near_far_set c' VU_FAILED)
    /\ (forall engine config observer,
          In (DevicePoseObserverMade engine config VU_FAILED observer) (view setup_event tr) ->
          mEngine c' <> nullptr
          /\ exists configSet renderDefault code,
               view setup_event tr =
                 engine_made javaVM initConfig c' configSet renderDefault code
                 ++ near_far_set c' VU_SUCCESS
                 ++ device_pose_observer_made c' config VU_FAILED).
Proof.
  intros W env w c c' javaVM initConfig target R tr.
  pose proof (post_run _ _ (initAR_outcome_post javaVM initConfig target c) env w) as P.
  cbv beta in P. rewrite R in P. fold tr in P.
  destruct P as [_ [E [N [D _]]]].
  split; [exact E | split; [exact N | exact D]].
Qed.

(** [initAR] on a controller that has an engine: the whole run. *)
Lemma initAR_on_existing_engine :
  forall (W : Type) (env : Env W) (w : W) (c : AppController) (javaVM : ptr)
         (initConfig : InitConfig) (target : Z),
    mEngine c <> nullptr ->
    run env (initAR javaVM initConfig target c) w =
      {| res :=
           Done (tt, set_mGuideViewModelTarget nullptr
                       (set_mTarget target
                          (set_mInitDoneCallback (ic_initDoneCallback initConfig)
                             (set_mShowErrorCallback (ic_showErrorCallback initConfig)
                                (set_mVbRenderBackend (ic_vbRenderBackend initConfig) c)))));
         world := w;
         trace :=
           [EOut (OLog "AppController::initEngine");
            EOut (OLog "Failed to initialize Vuforia as a valid engine instance already exists")]
      |}.
Proof.
  intros W env w c javaVM initConfig target N.
  destruct c, initConfig. simpl in N.
  match type of N with ?e <> _ => destruct e as [engine|] end; [ | elim N; reflexivity].
  reflexivity.
Qed.

(** X15: once [initAR] has created an engine, whether or not the rest of
    the initialisation succeeded, the controller keeps it, and [initAR]
    called again creates nothing and reports nothing: it only logs.  That
    second call still replaces the render backend, the two callbacks and
    the target by the ones it was given and clears the guide view
    pointer. *)
Theorem initAR_again_only_logs :
  forall (W : Type) (env : Env W) (w : W) (c c1 : AppController) (javaVM : ptr)
         (initConfig : InitConfig) (target : Z) (configSet : ptr) (engine : handle)
         (code : VuErrorCode),
    res (run env (initAR javaVM initConfig target c) w) = Done (tt, c1) ->
    In (EngineMade configSet VU_SUCCESS (Some engine) code)
       (view setup_event (trace (run env (initAR javaVM initConfig target c) w))) ->
    mEngine c1 = Some engine
    /\ forall (W' : Type) (env' : Env W') (w' : W') (javaVM' : ptr) (initConfig' : InitConfig)
              (target' : Z),
         run env' (initAR javaVM' initConfig' target' c1) w' =
           {| res :=
                Done (tt, set_mGuideViewModelTarget nullptr
                            (set_mTarget target'
                               (set_mInitDoneCallback (ic_initDoneCallback initConfig')
                                  (set_mShowErrorCallback (ic_showErrorCallback initConfig')
                                     (set_mVbRenderBackend (ic_vbRenderBackend initConfig')
                                        c1)))));
              world := w';
              trace :=
                [EOut (OLog "AppController::initEngine");
                 EOut (OLog
                         "Failed to initialize Vuforia as a valid engine instance already exists")]
           |}.
Proof.
  intros W env w c c1 javaVM initConfig target configSet engine code R E.
  pose proof (post_run _ _ (initAR_outcome_post javaVM initConfig target c) env w) as P.
  cbv beta in P. rewrite R in P. destruct P as [_ [_ [_ [_ [K _]]]]].
  pose proof (K configSet engine code E) as M. split; [exact M | ].
  intros W' env' w' javaVM' initConfig' target'.
  apply initAR_on_existing_engine. rewrite M. discriminate.
Qed.

(** X16: [initAR] destroys the configuration set it created, once, on
    every path that returns: also when adding a configuration or creating
    the engine fails.  Only on a controller that already has an engine is
    no configuration set made. *)
Theorem initAR_destroys_config_set :
  forall (W : Type) (env : Env W) (w : W) (c c' : AppController) (javaVM : ptr)
         (initConfig : InitConfig) (target : Z),
    res (run env (initAR javaVM initConfig target c) w) = Done (tt, c') ->
    (mEngine c <> nullptr /\
     view config_set_event (trace (run env (initAR javaVM initConfig target c) w)) = [])
    \/ exists configSet,
         view config_set_event (trace (run env (initAR javaVM initConfig target c) w)) =
           [ConfigSetCreated configSet; ConfigSetDestroyed configSet].
Proof.
  intros W env w c c' javaVM initConfig target R.
  pose proof (post_run _ _ (initAR_outcome_post javaVM initConfig target c) env w) as P.
  cbv beta in P. rewrite R in P. destruct P as [_ [_ [_ [_ [_ K]]]]].
  exact K.
Qed.

(** ** From initialisation to shutdown *)

Lemma deinitAR_destroys :
  forall (W : Type) (env : Env W) (w : W) (c : AppController),
    mEngine c <> nullptr ->
    view lifecycle_event (trace (run env (deinitAR c) w)) =
      (if truthy (fst (vu env (vuEngineIsRunning (mEngine c)) w))
       then [EngineStopped (mEngine c)] else [])
      ++ destroyed_if_set (mObjectObserver c)
      ++ destroyed_if_set (mDevicePoseObserver c)
      ++ [EngineDestroyed (mEngine c)].
Proof.
  intros W env w c. destruct c. unfold deinitAR, stopAR, destroyObservers, destroyed_if_set.
  unfold_monad. simpl.
  match goal with |- (?e <> nullptr -> _) => destruct e as [e'|] end; simpl;
    [intros _ | intros N; elim N; reflexivity].
  destruct (truthy (fst (vu env (vuEngineIsRunning (Some e')) w))); simpl.
  all: repeat match goal with
              | |- context [is_null ?p] => is_var p; destruct p; simpl
              end.
  all: repeat (break; simpl).
  all: reflexivity.
Qed.

(** X17: what a successful [initAR] created is what [deinitAR] destroys.
    After an initialisation that ended with the done callback the
    controller holds the engine and the two observers that the engine
    answered to the creation calls, and [deinitAR] then stops that engine
    if it runs, destroys the object observer and the device pose observer
    (one that the engine handed out as null is skipped), and last destroys
    that engine. *)
Theorem deinitAR_destroys_what_initAR_created :
  forall (W : Type) (env : Env W) (w : W) (c c1 : AppController) (javaVM : ptr)
         (initConfig : InitConfig) (target : Z) (g : handle),
    res (run env (initAR javaVM initConfig target c) w) = Done (tt, c1) ->
    In (DoneCalled g) (view setup_event (trace (run env (initAR javaVM initConfig target c) w))) ->
    created_by_init (view setup_event (trace (run env (initAR javaVM initConfig target c) w)))
      (mEngine c1) (mDevicePoseObserver c1) (mObjectObserver c1)
    /\ mEngine c1 <> nullptr
    /\ forall (W' : Type) (env' : Env W') (w' : W'),
         view lifecycle_event (trace (run env' (deinitAR c1) w')) =
           (if truthy (fst (vu env' (vuEngineIsRunning (mEngine c1)) w'))
            then [EngineStopped (mEngine c1)] else [])
           ++ destroyed_if_set (mObjectObserver c1)
           ++ destroyed_if_set (mDevicePoseObserver c1)
           ++ [EngineDestroyed (mEngine c1)].
Proof.
  intros W env w c c1 javaVM initConfig target g R D.
  pose proof (post_run _ _ (initAR_outcome_post javaVM initConfig target c) env w) as P.
  cbv beta in P. rewrite R in P. destruct P as [P _].
  destruct (P g D) as [[configSet [renderDefault [code [d [made [V T]]]]]] [_ [E _]]].
  split; [ | split; [exact E | intros W' env' w'; apply deinitAR_destroys; exact E]].
  rewrite V. unfold created_by_init, engine_made, near_far_set, device_pose_observer_made.
  split; [exists configSet, code; simpl; auto 10 | ].
  split; [exists d; simpl; auto 20 | ].
  destruct T as [[_ [defaults ->]] | [_ [defaults ->]]].
  - left. eexists. simpl. do 13 right. left. reflexivity.
  - right. eexists. simpl. do 13 right. left. reflexivity.
Qed.

(** ** The wrapper's render loop *)

Lemma getOrigin_frame_post (out : VuMatrix44F * VuMatrix44F) (c : AppController) :
  post (getOrigin out c)
    (fun o tr =>
       view snapshot_event tr = []
       /\ match o with
          | Done (b, m, c') =>
              c' = c
              /\ (b = true ->
                  m = (projectionMatrix (mCurrentRenderState c),
                       viewMatrix (mCurrentRenderState c)))
          | Crashed _ => True
          end).
Proof.
  unfold getOrigin. unfold_monad. exec.
  split; [reflexivity | split; [reflexivity | discriminate]].
Qed.

Lemma finishRender_frame_post (c : AppController) :
  post (finishRender c)
    (fun o tr =>
       view snapshot_event tr =
         (if is_null (mVuforiaState c) then [] else [Released (mVuforiaState c)])
       /\ match o with
          | Done (_, c') =>
              mVuforiaState c' = nullptr /\ mCurrentRenderState c' = mCurrentRenderState c
          | Crashed _ => False
          end).
Proof.
  unfold finishRender. unfold_monad. destruct c. simpl.
  match goal with |- context [is_null ?s] => destruct s end; exec.
Qed.

Lemma jni_renderTrackable_post (locals : FrameLocals) (c : AppController) :
  post (jni_renderTrackable locals c)
    (fun o tr =>
       view snapshot_event tr = []
       /\ match o with
          | Done (calls, c') =>
              mVuforiaState c' = mVuforiaState c
              /\ mCurrentRenderState c' = mCurrentRenderState c
              /\ trackable_calls (mCurrentRenderState c) calls
          | Crashed _ => True
          end).
Proof.
  unfold jni_renderTrackable, trackable_calls, bind, ret.
  apply post_pbind.
  eapply post_mono;
    [ | apply (post_conj _ _ _ (getImageTargetResult_post (l_trackable locals) c)
                 (getImageTargetResult_result_post (l_trackable locals) c))].
  simpl. intros [[[b [[p mv] smv]] c1] | why] tr [[S H] R]; [subst c1 | auto].
  destruct b; simpl.
  - rewrite app_nil_r. split; [exact S | ].
    destruct R as [_ [_ [ob [pi [info [_ [_ [-> _]]]]]]]].
    split; [reflexivity | split; [reflexivity | ]]. right. left. eauto.
  - apply post_pbind.
    eapply post_mono;
      [ | apply (post_conj _ _ _ (getModelTargetResult_post (p, mv, smv) c)
                   (getModelTargetResult_result_post (p, mv, smv) c))].
    simpl. intros [[[b' [[p' mv'] smv']] c2] | why] tr2 [[S2 H2] R2];
      [ | rewrite view_app, S, S2; auto].
    destruct H2 as [E2 _].
    assert (V2 : mVuforiaState c2 = mVuforiaState c) by (rewrite E2; destruct c; reflexivity).
    assert (C2 : mCurrentRenderState c2 = mCurrentRenderState c)
      by (rewrite E2; destruct c; reflexivity).
    destruct b'; simpl.
    + rewrite app_nil_r, view_app, S, S2. split; [reflexivity | ].
      destruct R2 as [_ [_ [ob [pi [info [sm [tm [tsm [_ [_ [-> _]]]]]]]]]]].
      split; [exact V2 | split; [exact C2 | ]]. right. right. left. eauto.
    + apply post_pbind.
      eapply post_mono; [ | apply getModelTargetGuideView_post].
      simpl. intros [[[b3 g3] c3] | why] tr3 [S3 H3];
        [subst c3 | rewrite !view_app, S, S2, S3; auto].
      destruct b3; simpl; rewrite ?app_nil_r, !view_app, S, S2, S3.
      all: split; [reflexivity | split; [exact V2 | split; [exact C2 | ]]].
      * right. right. right. eauto.
      * left. reflexivity.
Qed.

Lemma post_bind {A B : Type} (m : M A) (f : A -> M B) (c : AppController)
    (Q : outcome (B * AppController) -> list entry -> Prop) :
  post (m c)
    (fun o tr =>
       match o with
       | Done (a, c1) => post (f a c1) (fun o' tr' => Q o' (tr ++ tr'))
       | Crashed why => Q (Crashed why) tr
       end) ->
  post (bind m f c) Q.
Proof.
  intros H. unfold bind. apply post_pbind. eapply post_mono; [ | exact H].
  intros [[a c1] | why] tr; auto.
Qed.

Lemma bind_get {A B : Type} (field : AppController -> A) (f : A -> M B) (c : AppController) :
  bind (get field) f c = f (field c) c.
Proof. reflexivity. Qed.

Lemma bind_ret {A B : Type} (a : A) (f : A -> M B) (c : AppController) :
  bind (ret a) f c = f a c.
Proof. reflexivity. Qed.

Lemma jni_finish_post (drawn : list RendererCall) (c : AppController) :
  post (bind finishRender (fun _ => ret (true, glClear :: drawn)) c)
    (fun o tr =>
       match o with
       | Done (b, calls, c') =>
           b = true
           /\ mVuforiaState c' = nullptr
           /\ view snapshot_event tr =
                (if is_null (mVuforiaState c) then [] else [Released (mVuforiaState c)])
           /\ calls = glClear :: drawn
           /\ mCurrentRenderState c' = mCurrentRenderState c
       | Crashed _ => True
       end).
Proof.
  apply post_bind. eapply post_mono; [ | apply finishRender_frame_post].
  cbv beta. intros [[u c'] | why] tr [V H]; [ | contradiction].
  destruct H as [H1 H2]. simpl. rewrite app_nil_r. auto.
Qed.

Lemma jni_renderFrame_post (usingARCore : bool) (accessFusionProviderPointers : M unit)
    (locals : FrameLocals) (c : AppController) :
  controller_neutral accessFusionProviderPointers ->
  mARStarted c = true ->
  post (jni_renderFrame usingARCore accessFusionProviderPointers locals c)
    (fun o tr =>
       match o with
       | Done (b, calls, c') =>
           b = true
           /\ mVuforiaState c' = nullptr
           /\ (exists a st,
                 view snapshot_event tr =
                   Acquired a st :: (if is_null st then [] else [Released st]))
           /\ (calls = [glClear] \/ drawn_frame (mCurrentRenderState c') calls)
       | Crashed _ => True
       end).
Proof.
  intros N S. unfold jni_renderFrame, isARStarted, getRenderState.
  rewrite bind_get, S. cbv beta iota delta [negb].
  apply post_bind.
  eapply post_mono;
    [ | apply (post_conj _ _ _
                 (prepareToRender_snapshot_post (l_viewport locals)
                    {| renderData := nullptr; textureData := nullptr;
                       textureUnitData := Some (l_vbTextureUnit locals) |} c)
                 (prepareToRender_frame_post (l_viewport locals)
                    {| renderData := nullptr; textureData := nullptr;
                       textureUnitData := Some (l_vbTextureUnit locals) |} c))].
  cbv beta. intros [[[ok vp'] c1] | why] tr [[a [st [A H]]] F]; [ | exact I].
  cbn [fst snd]. destruct ok.
  - destruct F as [_ [M ->]].
    apply post_bind. rewrite bind_get.
    destruct (vbMesh (mCurrentRenderState c1)) as [mesh|] eqn:E; [ | elim M; reflexivity].
    apply post_bind. eapply post_mono; [ | apply getOrigin_frame_post].
    cbv beta. intros [[[b m] c2] | why] tr2 [S2 H2]; [ | exact I].
    destruct H2 as [-> O].
    apply post_bind. eapply post_mono; [ | apply jni_renderTrackable_post].
    cbv beta. intros [[trackable c3] | why] tr3 [S3 H3]; [ | exact I].
    destruct H3 as [V3 [R3 T3]].
    apply post_bind.
    assert (X : post ((if usingARCore then accessFusionProviderPointers else ret tt) c3)
                  (fun o tr =>
                     view snapshot_event tr = []
                     /\ match o with Done (_, c') => c' = c3 | Crashed _ => True end)).
    { destruct usingARCore; [apply N | simpl; auto]. }
    eapply post_mono; [ | exact X].
    cbv beta. intros [[u c4] | why] tr4 [S4 H4]; [subst c4 | exact I].
    unfold ret at 1. cbn [post].
    eapply post_mono; [ | apply jni_finish_post].
    cbv beta. intros [[[b' calls] c5] | why] tr5; [ | auto].
    intros [B [V5 [S5 [C5 R5]]]].
    split; [exact B | split; [exact V5 | split]].
    + exists a, st. rewrite !app_nil_r, !view_app, A, S2, S3, S4, S5, V3, H. reflexivity.
    + right. rewrite R5, R3. exists mesh.
      exists (if b then [renderWorldOrigin (fst m) (snd m)] else []), trackable.
      split; [exact E | ]. split; [ | split; [ | exact T3]].
      * rewrite C5. unfold viewport_of, write_viewport. reflexivity.
      * destruct b; [right; rewrite (O eq_refl); reflexivity | left; reflexivity].
  - rewrite bind_ret.
    eapply post_mono; [ | apply jni_finish_post].
    cbv beta. intros [[[b' calls] c5] | why] tr5; [ | auto].
    intros [B [V5 [S5 [C5 R5]]]].
    split; [exact B | split; [exact V5 | split; [ | left; exact C5]]].
    exists a, st. rewrite view_app, A, S5, H. reflexivity.
Qed.

(** X18: the wrapper's [renderFrame] does nothing and returns [false]
    while AR is not started.  Once it is started, a call that returns
    returns [true], also when [prepareToRender] failed; it has asked the
    engine for the latest state once, released the state it got unless that
    is null, whether or not the acquisition succeeded, and left the cached
    state handle null. *)
Theorem jni_renderFrame_brackets_the_frame :
  forall (W : Type) (env : Env W) (w : W) (c : AppController) (usingARCore : bool)
         (accessFusionProviderPointers : M unit) (locals : FrameLocals),
    let r := run env (jni_renderFrame usingARCore accessFusionProviderPointers locals c) w in
    (mARStarted c = false ->
     r = {| res := Done (false, [], c); world := w; trace := [] |})
    /\ (mARStarted c = true ->
        controller_neutral accessFusionProviderPointers ->
        forall b calls c',
          res r = Done (b, calls, c') ->
          b = true
          /\ mVuforiaState c' = nullptr
          /\ exists a st,
               view snapshot_event (trace r) =
                 Acquired a st :: (if is_null st then [] else [Released st])).
Proof.
  intros W env w c usingARCore accessFusionProviderPointers locals r. split.
  - intros S. subst r. unfold jni_renderFrame, isARStarted.
    rewrite bind_get, S. reflexivity.
  - intros S N b calls c' R.
    pose proof (post_run _ _
                  (jni_renderFrame_post usingARCore locals c N S) env w) as P.
    cbv beta in P. fold r in P. rewrite R in P.
    destruct P as [B [V [E _]]]. auto.
Qed.

(** X19: what the wrapper's [renderFrame] draws in a call that returns,
    with AR started.  Either it only clears the buffers, as it does when
    [prepareToRender] fails; or, after clearing them, it sets the viewport
    of the cached render state and draws the video background with that
    render state's projection matrix and mesh, which is not null; then the
    world origin, if [getOrigin] gave one, with the render state's
    projection and view matrices; then at most one of the image target,
    the model target and the model target's guide view, the two targets
    with the render state's projection matrix. *)
Theorem jni_renderFrame_draws :
  forall (W : Type) (env : Env W) (w : W) (c c' : AppController) (usingARCore : bool)
         (accessFusionProviderPointers : M unit) (locals : FrameLocals) (b : bool)
         (calls : list RendererCall),
    mARStarted c = true ->
    controller_neutral accessFusionProviderPointers ->
    res (run env (jni_renderFrame usingARCore accessFusionProviderPointers locals c) w) =
      Done (b, calls, c') ->
    calls = [glClear] \/ drawn_frame (mCurrentRenderState c') calls.
Proof.
  intros W env w c c' usingARCore accessFusionProviderPointers locals b calls S N R.
  pose proof (post_run _ _
                (jni_renderFrame_post usingARCore locals c N S) env w) as P.
  cbv beta in P. rewrite R in P.
  destruct P as [_ [_ [_ D]]]. exact D.
Qed.

End Properties.

(** * The properties on concrete runs *)

Section Examples.

#[local] Existing Instance Toy.toy_float.

(** ** Start and stop *)

(** [startAR] before [initAR], [startAR] on a running engine, and [stopAR]
    on an engine that is not running. *)
Lemma startAR_stopAR_wrong_state_witness :
  (mEngine initial_controller = nullptr
   /\ res (run Toy.env (startAR initial_controller) Toy.idle) = Done (false, initial_controller)
   /\ res (run Toy.env (stopAR initial_controller) Toy.idle) = Done (false, initial_controller))
  /\ (truthy (fst (vu Toy.env (vuEngineIsRunning (mEngine (Toy.initialised MODEL_TARGET_ID)))
                      Toy.started)) = true
      /\ res (run Toy.env (startAR (Toy.initialised MODEL_TARGET_ID)) Toy.started) =
           Done (false, Toy.initialised MODEL_TARGET_ID))
  /\ (truthy (fst (vu Toy.env (vuEngineIsRunning (mEngine (Toy.initialised MODEL_TARGET_ID)))
                      Toy.idle)) = false
      /\ res (run Toy.env (stopAR (Toy.initialised MODEL_TARGET_ID)) Toy.idle) =
           Done (false, Toy.initialised MODEL_TARGET_ID)).
Proof.
  split; [ | split].
  - destruct (@startAR_stopAR_wrong_state _ _ Toy.env Toy.idle initial_controller) as [H _].
    destruct (H eq_refl) as [A B]. rewrite A, B.
    split; [reflexivity | split; reflexivity].
  - destruct (@startAR_stopAR_wrong_state _ _ Toy.env Toy.started (Toy.initialised MODEL_TARGET_ID))
      as [_ [H _]].
    split; [reflexivity | ]. rewrite H; [reflexivity | discriminate | reflexivity].
  - destruct (@startAR_stopAR_wrong_state _ _ Toy.env Toy.idle (Toy.initialised MODEL_TARGET_ID))
      as [_ [_ H]].
    split; [reflexivity | ]. rewrite H; [reflexivity | discriminate | reflexivity].
Defined.

(** [stopAR] on a running engine whose [vuEngineStop] fails: it returns
    [false], and the controller reports not started. *)
Lemma stopAR_clears_started_witness :
  truthy (fst (vu Toy.env (vuEngineIsRunning (mEngine (set_mARStarted true (Toy.initialised 1))))
                 (Toy.with_engineStop VU_FAILED Toy.started))) = true
  /\ res (run Toy.env (stopAR (set_mARStarted true (Toy.initialised 1)))
            (Toy.with_engineStop VU_FAILED Toy.started)) =
       Done (false, set_mARStarted false (set_mARStarted true (Toy.initialised 1)))
  /\ res (run Toy.env (isARStarted (set_mARStarted false (set_mARStarted true (Toy.initialised 1))))
            (Toy.with_engineStop VU_FAILED Toy.started)) =
       Done (false, set_mARStarted false (set_mARStarted true (Toy.initialised 1))).
Proof.
  assert (N : mEngine (set_mARStarted true (Toy.initialised 1)) <> nullptr) by discriminate.
  destruct (@stopAR_clears_started _ _ Toy.env (Toy.with_engineStop VU_FAILED Toy.started) _ N eq_refl)
    as [A [_ B]].
  split; [reflexivity | ]. split; [exact A | ].
  rewrite (B _ Toy.env (Toy.with_engineStop VU_FAILED Toy.started)). reflexivity.
Defined.


(** ** The relocalization timer *)

(** A first limited+relocalizing frame, at clock reading 5: the timer
    starts, the time stamp changes from 0 to 5. *)
Lemma relocalizing_timer_set_only_on_entry_witness :
  res (run Toy.env (finishRender (observe (relocalizing_frame 5) initial_controller))
         (Toy.with_clock 5 Toy.idle)) =
    Done (tt, set_mTimingRelocalizingState true
                (set_mEnteredRelocalizingState 5
                   (observe (relocalizing_frame 5) initial_controller)))
  /\ cached_relocalizing (observe (relocalizing_frame 5) initial_controller) = true
  /\ mTimingRelocalizingState (observe (relocalizing_frame 5) initial_controller) = false.
Proof.
  assert (R : res (run Toy.env (finishRender (observe (relocalizing_frame 5) initial_controller))
                     (Toy.with_clock 5 Toy.idle)) =
                Done (tt, set_mTimingRelocalizingState true
                            (set_mEnteredRelocalizingState 5
                               (observe (relocalizing_frame 5) initial_controller))))
    by reflexivity.
  split; [exact R | ].
  destruct (@relocalizing_timer_set_only_on_entry Toy.toy_float) as [_ [H _]].
  destruct (H _ Toy.env _ _ _ R) as [E _].
  apply E. vm_compute. discriminate.
Defined.

(** Relocalizing from 0 on, seen again after 16 s: the reset is invoked. *)
Lemma reset_iff_timer_exceeds_threshold_witness :
  mTimingRelocalizingState initial_controller = false
  /\ reset_at Toy.env [relocalizing_frame 0] (relocalizing_frame 16000000000)
       initial_controller Toy.idle = true.
Proof.
  split; [reflexivity | ].
  rewrite (@reset_iff_timer_exceeds_threshold _ _ Toy.env Toy.idle initial_controller
             [relocalizing_frame 0] (relocalizing_frame 16000000000) eq_refl).
  vm_compute. reflexivity.
Defined.

(** The claim as stated fails twice.  After 15.5 s of uninterrupted
    relocalizing the status has lasted longer than the threshold, and no
    reset is invoked.  And once a reset was invoked (at 16 s), relocalizing
    that goes on uninterrupted (seen at 17 s) has still lasted longer than
    the threshold, and no reset is invoked there. *)
Lemma reset_iff_continuously_relocalizing_counterexample :
  (spec_relocalizing_beyond_threshold [relocalizing_frame 0] (relocalizing_frame 15500000000)
     = true
   /\ reset_at Toy.env [relocalizing_frame 0] (relocalizing_frame 15500000000)
        initial_controller Toy.idle = false)
  /\ (spec_relocalizing_beyond_threshold
        [relocalizing_frame 0; relocalizing_frame 16000000000] (relocalizing_frame 17000000000)
        = true
      /\ reset_at Toy.env [relocalizing_frame 0; relocalizing_frame 16000000000]
           (relocalizing_frame 17000000000) initial_controller Toy.idle = false).
Proof. vm_compute. repeat split. Qed.

(** A [finishRender] 16 s after the timer started; and 30 frames per
    second for 16 s and one frame more. *)
Lemma reset_once_when_threshold_exceeded_witness :
  (resets (trace (run Toy.env
                    (finishRender
                       (set_mTimingRelocalizingState true
                          (observe (relocalizing_frame 0) initial_controller)))
                    (Toy.with_clock 16000000000 Toy.idle))) = 1%nat)
  /\ (0 < 30
      /\ fst (frames_outcome Toy.env
                (relocalizing_frames 0 30 (Z.to_nat ((MAX_RELOCALIZING_SECONDS + 1) * 30 + 1)))
                initial_controller Toy.idle) = 1%nat)
  /\ fst (frames_outcome Toy.env
            (relocalizing_frames 0 30 (Z.to_nat (MAX_RELOCALIZING_SECONDS * 30 + 1)))
            initial_controller Toy.idle) = 0%nat.
Proof.
  destruct (@reset_once_when_threshold_exceeded _ _ Toy.env (Toy.with_clock 16000000000 Toy.idle)
              (set_mTimingRelocalizingState true
                 (observe (relocalizing_frame 0) initial_controller))) as [A _].
  destruct (@reset_once_when_threshold_exceeded _ _ Toy.env Toy.idle initial_controller)
    as [_ [B C]].
  split; [ | split; [split; [reflexivity | ] | ]].
  - apply A; reflexivity.
  - apply (B 0 30); reflexivity.
  - apply (C 0 30); reflexivity.
Defined.

(** Fifteen seconds' worth of frames and one more, at 30 frames per second
    and at one: no reset, and the timer is still running. *)
Lemma reset_after_threshold_frames_counterexample :
  (fst (frames_outcome Toy.env
          (relocalizing_frames 0 30 (Z.to_nat (MAX_RELOCALIZING_SECONDS * 30 + 1)))
          initial_controller Toy.idle) = 0%nat
   /\ mTimingRelocalizingState
        (snd (frames_outcome Toy.env
                (relocalizing_frames 0 30 (Z.to_nat (MAX_RELOCALIZING_SECONDS * 30 + 1)))
                initial_controller Toy.idle)) = true)
  /\ (fst (frames_outcome Toy.env
             (relocalizing_frames 0 1 (Z.to_nat (MAX_RELOCALIZING_SECONDS * 1 + 1)))
             initial_controller Toy.idle) = 0%nat
      /\ mTimingRelocalizingState
           (snd (frames_outcome Toy.env
                   (relocalizing_frames 0 1 (Z.to_nat (MAX_RELOCALIZING_SECONDS * 1 + 1)))
                   initial_controller Toy.idle)) = true).
Proof. vm_compute. repeat split. Qed.

(** ** Shutdown *)

(** [deinitAR] before [initAR], and on a running engine with both observers. *)
Lemma deinitAR_shutdown_witness :
  (mEngine initial_controller = nullptr
   /\ res (run Toy.env (deinitAR initial_controller) Toy.idle) = Done (tt, initial_controller))
  /\ (mEngine (Toy.initialised MODEL_TARGET_ID) <> nullptr
      /\ view lifecycle_event
           (trace (run Toy.env (deinitAR (Toy.initialised MODEL_TARGET_ID)) Toy.started)) =
           [EngineStopped (Some 1); ObserverDestroyed (Some 32); ObserverDestroyed (Some 30);
            EngineDestroyed (Some 1)]).
Proof.
  split.
  - destruct (@deinitAR_shutdown _ _ Toy.env Toy.idle initial_controller) as [H _].
    split; [reflexivity | ]. rewrite (H eq_refl). reflexivity.
  - assert (N : mEngine (Toy.initialised MODEL_TARGET_ID) <> nullptr) by discriminate.
    split; [exact N | ].
    destruct (@deinitAR_shutdown _ _ Toy.env Toy.started (Toy.initialised MODEL_TARGET_ID))
      as [_ H].
    destruct (H N) as [c' [_ [_ [_ [V _]]]]]. rewrite V. reflexivity.
Defined.

(** When [vuEngineDestroy] fails, [deinitAR] returns with the engine, render
    controller and platform controller handles still set. *)
Lemma deinitAR_keeps_handles_counterexample :
  res (run Toy.env (deinitAR (Toy.initialised MODEL_TARGET_ID))
         (Toy.with_engineDestroy VU_FAILED Toy.idle)) =
    Done (tt, set_mDevicePoseObserver nullptr
                (set_mObjectObserver nullptr (Toy.initialised MODEL_TARGET_ID)))
  /\ mEngine (set_mDevicePoseObserver nullptr
                (set_mObjectObserver nullptr (Toy.initialised MODEL_TARGET_ID))) = Some 1
  /\ mRenderController
       (set_mDevicePoseObserver nullptr
          (set_mObjectObserver nullptr (Toy.initialised MODEL_TARGET_ID))) = Some 21
  /\ mPlatformController
       (set_mDevicePoseObserver nullptr
          (set_mObjectObserver nullptr (Toy.initialised MODEL_TARGET_ID))) = Some 22.
Proof. vm_compute. repeat split. Qed.

(** ** Preparing a frame *)

(** A failed acquisition, a state without camera frame, and a frame that
    is prepared: the cached state is the one acquired, 5, and the cached
    pose is the tracked pose read off it. *)
Lemma prepareToRender_fails_or_updates_pose_witness :
  (fst (fst (vu Toy.env (vuEngineAcquireLatestState (mEngine (Toy.initialised 1))
                           (mVuforiaState (Toy.initialised 1)))
               (Toy.with_acquireLatestState (VU_FAILED, nullptr) Toy.started))) = VU_FAILED
   /\ res (run Toy.env (prepareToRender [0; 0; 0; 0] Toy.vbData (Toy.initialised 1))
             (Toy.with_acquireLatestState (VU_FAILED, nullptr) Toy.started)) =
        Done (false, [0; 0; 0; 0], Toy.initialised 1))
  /\ res (run Toy.env (prepareToRender [0; 0; 0; 0] Toy.vbData (Toy.initialised 1))
            (Toy.with_hasCameraFrame VU_FALSE Toy.started)) =
       Done (false, [0; 0; 0; 0], set_mVuforiaState (Some 5) (Toy.initialised 1))
  /\ (mVuforiaState
        (snd (returned
                (res (run Toy.env (prepareToRender [0; 0; 0; 0] Toy.vbData (Toy.initialised 1))
                        Toy.started))
                (false, [], initial_controller))) = Some 5
      /\ device_pose_read (Some 5)
           (view device_pose_event
              (trace (run Toy.env (prepareToRender [0; 0; 0; 0] Toy.vbData (Toy.initialised 1))
                        Toy.started)))
           {| pose := Toy.matrix;
              poseStatus := VU_OBSERVATION_POSE_STATUS_TRACKED;
              poseStatusInfo := VU_DEVICE_POSE_OBSERVATION_STATUS_INFO_NORMAL |}).
Proof.
  split; [split; [reflexivity | ] | split].
  - destruct (@prepareToRender_fails_or_updates_pose _ _ Toy.env
                (Toy.with_acquireLatestState (VU_FAILED, nullptr) Toy.started)
                (Toy.initialised 1) [0; 0; 0; 0] Toy.vbData) as [H _].
    rewrite (H eq_refl). reflexivity.
  - destruct (@prepareToRender_fails_or_updates_pose _ _ Toy.env
                (Toy.with_hasCameraFrame VU_FALSE Toy.started)
                (Toy.initialised 1) [0; 0; 0; 0] Toy.vbData) as [_ [H _]].
    rewrite H; [reflexivity | reflexivity | discriminate].
  - destruct (@prepareToRender_fails_or_updates_pose _ _ Toy.env Toy.started
                (Toy.initialised 1) [0; 0; 0; 0] Toy.vbData) as [_ [_ H]].
    exact (H (snd (fst (returned
                          (res (run Toy.env
                                  (prepareToRender [0; 0; 0; 0] Toy.vbData (Toy.initialised 1))
                                  Toy.started))
                          (false, [], initial_controller))))
             (snd (returned
                     (res (run Toy.env
                             (prepareToRender [0; 0; 0; 0] Toy.vbData (Toy.initialised 1))
                             Toy.started))
                     (false, [], initial_controller)))
             eq_refl).
Defined.

(** ** State snapshots *)

(** Three frames of the sample's render loop. *)
Lemma one_snapshot_held_witness :
  mVuforiaState (Toy.initialised 1) = nullptr
  /\ Nat.le
       (peak_held []
          (view snapshot_event
             (trace (run Toy.env
                       (renderFrames 3 [0; 0; 0; 0] Toy.vbData
                          (sampleDraw Toy.matrix Toy.guideView) (Toy.initialised 1))
                       Toy.started))))
       1
  /\ held_after []
       (view snapshot_event
          (trace (run Toy.env
                    (renderFrames 3 [0; 0; 0; 0] Toy.vbData
                       (sampleDraw Toy.matrix Toy.guideView) (Toy.initialised 1))
                    Toy.started))) = [].
Proof.
  destruct (@one_snapshot_held Toy.toy_float) as [_ [_ [N H]]].
  destruct (H _ Toy.env Toy.started (Toy.initialised 1) 3%nat [0; 0; 0; 0] Toy.vbData
              (sampleDraw Toy.matrix Toy.guideView) (N Toy.matrix Toy.guideView) eq_refl)
    as [P Q].
  split; [reflexivity | ]. split; [exact P | ].
  apply (Q (snd (returned
                   (res (run Toy.env
                           (renderFrames 3 [0; 0; 0; 0] Toy.vbData
                              (sampleDraw Toy.matrix Toy.guideView) (Toy.initialised 1))
                           Toy.started))
                   (tt, initial_controller)))).
  vm_compute. reflexivity.
Defined.

(** ** Guide views *)

(** A tracked model target with a guide view stored: the call returns
    [true], the pointer is cleared and [getModelTargetGuideView] returns
    [false].  A model target observed with NO_POSE: the guide view named
    like the active one, 72, is stored. *)
Lemma model_target_result_clears_guide_view_witness :
  res (run Toy.env
         (getModelTargetResult (Toy.matrix, Toy.matrix, Toy.matrix)
            (set_mGuideViewModelTarget (Some 72) (Toy.initialised 1)))
         Toy.started) =
    Done (true, (zero_matrix, Toy.matrix, Toy.matrix), Toy.initialised 1)
  /\ mGuideViewModelTarget (Toy.initialised 1) = nullptr
  /\ res (run Toy.env (getModelTargetGuideView Toy.guideView (Toy.initialised 1)) Toy.started) =
       Done (false, Toy.guideView, Toy.initialised 1)
  /\ mGuideViewModelTarget
       (snd (returned
               (res (run Toy.env
                       (getModelTargetResult (Toy.matrix, Toy.matrix, Toy.matrix)
                          (Toy.initialised 1))
                       (Toy.with_observedPose VU_OBSERVATION_POSE_STATUS_NO_POSE Toy.started)))
               (false, (Toy.matrix, Toy.matrix, Toy.matrix), initial_controller))) = Some 72.
Proof.
  assert (R : res (run Toy.env
                     (getModelTargetResult (Toy.matrix, Toy.matrix, Toy.matrix)
                        (set_mGuideViewModelTarget (Some 72) (Toy.initialised 1)))
                     Toy.started) =
                Done (true, (zero_matrix, Toy.matrix, Toy.matrix), Toy.initialised 1))
    by (vm_compute; reflexivity).
  destruct (@model_target_result_clears_guide_view _ _ Toy.env Toy.started _ _ _ _ R)
    as [H _].
  destruct (H eq_refl) as [N G].
  split; [exact R | ]. split; [exact N | ]. split; [apply (G _ Toy.env Toy.started) | ].
  vm_compute. reflexivity.
Defined.

(** ** Initialisation *)

(** An engine creation that fails for a missing license key, and an
    initialisation that succeeds. *)
Lemma initAR_reports_through_callbacks_witness :
  callbacks
    (trace (run Toy.env (initAR nullptr Toy.initConfig IMAGE_TARGET_ID initial_controller)
              (Toy.with_engineCreate
                 (VU_FAILED, nullptr, VU_ENGINE_CREATION_ERROR_LICENSE_CONFIG_MISSING_KEY)
                 Toy.idle))) =
    [ShowError 3 "Vuforia failed to initialize because the license key is missing."]
  /\ res (run Toy.env (initAR nullptr Toy.initConfig IMAGE_TARGET_ID initial_controller)
            Toy.idle) = Done (tt, Toy.initialised IMAGE_TARGET_ID)
  /\ callbacks
       (trace (run Toy.env (initAR nullptr Toy.initConfig IMAGE_TARGET_ID initial_controller)
                 Toy.idle)) = [InitDone 2].
Proof.
  assert (F : res (run Toy.env
                     (initAR nullptr Toy.initConfig IMAGE_TARGET_ID initial_controller)
                     (Toy.with_engineCreate
                        (VU_FAILED, nullptr, VU_ENGINE_CREATION_ERROR_LICENSE_CONFIG_MISSING_KEY)
                        Toy.idle)) =
                Done (tt,
                      snd (returned
                             (res (run Toy.env
                                     (initAR nullptr Toy.initConfig IMAGE_TARGET_ID
                                        initial_controller)
                                     (Toy.with_engineCreate
                                        (VU_FAILED, nullptr,
                                         VU_ENGINE_CREATION_ERROR_LICENSE_CONFIG_MISSING_KEY)
                                        Toy.idle)))
                             (tt, initial_controller))))
    by (vm_compute; reflexivity).
  assert (S : res (run Toy.env
                     (initAR nullptr Toy.initConfig IMAGE_TARGET_ID initial_controller)
                     Toy.idle) = Done (tt, Toy.initialised IMAGE_TARGET_ID))
    by (vm_compute; reflexivity).
  split; [ | split; [exact S | ]].
  - destruct (@initAR_reports_through_callbacks _ _ Toy.env _ _ _ nullptr Toy.initConfig
                IMAGE_TARGET_ID 3 2 eq_refl eq_refl F) as [[_ [_ [_ [H _]]]] _].
    rewrite (H nullptr VU_ENGINE_CREATION_ERROR_LICENSE_CONFIG_MISSING_KEY).
    + vm_compute. reflexivity.
    + vm_compute. tauto.
  - destruct (@initAR_reports_through_callbacks _ _ Toy.env _ _ _ nullptr Toy.initConfig
                IMAGE_TARGET_ID 3 2 eq_refl eq_refl S) as [[_ [_ [_ [_ [_ [_ [_ H]]]]]]] _].
    apply H. left. vm_compute. tauto.
Defined.

(** Two different error codes of engine creation, an invalid activity and
    an invalid Java VM, are reported with the same message. *)
Lemma initAR_same_message_for_distinct_codes_counterexample :
  VU_ENGINE_CREATION_ERROR_PLATFORM_ANDROID_CONFIG_INVALID_ACTIVITY
    <> VU_ENGINE_CREATION_ERROR_PLATFORM_ANDROID_CONFIG_INVALID_JAVA_VM
  /\ callbacks
       (trace (run Toy.env (initAR nullptr Toy.initConfig IMAGE_TARGET_ID initial_controller)
                 (Toy.with_engineCreate
                    (VU_FAILED, nullptr,
                     VU_ENGINE_CREATION_ERROR_PLATFORM_ANDROID_CONFIG_INVALID_ACTIVITY)
                    Toy.idle))) =
       [ShowError 3 "Vuforia initialization failed"]
  /\ callbacks
       (trace (run Toy.env (initAR nullptr Toy.initConfig IMAGE_TARGET_ID initial_controller)
                 (Toy.with_engineCreate
                    (VU_FAILED, nullptr,
                     VU_ENGINE_CREATION_ERROR_PLATFORM_ANDROID_CONFIG_INVALID_JAVA_VM)
                    Toy.idle))) =
       [ShowError 3 "Vuforia initialization failed"].
Proof. split; [discriminate | split; vm_compute; reflexivity]. Qed.
(** ** A prepared frame *)

(** A frame that is prepared on the toy engine: state 5 is acquired and
    cached, its render state got and cached, and the viewport written is
    that render state's, 1080 by 1920; the seventh entry is the caller's. *)
Lemma prepareToRender_hands_out_render_state_witness :
  res (run Toy.env (prepareToRender [9; 9; 9; 9; 9; 9; 9] Toy.vbData (Toy.initialised 1))
         Toy.started) =
    Done (true, [0; 0; 1080; 1920; 0; 1; 9],
          set_mLatestDevicePoseData
            {| pose := Toy.matrix;
               poseStatus := VU_OBSERVATION_POSE_STATUS_TRACKED;
               poseStatusInfo := VU_DEVICE_POSE_OBSERVATION_STATUS_INFO_NORMAL |}
            (set_mCurrentRenderState (Toy.renderState Toy.started)
               (set_mVuforiaState (Some 5) (Toy.initialised 1))))
  /\ view frame_event
       (trace (run Toy.env
                 (prepareToRender [9; 9; 9; 9; 9; 9; 9] Toy.vbData (Toy.initialised 1))
                 Toy.started)) =
       frame_prepared (Toy.initialised 1) Toy.vbData (Some 5) (Toy.renderState Toy.started)
         VU_SUCCESS.
Proof.
  assert (R : res (run Toy.env
                     (prepareToRender [9; 9; 9; 9; 9; 9; 9] Toy.vbData (Toy.initialised 1))
                     Toy.started) =
                Done (true, [0; 0; 1080; 1920; 0; 1; 9],
                      set_mLatestDevicePoseData
                        {| pose := Toy.matrix;
                           poseStatus := VU_OBSERVATION_POSE_STATUS_TRACKED;
                           poseStatusInfo := VU_DEVICE_POSE_OBSERVATION_STATUS_INFO_NORMAL |}
                        (set_mCurrentRenderState (Toy.renderState Toy.started)
                           (set_mVuforiaState (Some 5) (Toy.initialised 1)))))
    by (vm_compute; reflexivity).
  split; [exact R | ].
  exact (proj1 (@prepareToRender_hands_out_render_state _ _ Toy.env Toy.started
                  (Toy.initialised 1) _ [9; 9; 9; 9; 9; 9; 9] _ Toy.vbData R)).
Defined.

(** A state without camera frame: the frame is not prepared, the device
    pose is not read, and the cached pose stays. *)
Lemma prepareToRender_failure_keeps_pose_witness :
  res (run Toy.env (prepareToRender [9; 9; 9; 9; 9; 9; 9] Toy.vbData (Toy.initialised 1))
         (Toy.with_hasCameraFrame VU_FALSE Toy.started)) =
    Done (false, [9; 9; 9; 9; 9; 9; 9], set_mVuforiaState (Some 5) (Toy.initialised 1))
  /\ mLatestDevicePoseData (set_mVuforiaState (Some 5) (Toy.initialised 1)) =
       mLatestDevicePoseData (Toy.initialised 1)
  /\ view device_pose_event
       (trace (run Toy.env
                 (prepareToRender [9; 9; 9; 9; 9; 9; 9] Toy.vbData (Toy.initialised 1))
                 (Toy.with_hasCameraFrame VU_FALSE Toy.started))) = [].
Proof.
  assert (R : res (run Toy.env
                     (prepareToRender [9; 9; 9; 9; 9; 9; 9] Toy.vbData (Toy.initialised 1))
                     (Toy.with_hasCameraFrame VU_FALSE Toy.started)) =
                Done (false, [9; 9; 9; 9; 9; 9; 9],
                      set_mVuforiaState (Some 5) (Toy.initialised 1)))
    by (vm_compute; reflexivity).
  split; [exact R | ].
  destruct (@prepareToRender_failure_keeps_pose _ _ Toy.env
              (Toy.with_hasCameraFrame VU_FALSE Toy.started)
              (Toy.initialised 1) _ [9; 9; 9; 9; 9; 9; 9] _ Toy.vbData R) as [P [D _]].
  split; [exact P | exact D].
Defined.

(** After the prepared frame of the toy engine, whose device pose is
    tracked, [getOrigin] hands out the matrices of the render state. *)
Lemma getOrigin_after_prepareToRender_witness :
  res (run Toy.env (prepareToRender [9; 9; 9; 9; 9; 9; 9] Toy.vbData (Toy.initialised 1))
         Toy.started) =
    Done (true, [0; 0; 1080; 1920; 0; 1; 9],
          set_mLatestDevicePoseData
            {| pose := Toy.matrix;
               poseStatus := VU_OBSERVATION_POSE_STATUS_TRACKED;
               poseStatusInfo := VU_DEVICE_POSE_OBSERVATION_STATUS_INFO_NORMAL |}
            (set_mCurrentRenderState (Toy.renderState Toy.started)
               (set_mVuforiaState (Some 5) (Toy.initialised 1))))
  /\ exists (d : DevicePoseData) (renderState : VuRenderState),
       device_pose_read (Some 5)
         (view device_pose_event
            (trace (run Toy.env
                      (prepareToRender [9; 9; 9; 9; 9; 9; 9] Toy.vbData (Toy.initialised 1))
                      Toy.started))) d
       /\ view frame_event
            (trace (run Toy.env
                      (prepareToRender [9; 9; 9; 9; 9; 9; 9] Toy.vbData (Toy.initialised 1))
                      Toy.started)) =
            frame_prepared (Toy.initialised 1) Toy.vbData (Some 5) renderState VU_SUCCESS
       /\ res (run Toy.env
                 (getOrigin (Toy.matrix, Toy.matrix)
                    (set_mLatestDevicePoseData
                       {| pose := Toy.matrix;
                          poseStatus := VU_OBSERVATION_POSE_STATUS_TRACKED;
                          poseStatusInfo := VU_DEVICE_POSE_OBSERVATION_STATUS_INFO_NORMAL |}
                       (set_mCurrentRenderState (Toy.renderState Toy.started)
                          (set_mVuforiaState (Some 5) (Toy.initialised 1)))))
                 Toy.started) =
            Done (if pose_status_eqb (poseStatus d) VU_OBSERVATION_POSE_STATUS_NO_POSE
                  then (false, (Toy.matrix, Toy.matrix))
                  else (true, (projectionMatrix renderState, viewMatrix renderState)),
                  set_mLatestDevicePoseData
                    {| pose := Toy.matrix;
                       poseStatus := VU_OBSERVATION_POSE_STATUS_TRACKED;
                       poseStatusInfo := VU_DEVICE_POSE_OBSERVATION_STATUS_INFO_NORMAL |}
                    (set_mCurrentRenderState (Toy.renderState Toy.started)
                       (set_mVuforiaState (Some 5) (Toy.initialised 1)))).
Proof.
  assert (R : res (run Toy.env
                     (prepareToRender [9; 9; 9; 9; 9; 9; 9] Toy.vbData (Toy.initialised 1))
                     Toy.started) =
                Done (true, [0; 0; 1080; 1920; 0; 1; 9],
                      set_mLatestDevicePoseData
                        {| pose := Toy.matrix;
                           poseStatus := VU_OBSERVATION_POSE_STATUS_TRACKED;
                           poseStatusInfo := VU_DEVICE_POSE_OBSERVATION_STATUS_INFO_NORMAL |}
                        (set_mCurrentRenderState (Toy.renderState Toy.started)
                           (set_mVuforiaState (Some 5) (Toy.initialised 1)))))
    by (vm_compute; reflexivity).
  split; [exact R | ].
  destruct (@getOrigin_after_prepareToRender _ _ Toy.env Toy.started
              (Toy.initialised 1) _ [9; 9; 9; 9; 9; 9; 9] _ Toy.vbData R)
    as [d [renderState [D [V G]]]].
  exists d, renderState. split; [exact D | ]. split; [exact V | ].
  rewrite (G _ Toy.env Toy.started (Toy.matrix, Toy.matrix)). reflexivity.
Defined.

(** ** Guide view search *)

(** The model target is observed with NO_POSE and the active guide view is
    the second of two: both are examined and the second is stored. *)
Lemma guide_view_is_first_match_witness :
  res (run Toy.env (getModelTargetResult (Toy.matrix, Toy.matrix, Toy.matrix) (Toy.initialised 1))
         (Toy.with_observedPose VU_OBSERVATION_POSE_STATUS_NO_POSE Toy.started)) =
    Done (false, (Toy.matrix, Toy.matrix, Toy.matrix),
          set_mGuideViewModelTarget (Some 72) (Toy.initialised 1))
  /\ guide_search_outcome (Toy.initialised 1)
       (set_mGuideViewModelTarget (Some 72) (Toy.initialised 1)) false
       (trace (run Toy.env
                 (getModelTargetResult (Toy.matrix, Toy.matrix, Toy.matrix) (Toy.initialised 1))
                 (Toy.with_observedPose VU_OBSERVATION_POSE_STATUS_NO_POSE Toy.started)))
  /\ view search_event
       (trace (run Toy.env
                 (getModelTargetResult (Toy.matrix, Toy.matrix, Toy.matrix) (Toy.initialised 1))
                 (Toy.with_observedPose VU_OBSERVATION_POSE_STATUS_NO_POSE Toy.started))) =
       [GuideViewListMade VU_SUCCESS (Some 70);
        GuideViewsGot (Some 32) (Some 70) VU_SUCCESS;
        GuideViewListSize (Some 70) VU_SUCCESS 2]
       ++ search_steps (Some 70) 0 [(Some 71, "Front"); (Some 72, "Side")]
       ++ [GuideViewListGone (Some 70) VU_SUCCESS].
Proof.
  assert (R : res (run Toy.env
                     (getModelTargetResult (Toy.matrix, Toy.matrix, Toy.matrix)
                        (Toy.initialised 1))
                     (Toy.with_observedPose VU_OBSERVATION_POSE_STATUS_NO_POSE Toy.started)) =
                Done (false, (Toy.matrix, Toy.matrix, Toy.matrix),
                      set_mGuideViewModelTarget (Some 72) (Toy.initialised 1)))
    by (vm_compute; reflexivity).
  split; [exact R | ]. split; [ | vm_compute; reflexivity].
  exact (@guide_view_is_first_match _ _ Toy.env
           (Toy.with_observedPose VU_OBSERVATION_POSE_STATUS_NO_POSE Toy.started)
           (Toy.initialised 1) _ (Toy.matrix, Toy.matrix, Toy.matrix) _ R).
Defined.

(** ** Initialisation *)

(** A successful initialisation for the image target on the toy engine. *)
Lemma initDone_means_every_step_succeeded_witness :
  res (run Toy.env (initAR (Some 8) Toy.initConfig IMAGE_TARGET_ID initial_controller)
         Toy.idle) = Done (tt, Toy.initialised IMAGE_TARGET_ID)
  /\ In (DoneCalled 2)
        (view setup_event
           (trace (run Toy.env
                     (initAR (Some 8) Toy.initConfig IMAGE_TARGET_ID initial_controller)
                     Toy.idle)))
  /\ exists configSet renderDefault code devicePoseDefault observerMade,
       view setup_event
         (trace (run Toy.env
                   (initAR (Some 8) Toy.initConfig IMAGE_TARGET_ID initial_controller)
                   Toy.idle)) =
         engine_made (Some 8) Toy.initConfig (Toy.initialised IMAGE_TARGET_ID) configSet
           renderDefault code
         ++ near_far_set (Toy.initialised IMAGE_TARGET_ID) VU_SUCCESS
         ++ device_pose_observer_made (Toy.initialised IMAGE_TARGET_ID) devicePoseDefault
              VU_SUCCESS
         ++ observerMade
         ++ [DoneCalled 2]
       /\ target_observer_made IMAGE_TARGET_ID (Toy.initialised IMAGE_TARGET_ID) VU_SUCCESS
            observerMade.
Proof.
  assert (R : res (run Toy.env
                     (initAR (Some 8) Toy.initConfig IMAGE_TARGET_ID initial_controller)
                     Toy.idle) = Done (tt, Toy.initialised IMAGE_TARGET_ID))
    by (vm_compute; reflexivity).
  assert (D : In (DoneCalled 2)
                (view setup_event
                   (trace (run Toy.env
                             (initAR (Some 8) Toy.initConfig IMAGE_TARGET_ID
                                initial_controller)
                             Toy.idle))))
    by (vm_compute; tauto).
  split; [exact R | ]. split; [exact D | ].
  exact (proj1 (@initDone_means_every_step_succeeded _ _ Toy.env Toy.idle initial_controller
                  _ (Some 8) Toy.initConfig IMAGE_TARGET_ID 2 R D)).
Defined.

(** The near and far planes cannot be set: [initAR] returns after that
    call, in silence, and keeps the engine. *)
Lemma initAR_returns_in_silence_witness :
  res (run Toy.env (initAR (Some 8) Toy.initConfig IMAGE_TARGET_ID initial_controller)
         (Toy.with_setNearFar VU_FAILED Toy.idle)) =
    Done (tt,
          set_mTarget IMAGE_TARGET_ID
            (set_mVbRenderBackend VU_RENDER_VB_BACKEND_GLES3
               (set_mPlatformController (Some 22)
                  (set_mRenderController (Some 21)
                     (set_mEngine (Some 1)
                        (set_mInitDoneCallback (Some 2)
                           (set_mShowErrorCallback (Some 3) initial_controller)))))))
  /\ exists configSet renderDefault code,
       view setup_event
         (trace (run Toy.env
                   (initAR (Some 8) Toy.initConfig IMAGE_TARGET_ID initial_controller)
                   (Toy.with_setNearFar VU_FAILED Toy.idle))) =
         engine_made (Some 8) Toy.initConfig
           (set_mTarget IMAGE_TARGET_ID
              (set_mVbRenderBackend VU_RENDER_VB_BACKEND_GLES3
                 (set_mPlatformController (Some 22)
                    (set_mRenderController (Some 21)
                       (set_mEngine (Some 1)
                          (set_mInitDoneCallback (Some 2)
                             (set_mShowErrorCallback (Some 3) initial_controller)))))))
           configSet renderDefault code
         ++ near_far_set
              (set_mTarget IMAGE_TARGET_ID
                 (set_mVbRenderBackend VU_RENDER_VB_BACKEND_GLES3
                    (set_mPlatformController (Some 22)
                       (set_mRenderController (Some 21)
                          (set_mEngine (Some 1)
                             (set_mInitDoneCallback (Some 2)
                                (set_mShowErrorCallback (Some 3) initial_controller)))))))
              VU_FAILED.
Proof.
  assert (R : res (run Toy.env
                     (initAR (Some 8) Toy.initConfig IMAGE_TARGET_ID initial_controller)
                     (Toy.with_setNearFar VU_FAILED Toy.idle)) =
                Done (tt,
                      set_mTarget IMAGE_TARGET_ID
                        (set_mVbRenderBackend VU_RENDER_VB_BACKEND_GLES3
                           (set_mPlatformController (Some 22)
                              (set_mRenderController (Some 21)
                                 (set_mEngine (Some 1)
                                    (set_mInitDoneCallback (Some 2)
                                       (set_mShowErrorCallback (Some 3)
                                          initial_controller))))))))
    by (vm_compute; reflexivity).
  assert (N : In (NearFarSet (Some 21) NEAR_PLANE FAR_PLANE VU_FAILED)
                (view setup_event
                   (trace (run Toy.env
                             (initAR (Some 8) Toy.initConfig IMAGE_TARGET_ID
                                initial_controller)
                             (Toy.with_setNearFar VU_FAILED Toy.idle)))))
    by (vm_compute; tauto).
  split; [exact R | ].
  destruct (@initAR_returns_in_silence _ _ Toy.env (Toy.with_setNearFar VU_FAILED Toy.idle)
              initial_controller _ (Some 8) Toy.initConfig IMAGE_TARGET_ID R) as [_ [H _]].
  exact (proj2 (H (Some 21) NEAR_PLANE FAR_PLANE N)).
Defined.

(** After the successful initialisation, a second [initAR], for the model
    target, only logs and keeps engine 1. *)
Lemma initAR_again_only_logs_witness :
  res (run Toy.env (initAR (Some 8) Toy.initConfig IMAGE_TARGET_ID initial_controller)
         Toy.idle) = Done (tt, Toy.initialised IMAGE_TARGET_ID)
  /\ In (EngineMade (Some 10) VU_SUCCESS (Some 1) VU_ENGINE_CREATION_ERROR_NONE)
        (view setup_event
           (trace (run Toy.env
                     (initAR (Some 8) Toy.initConfig IMAGE_TARGET_ID initial_controller)
                     Toy.idle)))
  /\ mEngine (Toy.initialised IMAGE_TARGET_ID) = Some 1
  /\ trace (run Toy.env
              (initAR (Some 8) Toy.initConfig MODEL_TARGET_ID
                 (Toy.initialised IMAGE_TARGET_ID))
              Toy.idle) =
       [EOut (OLog "AppController::initEngine");
        EOut (OLog "Failed to initialize Vuforia as a valid engine instance already exists")].
Proof.
  assert (R : res (run Toy.env
                     (initAR (Some 8) Toy.initConfig IMAGE_TARGET_ID initial_controller)
                     Toy.idle) = Done (tt, Toy.initialised IMAGE_TARGET_ID))
    by (vm_compute; reflexivity).
  assert (E : In (EngineMade (Some 10) VU_SUCCESS (Some 1) VU_ENGINE_CREATION_ERROR_NONE)
                (view setup_event
                   (trace (run Toy.env
                             (initAR (Some 8) Toy.initConfig IMAGE_TARGET_ID
                                initial_controller)
                             Toy.idle))))
    by (vm_compute; tauto).
  split; [exact R | ]. split; [exact E | ].
  destruct (@initAR_again_only_logs _ _ Toy.env Toy.idle initial_controller _ (Some 8)
              Toy.initConfig IMAGE_TARGET_ID (Some 10) 1 VU_ENGINE_CREATION_ERROR_NONE R E)
    as [M H].
  split; [exact M | ].
  rewrite (H _ Toy.env Toy.idle (Some 8) Toy.initConfig MODEL_TARGET_ID). reflexivity.
Defined.

(** The configuration set of the toy engine, 10, is made and destroyed
    also when the engine cannot be created. *)
Lemma initAR_destroys_config_set_witness :
  res (run Toy.env (initAR (Some 8) Toy.initConfig IMAGE_TARGET_ID initial_controller)
         (Toy.with_engineCreate
            (VU_FAILED, nullptr, VU_ENGINE_CREATION_ERROR_LICENSE_CONFIG_MISSING_KEY)
            Toy.idle)) =
    Done (tt,
          set_mTarget IMAGE_TARGET_ID
            (set_mVbRenderBackend VU_RENDER_VB_BACKEND_GLES3
               (set_mInitDoneCallback (Some 2)
                  (set_mShowErrorCallback (Some 3) initial_controller))))
  /\ ((mEngine initial_controller <> nullptr
       /\ view config_set_event
            (trace (run Toy.env
                      (initAR (Some 8) Toy.initConfig IMAGE_TARGET_ID initial_controller)
                      (Toy.with_engineCreate
                         (VU_FAILED, nullptr,
                          VU_ENGINE_CREATION_ERROR_LICENSE_CONFIG_MISSING_KEY)
                         Toy.idle))) = [])
      \/ exists configSet,
           view config_set_event
             (trace (run Toy.env
                       (initAR (Some 8) Toy.initConfig IMAGE_TARGET_ID initial_controller)
                       (Toy.with_engineCreate
                          (VU_FAILED, nullptr,
                           VU_ENGINE_CREATION_ERROR_LICENSE_CONFIG_MISSING_KEY)
                          Toy.idle))) =
             [ConfigSetCreated configSet; ConfigSetDestroyed configSet]).
Proof.
  assert (R : res (run Toy.env
                     (initAR (Some 8) Toy.initConfig IMAGE_TARGET_ID initial_controller)
                     (Toy.with_engineCreate
                        (VU_FAILED, nullptr, VU_ENGINE_CREATION_ERROR_LICENSE_CONFIG_MISSING_KEY)
                        Toy.idle)) =
                Done (tt,
                      set_mTarget IMAGE_TARGET_ID
                        (set_mVbRenderBackend VU_RENDER_VB_BACKEND_GLES3
                           (set_mInitDoneCallback (Some 2)
                              (set_mShowErrorCallback (Some 3) initial_controller)))))
    by (vm_compute; reflexivity).
  split; [exact R | ].
  exact (@initAR_destroys_config_set _ _ Toy.env
           (Toy.with_engineCreate
              (VU_FAILED, nullptr, VU_ENGINE_CREATION_ERROR_LICENSE_CONFIG_MISSING_KEY)
              Toy.idle)
           initial_controller _ (Some 8) Toy.initConfig IMAGE_TARGET_ID R).
Defined.

(** ** From initialisation to shutdown *)

(** After the successful initialisation of the toy engine, with the engine
    running, [deinitAR] stops engine 1, destroys the observers 31 and 30
    and then the engine. *)
Lemma deinitAR_destroys_what_initAR_created_witness :
  res (run Toy.env (initAR (Some 8) Toy.initConfig IMAGE_TARGET_ID initial_controller)
         Toy.idle) = Done (tt, Toy.initialised IMAGE_TARGET_ID)
  /\ In (DoneCalled 2)
        (view setup_event
           (trace (run Toy.env
                     (initAR (Some 8) Toy.initConfig IMAGE_TARGET_ID initial_controller)
                     Toy.idle)))
  /\ created_by_init
       (view setup_event
          (trace (run Toy.env
                    (initAR (Some 8) Toy.initConfig IMAGE_TARGET_ID initial_controller)
                    Toy.idle)))
       (Some 1) (Some 30) (Some 31)
  /\ view lifecycle_event
       (trace (run Toy.env (deinitAR (Toy.initialised IMAGE_TARGET_ID)) Toy.started)) =
       [EngineStopped (Some 1); ObserverDestroyed (Some 31); ObserverDestroyed (Some 30);
        EngineDestroyed (Some 1)].
Proof.
  assert (R : res (run Toy.env
                     (initAR (Some 8) Toy.initConfig IMAGE_TARGET_ID initial_controller)
                     Toy.idle) = Done (tt, Toy.initialised IMAGE_TARGET_ID))
    by (vm_compute; reflexivity).
  assert (D : In (DoneCalled 2)
                (view setup_event
                   (trace (run Toy.env
                             (initAR (Some 8) Toy.initConfig IMAGE_TARGET_ID
                                initial_controller)
                             Toy.idle))))
    by (vm_compute; tauto).
  split; [exact R | ]. split; [exact D | ].
  destruct (@deinitAR_destroys_what_initAR_created _ _ Toy.env Toy.idle initial_controller
              _ (Some 8) Toy.initConfig IMAGE_TARGET_ID 2 R D) as [C [_ H]].
  split; [exact C | ].
  rewrite (H _ Toy.env Toy.started). reflexivity.
Defined.

(** ** The wrapper's render loop *)

(** One call of [renderFrame] on the toy engine, started, with the image
    target tracked and without ARCore. *)
Lemma jni_renderFrame_draws_witness :
  mARStarted (set_mARStarted true (Toy.initialised IMAGE_TARGET_ID)) = true
  /\ controller_neutral (ret tt)
  /\ fst (returned
            (res (run Toy.env
                    (jni_renderFrame false (ret tt)
                       {| l_viewport := [9; 9; 9; 9; 9; 9];
                          l_worldOrigin := (Toy.matrix, Toy.matrix);
                          l_trackable := (Toy.matrix, Toy.matrix, Toy.matrix);
                          l_modelTargetGuideViewImage := Toy.imageInfo;
                          l_guideViewImageHasChanged := VU_FALSE;
                          l_vbTextureUnit := 7 |}
                       (set_mARStarted true (Toy.initialised IMAGE_TARGET_ID)))
                    Toy.started))
            (false, [], initial_controller)) =
       (true,
        [glClear; glViewport 0 0 1080 1920; renderVideoBackground Toy.matrix 6;
         renderWorldOrigin Toy.matrix Toy.matrix;
         renderImageTarget Toy.matrix Toy.matrix Toy.matrix])
  /\ drawn_frame (Toy.renderState Toy.started)
       [glClear; glViewport 0 0 1080 1920; renderVideoBackground Toy.matrix 6;
        renderWorldOrigin Toy.matrix Toy.matrix;
        renderImageTarget Toy.matrix Toy.matrix Toy.matrix].
Proof.
  assert (N : controller_neutral (ret tt)) by (intros c; split; reflexivity).
  assert (R : res (run Toy.env
                     (jni_renderFrame false (ret tt)
                        {| l_viewport := [9; 9; 9; 9; 9; 9];
                           l_worldOrigin := (Toy.matrix, Toy.matrix);
                           l_trackable := (Toy.matrix, Toy.matrix, Toy.matrix);
                           l_modelTargetGuideViewImage := Toy.imageInfo;
                           l_guideViewImageHasChanged := VU_FALSE;
                           l_vbTextureUnit := 7 |}
                        (set_mARStarted true (Toy.initialised IMAGE_TARGET_ID)))
                     Toy.started) =
                Done (true,
                      [glClear; glViewport 0 0 1080 1920; renderVideoBackground Toy.matrix 6;
                       renderWorldOrigin Toy.matrix Toy.matrix;
                       renderImageTarget Toy.matrix Toy.matrix Toy.matrix],
                      set_mLatestDevicePoseData
                        {| pose := Toy.matrix;
                           poseStatus := VU_OBSERVATION_POSE_STATUS_TRACKED;
                           poseStatusInfo := VU_DEVICE_POSE_OBSERVATION_STATUS_INFO_NORMAL |}
                        (set_mCurrentRenderState (Toy.renderState Toy.started)
                           (set_mARStarted true (Toy.initialised IMAGE_TARGET_ID)))))
    by (vm_compute; reflexivity).
  split; [reflexivity | ]. split; [exact N | ]. split; [rewrite R; reflexivity | ].
  destruct (@jni_renderFrame_draws _ _ Toy.env Toy.started
              (set_mARStarted true (Toy.initialised IMAGE_TARGET_ID)) _ false (ret tt) _ _ _
              eq_refl N R) as [C | D].
  - discriminate C.
  - exact D.
Defined.

End Examples.
